(** * pg_mcp.services.sql_executor: a shallow embedding and its properties

    The file embeds [src/pg_mcp/services/sql_executor.py]: the value
    serializer ([serialize_value], [_serialize_results]), the row limiter and
    the single attempt ([_execute_once]), session hardening
    ([_set_session_params]) and the retry loop ([execute]).

    Conventions of the embedding.
    - A Python [str] is a [string]; each [ascii] stands for the code point of
      the same number (U+0000 to U+00FF).
    - A Python [int] is a [Z].  A Python [float] ([timeout], [retry_delay],
      [backoff_factor], a float in a result cell) is a binary64 value
      ([PrimFloat.float]): a product is rounded to the nearest value and
      overflows to an infinity, as [*] on floats does.
    - The database is an oracle ([Database]): for the n-th acquired
      connection it says what [pool.acquire], [conn.execute] and
      [conn.fetch] do.  Effects are recorded in a chronological [trace].
    - [asyncio.sleep] is recorded with its delay and is taken to return;
      what the event loop does with a delay that is no number (a NaN) is
      not modelled.  A first delay above zero and a factor of at least 1,
      as the spec's retry policy has them, give no such delay.
    - [logger.warning] is not modelled. *)

From Stdlib Require Import ZArith QArith Qpower List String Ascii Bool Lia.
From Stdlib Require Import Strings.Byte.
From Stdlib Require Import DecimalString.
From Stdlib Require Import Floats.PrimFloat Floats.SpecFloat Floats.FloatOps.
Import ListNotations.

Open Scope string_scope.
Open Scope list_scope.
Open Scope Z_scope.

(** ** Python builtins used by the source *)

Module Py.

(** [c.isalnum()] for a one-character string, on code points below 256
    (letters, decimal digits and the numeric characters of Latin-1). *)
Definition isalnum (c : ascii) : bool :=
  let n := N_of_ascii c in
  (((48 <=? n) && (n <=? 57)) || ((65 <=? n) && (n <=? 90))
   || ((97 <=? n) && (n <=? 122))
   || (n =? 170) || (n =? 178) || (n =? 179) || (n =? 181)
   || (n =? 185) || (n =? 186) || ((188 <=? n) && (n <=? 190))
   || ((192 <=? n) && (n <=? 214)) || ((216 <=? n) && (n <=? 246))
   || (248 <=? n))%N.

(** [all(p(c) for c in s)]. *)
Fixpoint all (p : ascii -> bool) (s : string) : bool :=
  match s with
  | EmptyString => true
  | String c rest => p c && all p rest
  end.

(** [str(n)] for an [int]. *)
Definition str_of_int (n : Z) : string :=
  NilZero.string_of_int (Z.to_int n).

(** [len(l)]. *)
Definition len {A : Type} (l : list A) : Z := Z.of_nat (List.length l).

(** [l[:stop]]: a negative [stop] counts from the end. *)
Definition slice_to {A : Type} (l : list A) (stop : Z) : list A :=
  if stop <? 0 then firstn (Z.to_nat (len l + stop)) l
  else firstn (Z.to_nat stop) l.

(** [s[:n]] for a string and a literal [n >= 0]. *)
Definition str_slice_to (s : string) (n : nat) : string := substring 0 n s.

(** [range(n)]. *)
Definition range (n : Z) : list Z := map Z.of_nat (seq 0 (Z.to_nat n)).

(** What [int(x)] gives for a float: an [int], or one of the two errors it
    raises. *)
Inductive to_int :=
| Int (n : Z)
| OverflowError
| ValueError.

(** [int(x)] for a float: truncation towards zero of a finite value
    [m * 2 ^ e] (a shift of [m], to the right when [e] is negative);
    [OverflowError] for an infinity and [ValueError] for a NaN. *)
Definition int_of_float (x : float) : to_int :=
  match Prim2SF x with
  | S754_zero _ => Int 0
  | S754_finite negative m e =>
      let magnitude := Z.shiftl (Zpos m) e in
      Int (if negative then - magnitude else magnitude)
  | S754_infinity _ => OverflowError
  | S754_nan => ValueError
  end.

(** Truthiness, as [x or default] and [if x:] test it: a float is falsy
    when it equals zero ([0.0] or [-0.0]); a NaN is truthy. *)
Definition truthy_float (x : float) : bool := negb (x =? 0)%float.
Definition truthy_int (n : Z) : bool := negb (n =? 0).
Definition truthy_str (s : string) : bool :=
  match s with EmptyString => false | _ => true end.

(** [x or default] where [x] is [None] or a number. *)
Definition or_float (x : option float) (default : float) : float :=
  match x with
  | Some v => if truthy_float v then v else default
  | None => default
  end.

Definition or_int (x : option Z) (default : Z) : Z :=
  match x with
  | Some v => if truthy_int v then v else default
  | None => default
  end.

(** Left padding with zeros, as ["%0<width>d"] does for [n >= 0]. *)
Fixpoint zeros (k : nat) : string :=
  match k with
  | O => EmptyString
  | S k' => String "0" (zeros k')
  end.

Definition zfill (width : nat) (s : string) : string :=
  (zeros (width - String.length s) ++ s)%string.

Definition fmt_d (width : nat) (n : Z) : string :=
  if n <? 0 then ("-" ++ zfill (width - 1) (str_of_int (- n)))%string
  else zfill width (str_of_int n).

(** One lowercase hexadecimal digit. *)
Definition hex_digit (n : N) : ascii :=
  if (n <? 10)%N then ascii_of_N (48 + n) else ascii_of_N (87 + n).

(** [b.hex()] for [bytes]. *)
Fixpoint bytes_hex (b : list byte) : string :=
  match b with
  | [] => EmptyString
  | x :: rest =>
      let n := Byte.to_N x in
      String (hex_digit (n / 16)) (String (hex_digit (n mod 16)) (bytes_hex rest))
  end.

(** ["%0<digits>x" % n]: the low [digits] hexadecimal digits of [n],
    most significant first. *)
Fixpoint hex_fixed (digits : nat) (n : N) : string :=
  match digits with
  | O => EmptyString
  | S d =>
      (hex_fixed d (n / 16) ++ String (hex_digit (n mod 16)) EmptyString)%string
  end.

End Py.

Arguments Py.int_of_float : simpl never.

(** ** Values held by result cells *)

(** [datetime.date]. *)
Record pydate := { year : Z; month : Z; day : Z }.

(** [datetime.time]; [utcoffset] is the offset of its [tzinfo] in seconds,
    [None] for a naive time. *)
Record pytime := {
  hour : Z; minute : Z; second : Z; microsecond : Z;
  utcoffset : option Z
}.

(** [datetime.timedelta], normalised as Python keeps it:
    [0 <= seconds < 86400] and [0 <= microseconds < 1000000]. *)
Record pytimedelta := { days : Z; seconds : Z; microseconds : Z }.

(** [decimal.Decimal] as PostgreSQL's [numeric] produces it: a finite
    [(-1)^negative * coefficient * 10^exponent], an infinity or [NaN]. *)
Inductive pydecimal :=
| DecFinite (negative : bool) (coefficient : N) (exponent : Z)
| DecInfinity (negative : bool)
| DecNaN.

(** [uuid.UUID], by its 128-bit [int]. *)
Record pyuuid := { uuid_int : N }.

Set Warnings "-register-all".

(** The values a cell can hold.  [VOther] is a value of any type the
    serializer does not list (a [Record], a range, a [bytearray], ...). *)
Inductive pyvalue :=
| VNone
| VBool (b : bool)
| VInt (n : Z)
| VFloat (x : float)
| VStr (s : string)
| VDatetime (d : pydate) (t : pytime)
| VDate (d : pydate)
| VTime (t : pytime)
| VTimedelta (td : pytimedelta)
| VDecimal (d : pydecimal)
| VUUID (u : pyuuid)
| VBytes (b : list byte)
| VList (items : list pyvalue)
| VTuple (items : list pyvalue)
| VDict (items : list (pyvalue * pyvalue))
| VOther (type_name : string) (repr : string).

(** A row as a [dict]: column names with their values, in insertion order. *)
Definition row := list (string * pyvalue).

(** An [asyncpg.Record]: the columns of one fetched row, in order. *)
Definition record := list (string * pyvalue).

Module PyLib.

(** [date.isoformat()]. *)
Definition date_isoformat (d : pydate) : string :=
  (Py.fmt_d 4 (year d) ++ "-" ++ Py.fmt_d 2 (month d) ++ "-"
     ++ Py.fmt_d 2 (day d))%string.

(** The fraction [".%06d"], present when the microseconds are not zero. *)
Definition format_micro (us : Z) : string :=
  if us =? 0 then EmptyString else ("." ++ Py.fmt_d 6 us)%string.

(** The UTC offset of an aware time: sign, hours and minutes, and the
    seconds when there are some. *)
Definition format_offset (off : option Z) : string :=
  match off with
  | None => EmptyString
  | Some o =>
      let sign := if o <? 0 then "-" else "+" in
      let a := Z.abs o in
      let hh := a / 3600 in
      let mm := (a mod 3600) / 60 in
      let ss := a mod 60 in
      let tail := if ss =? 0 then EmptyString else (":" ++ Py.fmt_d 2 ss)%string in
      (sign ++ Py.fmt_d 2 hh ++ ":" ++ Py.fmt_d 2 mm ++ tail)%string
  end.

Definition format_time (t : pytime) : string :=
  (Py.fmt_d 2 (hour t) ++ ":" ++ Py.fmt_d 2 (minute t) ++ ":"
     ++ Py.fmt_d 2 (second t) ++ format_micro (microsecond t))%string.

(** [time.isoformat()]. *)
Definition time_isoformat (t : pytime) : string :=
  (format_time t ++ format_offset (utcoffset t))%string.

(** [datetime.isoformat()]. *)
Definition datetime_isoformat (d : pydate) (t : pytime) : string :=
  (date_isoformat d ++ "T" ++ format_time t ++ format_offset (utcoffset t))%string.

(** [str(td)] for a [timedelta]. *)
Definition timedelta_str (td : pytimedelta) : string :=
  let mm := seconds td / 60 in
  let ss := seconds td mod 60 in
  let hh := mm / 60 in
  let mm := mm mod 60 in
  let s := (Py.str_of_int hh ++ ":" ++ Py.fmt_d 2 mm ++ ":" ++ Py.fmt_d 2 ss)%string in
  let plural := if Z.abs (days td) =? 1 then EmptyString else "s" in
  let s :=
    if days td =? 0 then s
    else (Py.str_of_int (days td) ++ " day" ++ plural ++ ", " ++ s)%string in
  (s ++ format_micro (microseconds td))%string.

(** [float(d)] for a [Decimal]: the binary64 value nearest to [d]
    (ties to even), an infinity when [d] is out of range. *)
Definition float_of_decimal (d : pydecimal) : float :=
  SF2Prim
    match d with
    | DecNaN => S754_nan
    | DecInfinity s => S754_infinity s
    | DecFinite s N0 _ => S754_zero s
    | DecFinite s (Npos c) e =>
        if 0 <=? e then binary_round prec emax s (c * Z.to_pos (10 ^ e))%positive 0
        else SFdiv prec emax (S754_finite s c 0)
               (S754_finite false (Z.to_pos (10 ^ (- e))) 0)
    end.

(** [str(u)] for a [UUID]: 32 lowercase hexadecimal digits in groups of
    8, 4, 4, 4 and 12. *)
Definition uuid_str (u : pyuuid) : string :=
  let h := Py.hex_fixed 32 (uuid_int u) in
  (substring 0 8 h ++ "-" ++ substring 8 4 h ++ "-" ++ substring 12 4 h
     ++ "-" ++ substring 16 4 h ++ "-" ++ substring 20 12 h)%string.

(** [d[k] = v] on a dict kept as its items in insertion order: an existing
    key keeps its place and takes the new value. *)
Fixpoint dict_set (d : row) (k : string) (v : pyvalue) : row :=
  match d with
  | [] => [(k, v)]
  | (k', v') :: rest =>
      if String.eqb k' k then (k', v) :: rest else (k', v') :: dict_set rest k v
  end.

(** [dict(record)]. *)
Definition dict_of_record (r : record) : row :=
  fold_left (fun d kv => dict_set d (fst kv) (snd kv)) r [].

End PyLib.

(** ** The value serializer *)

(** [serialize_value], the inner function of [_serialize_results]. *)
Fixpoint serialize_value (value : pyvalue) : pyvalue :=
  match value with
  | VNone => VNone
  | VDatetime d t => VStr (PyLib.datetime_isoformat d t)
  | VDate d => VStr (PyLib.date_isoformat d)
  | VTime t => VStr (PyLib.time_isoformat t)
  | VTimedelta td => VStr (PyLib.timedelta_str td)
  | VDecimal d => VFloat (PyLib.float_of_decimal d)
  | VUUID u => VStr (PyLib.uuid_str u)
  | VBytes b => VStr (Py.bytes_hex b)
  | VList items => VList (map serialize_value items)
  | VTuple items => VList (map serialize_value items)
  | VDict items =>
      VDict (map (fun kv => let '(k, v) := kv in (k, serialize_value v)) items)
  | VBool _ | VInt _ | VFloat _ | VStr _ | VOther _ _ => value
  end.

(** [_serialize_results]. *)
Definition _serialize_results (results : list row) : list row :=
  map (fun r => map (fun kv => (fst kv, serialize_value (snd kv))) r) results.

(** A JSON-compatible value: [None], a string, an integer, a float, a
    boolean, a list of such values, or a dict of such values keyed by
    strings. *)
Fixpoint is_json (v : pyvalue) : bool :=
  match v with
  | VNone | VBool _ | VInt _ | VFloat _ | VStr _ => true
  | VList items => forallb is_json items
  | VDict items =>
      forallb (fun kv =>
                 let '(k, x) := kv in
                 match k with VStr _ => is_json x | _ => false end) items
  | _ => false
  end.

(** A value made of the shapes the serializer lists only: no [VOther]
    inside, and dicts keyed by strings. *)
Fixpoint is_listed (v : pyvalue) : bool :=
  match v with
  | VOther _ _ => false
  | VList items | VTuple items => forallb is_listed items
  | VDict items =>
      forallb (fun kv =>
                 let '(k, x) := kv in
                 match k with VStr _ => is_listed x | _ => false end) items
  | _ => true
  end.

(** A decimal digit or a letter from [a] to [f]. *)
Definition is_lower_hex (c : ascii) : bool :=
  let n := N_of_ascii c in
  (((48 <=? n) && (n <=? 57)) || ((97 <=? n) && (n <=? 102)))%N.

(** ** Errors *)

(** A value of an error's [details] dict. *)
Inductive detail :=
| DNone
| DStr (s : string)
| DInt (n : Z)
| DFloat (x : float).

Definition details := list (string * detail).

(** The exceptions the executor sees.  [DatabaseError] and
    [ExecutionTimeoutError] are those of [pg_mcp.models.errors];
    [PostgresError] is [asyncpg.PostgresError] or a subclass, with its
    [sqlstate] attribute ([None] when it has none) and [str(e)];
    [TimeoutError] is the builtin that [asyncio.wait_for] raises (Python
    3.11 and later);
    [PyException] is any other subclass of [Exception]. *)
Inductive exn :=
| DatabaseError (message : string) (context : details)
| ExecutionTimeoutError (message : string) (context : details)
| PostgresError (sqlstate : option string) (text : string)
| TimeoutError (text : string)
| PyException (type_name : string) (text : string).

(** [type(e).__name__]. *)
Definition exn_type_name (e : exn) : string :=
  match e with
  | DatabaseError _ _ => "DatabaseError"
  | ExecutionTimeoutError _ _ => "ExecutionTimeoutError"
  | PostgresError _ _ => "PostgresError"
  | TimeoutError _ => "TimeoutError"
  | PyException n _ => n
  end.

(** [str(e)]; the errors of [pg_mcp.models.errors] are taken to print as
    their message. *)
Definition exn_str (e : exn) : string :=
  match e with
  | DatabaseError m _ => m
  | ExecutionTimeoutError m _ => m
  | PostgresError _ t => t
  | TimeoutError t => t
  | PyException _ t => t
  end.

Definition detail_of_opt_str (o : option string) : detail :=
  match o with
  | Some s => DStr s
  | None => DNone
  end.

(** Transient PostgreSQL error codes that warrant retry. *)
Definition RETRYABLE_ERROR_CODES : list string :=
  [ "08000"; "08003"; "08006"; "08001"; "08004"; "40001"; "40P01";
    "53300"; "57P01"; "57P02"; "57P03" ].

(** [error_code in RETRYABLE_ERROR_CODES]. *)
Definition is_retryable (error_code : option string) : bool :=
  match error_code with
  | Some c => existsb (String.eqb c) RETRYABLE_ERROR_CODES
  | None => false
  end.

(** ** Configuration *)

Record SecurityConfig := {
  max_execution_time : float;
  max_rows : Z;
  safe_search_path : string;
  readonly_role : option string
}.

Module ResilienceConfig.
Record t := { max_retries : Z; retry_delay : float; backoff_factor : float }.
End ResilienceConfig.

(** The fields of [SQLExecutor] that its methods read. *)
Record SQLExecutor := {
  security_config : SecurityConfig;
  max_retries : Z;
  retry_delay : float;
  backoff_factor : float
}.

(** [SQLExecutor.__init__]: the retry settings, with their defaults. *)
Definition init (security : SecurityConfig)
    (resilience_config : option ResilienceConfig.t) : SQLExecutor :=
  match resilience_config with
  | Some rc =>
      {| security_config := security;
         max_retries := ResilienceConfig.max_retries rc;
         retry_delay := ResilienceConfig.retry_delay rc;
         backoff_factor := ResilienceConfig.backoff_factor rc |}
  | None =>
      {| security_config := security;
         max_retries := 3;
         retry_delay := 1;
         backoff_factor := 2 |}
  end.

(** ** The database and the effects of a call *)

(** What [conn.fetch] does: it returns records or raises. *)
Inductive fetched :=
| Fetched (records : list record)
| FetchRaises (e : exn).

(** What one connection does: whether acquiring it or opening the read-only
    transaction raises, whether a statement given to [conn.execute] raises,
    and what [asyncio.wait_for(conn.fetch(sql), timeout)] gives. *)
Record Connection := {
  acquire_error : option exn;
  begin_error : option exn;
  execute_error : string -> option exn;
  fetch : string -> float -> fetched
}.

(** The pool: the behaviour of the n-th connection it hands out. *)
Definition Database := nat -> Connection.

Inductive event :=
| EvAcquire (conn : nat)
| EvBegin (conn : nat)
| EvExecute (conn : nat) (statement : string)
| EvFetch (conn : nat) (sql : string) (timeout : float)
| EvCommit (conn : nat)
| EvRollback (conn : nat)
| EvRelease (conn : nat)
| EvSleep (delay : float).

Record World := {
  acquired : nat;          (* connections asked of the pool so far *)
  trace : list event       (* effects so far, oldest first *)
}.

Inductive result (A : Type) :=
| Ok (a : A)
| Raise (e : exn).
Arguments Ok {A} a.
Arguments Raise {A} e.

(** Computations that read and extend the world and may raise. *)
Definition M (A : Type) : Type := World -> result A * World.

Definition ret {A : Type} (a : A) : M A := fun w => (Ok a, w).

Definition raise {A : Type} (e : exn) : M A := fun w => (Raise e, w).

Definition bind {A B : Type} (m : M A) (k : A -> M B) : M B :=
  fun w =>
    match m w with
    | (Ok a, w') => k a w'
    | (Raise e, w') => (Raise e, w')
    end.

Declare Scope exec_scope.
Delimit Scope exec_scope with exec.
Notation "x <- m ;; k" := (bind m (fun x => k))
  (at level 100, m at next level, right associativity) : exec_scope.
Notation "m ;; k" := (bind m (fun _ => k))
  (at level 100, right associativity) : exec_scope.

(** [try: m  except Exception as e: handler(e)]. *)
Definition try_catch {A : Type} (m : M A) (handler : exn -> M A) : M A :=
  fun w =>
    match m w with
    | (Ok a, w') => (Ok a, w')
    | (Raise e, w') => handler e w'
    end.

(** [if b: m]. *)
Definition when (b : bool) (m : M unit) : M unit :=
  if b then m else ret tt.

Definition emit (ev : event) : M unit :=
  fun w => (Ok tt, {| acquired := acquired w; trace := trace w ++ [ev] |}).

(** An effect that raises when the oracle says so. *)
Definition may_raise (o : option exn) : M unit :=
  match o with
  | Some e => raise e
  | None => ret tt
  end.

(** [pool.acquire()]: the next connection of the pool. *)
Definition pool_acquire (db : Database) : M nat :=
  fun w =>
    let conn := acquired w in
    let w' := {| acquired := S conn; trace := trace w ++ [EvAcquire conn] |} in
    match acquire_error (db conn) with
    | Some e => (Raise e, w')
    | None => (Ok conn, w')
    end.

(** [await conn.execute(statement)]. *)
Definition conn_execute (db : Database) (conn : nat) (statement : string) : M unit :=
  (emit (EvExecute conn statement) ;;
   may_raise (execute_error (db conn) statement))%exec.

(** [await asyncio.wait_for(conn.fetch(sql), timeout=timeout)]. *)
Definition conn_fetch (db : Database) (conn : nat) (sql : string) (timeout : float)
  : M (list record) :=
  (emit (EvFetch conn sql timeout) ;;
   match fetch (db conn) sql timeout with
   | Fetched records => ret records
   | FetchRaises e => raise e
   end)%exec.

(** [int(x)] for a float, with the errors it raises. *)
Definition int (x : float) : M Z :=
  match Py.int_of_float x with
  | Py.Int n => ret n
  | Py.OverflowError =>
      raise (PyException "OverflowError"
               "cannot convert float infinity to integer")
  | Py.ValueError =>
      raise (PyException "ValueError" "cannot convert float NaN to integer")
  end.

(** [await asyncio.sleep(delay)]. *)
Definition sleep (delay : float) : M unit := emit (EvSleep delay).

(** [async with pool.acquire() as connection,
    connection.transaction(readonly=True): body].  The transaction is
    committed when the body returns and rolled back when it raises; the
    connection goes back to the pool on every path. *)
Definition with_readonly_transaction {A : Type} (db : Database)
    (body : nat -> M A) : M A :=
  (conn <- pool_acquire db ;;
   fun w =>
     let '(r, w1) :=
       (emit (EvBegin conn) ;;
        may_raise (begin_error (db conn)) ;;
        fun w0 =>
          match body conn w0 with
          | (Ok a, w') => (Ok a, snd (emit (EvCommit conn) w'))
          | (Raise e, w') => (Raise e, snd (emit (EvRollback conn) w'))
          end) w in
     (r, snd (emit (EvRelease conn) w1)))%exec.

(** ** The executor *)

Section Executor.

(** How an f-string prints a [float] ([format(x, "")]); the executor only
    uses it in the message of [ExecutionTimeoutError]. *)
Variable float_str : float -> string.

Variable self : SQLExecutor.
Variable db : Database.

(** The character test of the [search_path] check:
    [c.isalnum() or c in ("_", ",", " ")]. *)
Definition search_path_char (c : ascii) : bool :=
  Py.isalnum c
  || (Ascii.eqb c "_" || (Ascii.eqb c "," || (Ascii.eqb c " " || false))).

(** The character test of the role check: [c.isalnum() or c == "_"]. *)
Definition role_char (c : ascii) : bool :=
  Py.isalnum c || Ascii.eqb c "_".

(** The three session commands. *)
Definition set_statement_timeout (timeout_ms : Z) : string :=
  ("SET statement_timeout = " ++ Py.str_of_int timeout_ms)%string.

Definition set_search_path (search_path : string) : string :=
  ("SET search_path = '" ++ search_path ++ "'")%string.

Definition set_role (readonly_role : string) : string :=
  ("SET ROLE " ++ readonly_role)%string.

(** [if self.security_config.readonly_role:] and the role it then reads. *)
Definition configured_role (c : SecurityConfig) : option string :=
  match readonly_role c with
  | Some r => if Py.truthy_str r then Some r else None
  | None => None
  end.

(** [SQLExecutor._set_session_params].  [int(timeout * 1000)] is the first
    statement of the [try]; what it raises is no [PostgresError] and so
    passes the handler. *)
Definition _set_session_params (conn : nat) (timeout : float) : M unit :=
  (timeout_ms <- int (timeout * 1000)%float ;;
  try_catch
    (conn_execute db conn (set_statement_timeout timeout_ms) ;;
     let search_path := safe_search_path (security_config self) in
     when (negb (Py.all search_path_char search_path))
       (raise (DatabaseError "Invalid search_path configuration"
                 [("search_path", DStr search_path)])) ;;
     conn_execute db conn (set_search_path search_path) ;;
     match configured_role (security_config self) with
     | Some readonly_role =>
         when (negb (Py.all role_char readonly_role))
           (raise (DatabaseError "Invalid readonly_role configuration"
                     [("readonly_role", DStr readonly_role)])) ;;
         conn_execute db conn (set_role readonly_role)
     | None => ret tt
     end)%exec
    (fun e =>
       match e with
       | PostgresError code text =>
           raise (DatabaseError
                    ("Failed to set session parameters: " ++ text)%string
                    [("error_code", detail_of_opt_str code);
                     ("timeout_ms", DInt timeout_ms);
                     ("search_path",
                       DStr (safe_search_path (security_config self)));
                     ("readonly_role",
                       detail_of_opt_str (readonly_role (security_config self)))])
       | _ => raise e
       end))%exec.

(** The row limiter of [_execute_once]: the count before limiting, and
    the records kept. *)
Definition limit_rows (records : list record) (max_rows : Z)
  : list record * Z :=
  let total_count := Py.len records in
  let records :=
    if Py.len records >? max_rows then Py.slice_to records max_rows
    else records in
  (records, total_count).

(** [SQLExecutor._execute_once]. *)
Definition _execute_once (sql : string) (timeout : float) (max_rows : Z)
  : M (list row * Z) :=
  with_readonly_transaction db (fun connection =>
    (_set_session_params connection timeout ;;
     records <-
       try_catch (conn_fetch db connection sql timeout)
         (fun e =>
            match e with
            | TimeoutError _ =>
                raise (ExecutionTimeoutError
                         ("Query execution exceeded timeout of "
                            ++ float_str timeout ++ " seconds")%string
                         [("timeout_seconds", DFloat timeout);
                          ("sql", DStr (Py.str_slice_to sql 200))])
            | _ => raise e
            end) ;;
     let '(records, total_count) := limit_rows records max_rows in
     let results := map PyLib.dict_of_record records in
     let results := _serialize_results results in
     ret (results, total_count))%exec).

(** The loop of [execute]: [attempts] are the values of [attempt] still to
    come, [delay] and [last_error] the loop's variables. *)
Fixpoint execute_attempts (sql : string) (timeout : float) (max_rows : Z)
    (attempts : list Z) (delay : float) (last_error : option exn)
  : M (list row * Z) :=
  match attempts with
  | [] =>
      match last_error with
      | Some e =>
          raise (DatabaseError
                   ("Database query failed after "
                      ++ Py.str_of_int (max_retries self + 1)
                      ++ " attempts: " ++ exn_str e)%string
                   [("attempts", DInt (max_retries self + 1))])
      | None =>
          raise (DatabaseError "Query execution failed unexpectedly" [])
      end
  | attempt :: rest =>
      try_catch (_execute_once sql timeout max_rows)
        (fun e =>
           match e with
           | ExecutionTimeoutError _ _ => raise e
           | PostgresError error_code text =>
               if is_retryable error_code && (attempt <? max_retries self)
               then
                 (sleep delay ;;
                  execute_attempts sql timeout max_rows rest
                    (delay * backoff_factor self)%float (Some e))%exec
               else
                 raise (DatabaseError
                          ("Database query failed: " ++ text)%string
                          [("error_code", detail_of_opt_str error_code);
                           ("error_message", DStr text);
                           ("sql", DStr (Py.str_slice_to sql 200));
                           ("attempts", DInt (attempt + 1))])
           | _ =>
               raise (DatabaseError
                        ("Unexpected error during query execution: "
                           ++ exn_str e)%string
                        [("error_type", DStr (exn_type_name e));
                         ("error_message", DStr (exn_str e))])
           end)
  end.

(** [SQLExecutor.execute]. *)
Definition execute (sql : string) (timeout : option float) (max_rows' : option Z)
  : M (list row * Z) :=
  let timeout := Py.or_float timeout (max_execution_time (security_config self)) in
  let max_rows := Py.or_int max_rows' (max_rows (security_config self)) in
  execute_attempts sql timeout max_rows
    (Py.range (max_retries self + 1)) (retry_delay self) None.

End Executor.

(** ** Reading a trace *)

(** The number of attempts: each one asks the pool for a connection. *)
Fixpoint attempts_of (evs : list event) : nat :=
  match evs with
  | [] => O
  | EvAcquire _ :: rest => S (attempts_of rest)
  | _ :: rest => attempts_of rest
  end.

(** The backoff sleeps, in order. *)
Fixpoint sleeps_of (evs : list event) : list float :=
  match evs with
  | [] => []
  | EvSleep d :: rest => d :: sleeps_of rest
  | _ :: rest => sleeps_of rest
  end.

(** The statements given to [conn.execute], each with its connection. *)
Fixpoint statements_of (evs : list event) : list (nat * string) :=
  match evs with
  | [] => []
  | EvExecute c s :: rest => (c, s) :: statements_of rest
  | _ :: rest => statements_of rest
  end.

(** The world before a call. *)
Definition fresh : World := {| acquired := O; trace := [] |}.

(** One attempt on the [n]-th connection of the pool, run on an empty
    trace: its result and the effects it adds. *)
Definition attempt (float_str : float -> string) (self : SQLExecutor)
    (db : Database) (sql : string) (timeout : float) (max_rows : Z) (n : nat)
  : result (list row * Z) * World :=
  _execute_once float_str self db sql timeout max_rows
    {| acquired := n; trace := [] |}.

(** The delays of [k] successive retries: each is the previous one times the
    backoff factor ([delay *= self.backoff_factor]), a binary64 product. *)
Fixpoint backoff_delays (delay factor : float) (k : nat) : list float :=
  match k with
  | O => []
  | S k' => delay :: backoff_delays (delay * factor)%float factor k'
  end.

(** The world started from the counter of [w] with an empty trace, and the
    world [w] continued by the effects of [w1]. *)
Definition rebase (w : World) : World :=
  {| acquired := acquired w; trace := [] |}.

Definition graft (w w1 : World) : World :=
  {| acquired := acquired w1; trace := trace w ++ trace w1 |}.

(** A computation is framed when it only appends to the trace and never
    reads it. *)
Definition framed {A : Type} (m : M A) : Prop :=
  forall w, m w = (fst (m (rebase w)), graft w (snd (m (rebase w)))).

(** A computation is quiet when it asks no connection of the pool and does
    not sleep. *)
Definition quiet {A : Type} (m : M A) : Prop :=
  forall w,
    acquired (snd (m w)) = acquired w
    /\ attempts_of (trace (snd (m w))) = attempts_of (trace w)
    /\ sleeps_of (trace (snd (m w))) = sleeps_of (trace w).

Definition quiet_event (ev : event) : bool :=
  match ev with
  | EvAcquire _ | EvSleep _ => false
  | _ => true
  end.

(** The attempt on the [n]-th connection fails with a database error whose
    code is one of [RETRYABLE_ERROR_CODES]. *)
Definition transient_attempt (float_str : float -> string) (self : SQLExecutor)
    (db : Database) (sql : string) (timeout : float) (max_rows : Z) (n : nat)
  : Prop :=
  exists code text,
    fst (attempt float_str self db sql timeout max_rows n)
    = Raise (PostgresError (Some code) text)
    /\ In code RETRYABLE_ERROR_CODES.

(** A connection that is handed out, opens its transaction and accepts
    every session command. *)
Definition accepts (c : Connection) : Prop :=
  acquire_error c = None /\ begin_error c = None
  /\ forall statement, execute_error c statement = None.

(** The statements session hardening issues when none of them fails: none
    when [int(timeout * 1000)] raises. *)
Definition session_commands (c : SecurityConfig) (timeout : float)
  : list string :=
  match Py.int_of_float (timeout * 1000)%float with
  | Py.Int timeout_ms =>
      [ set_statement_timeout timeout_ms;
        set_search_path (safe_search_path c) ]
      ++ match configured_role c with
         | Some r => [ set_role r ]
         | None => []
         end
  | Py.OverflowError | Py.ValueError => []
  end.

(** The characters of a string. *)
Definition chars (s : string) : list ascii := list_ascii_of_string s.

(** Attempts that may still be retried, among those to come. *)
Definition retriable_attempts (self : SQLExecutor) (attempts : list Z) : nat :=
  List.length (filter (fun a => a <? max_retries self) attempts).

(** A configuration that passes both character checks. *)
Definition well_configured (c : SecurityConfig) : Prop :=
  Py.all search_path_char (safe_search_path c) = true
  /\ match configured_role c with
     | Some role => Py.all role_char role = true
     | None => True
     end.

(** ** The shape of a call *)

(** How the handlers of [execute] turn the outcome of the attempt that ends
    the loop into the outcome of the call; [attempts] is [attempt + 1]. *)
Definition terminal_result (sql : string) (attempts : Z)
    (r : result (list row * Z)) : result (list row * Z) :=
  match r with
  | Ok x => Ok x
  | Raise (ExecutionTimeoutError m c) => Raise (ExecutionTimeoutError m c)
  | Raise (PostgresError error_code text) =>
      Raise (DatabaseError ("Database query failed: " ++ text)%string
               [("error_code", detail_of_opt_str error_code);
                ("error_message", DStr text);
                ("sql", DStr (Py.str_slice_to sql 200));
                ("attempts", DInt attempts)])
  | Raise e =>
      Raise (DatabaseError
               ("Unexpected error during query execution: " ++ exn_str e)%string
               [("error_type", DStr (exn_type_name e));
                ("error_message", DStr (exn_str e))])
  end.

(** The effects of a call that retries [retries] times from connection [n]
    on: an attempt, then for each retry a sleep and another attempt.
    [effects n] are the effects of the attempt on connection [n]. *)
Fixpoint call_trace (effects : nat -> list event) (factor : float) (n : nat)
    (delay : float) (retries : nat) : list event :=
  match retries with
  | O => effects n
  | S r =>
      effects n ++ EvSleep delay :: call_trace effects factor (S n)
                                      (delay * factor)%float r
  end.

(** The errors the docstring of [execute] lists. *)
Definition documented_error (e : exn) : bool :=
  match e with
  | DatabaseError _ _ | ExecutionTimeoutError _ _ => true
  | _ => false
  end.

Definition is_postgres_error (e : exn) : bool :=
  match e with
  | PostgresError _ _ => true
  | _ => false
  end.

Definition is_fetch (ev : event) : bool :=
  match ev with
  | EvFetch _ _ _ => true
  | _ => false
  end.

(** The connection an event is about, if any. *)
Definition event_conn (ev : event) : option nat :=
  match ev with
  | EvAcquire c | EvBegin c | EvExecute c _ | EvFetch c _ _
  | EvCommit c | EvRollback c | EvRelease c => Some c
  | EvSleep _ => None
  end.

(** What an attempt on a connection that passed session hardening gives,
    by what the query did. *)
Definition fetch_result (float_str : float -> string) (sql : string)
    (timeout : float) (max_rows' : Z) (f : fetched) : result (list row * Z) :=
  match f with
  | Fetched records =>
      Ok (_serialize_results
            (map PyLib.dict_of_record (fst (limit_rows records max_rows'))),
          Py.len records)
  | FetchRaises (TimeoutError _) =>
      Raise (ExecutionTimeoutError
               ("Query execution exceeded timeout of "
                  ++ float_str timeout ++ " seconds")%string
               [("timeout_seconds", DFloat timeout);
                ("sql", DStr (Py.str_slice_to sql 200))])
  | FetchRaises e => Raise e
  end.

(** The end of the transaction: commit after a result, rollback after an
    error. *)
Definition transaction_end {A : Type} (conn : nat) (r : result A) : event :=
  match r with
  | Ok _ => EvCommit conn
  | Raise _ => EvRollback conn
  end.

(** [d.get(k)] on a dict kept as its items. *)
Fixpoint dict_get (d : row) (k : string) : option pyvalue :=
  match d with
  | [] => None
  | (k', v) :: rest => if String.eqb k' k then Some v else dict_get rest k
  end.

(** The value of the last column named [k] in a record. *)
Fixpoint last_value (r : record) (k : string) : option pyvalue :=
  match r with
  | [] => None
  | (k', v) :: rest =>
      match last_value rest k with
      | Some v' => Some v'
      | None => if String.eqb k' k then Some v else None
      end
  end.

(** ** Example configurations and databases *)

(** The examples print one float only, the timeout [30.0]. *)
Definition print_thirty (x : float) : string := "30.0".

Definition example_security : SecurityConfig :=
  {| max_execution_time := 30;
     max_rows := 2;
     safe_search_path := "public";
     readonly_role := Some "readonly_user" |}.

(** An executor with the default retry settings: 3 retries, a first delay
    of 1 second, a backoff factor of 2. *)
Definition example_executor : SQLExecutor := init example_security None.

(** A connection on which every command succeeds and the query gives
    [records]. *)
Definition serving (records : list record) : Connection :=
  {| acquire_error := None;
     begin_error := None;
     execute_error := fun _ => None;
     fetch := fun _ _ => Fetched records |}.

(** A connection on which the query raises [e]. *)
Definition failing (e : exn) : Connection :=
  {| acquire_error := None;
     begin_error := None;
     execute_error := fun _ => None;
     fetch := fun _ _ => FetchRaises e |}.

Definition deadlock : exn := PostgresError (Some "40P01") "deadlock detected".

Definition syntax_error : exn :=
  PostgresError (Some "42601") "syntax error at or near FROM".

Definition three_records : list record :=
  [ [("id", VInt 1)]; [("id", VInt 2)]; [("id", VInt 3)] ].

(** A configuration whose search path holds a semicolon. *)
Definition injected_security : SecurityConfig :=
  {| max_execution_time := 30;
     max_rows := 2;
     safe_search_path := "public; DROP TABLE users";
     readonly_role := Some "readonly_user" |}.

Definition injected_executor : SQLExecutor := init injected_security None.

(** An effect of the attempt on connection [n]: it is about that
    connection, a statement is one of the session commands, and a query is
    the query of the call under its timeout. *)
Definition own_event (commands : list string) (sql : string) (timeout : float)
    (n : nat) (ev : event) : Prop :=
  match ev with
  | EvSleep _ => False
  | EvExecute c statement => c = n /\ In statement commands
  | EvFetch c q t => c = n /\ q = sql /\ t = timeout
  | EvAcquire c | EvBegin c | EvCommit c | EvRollback c | EvRelease c => c = n
  end.

(** Characters that end or escape a quoted value or an identifier of a
    statement: quotes, semicolon, backslash, dash, slash, star, brackets,
    line breaks and NUL. *)
Definition sql_metachar (c : ascii) : bool :=
  existsb (N.eqb (N_of_ascii c))
    [0; 10; 13; 34; 39; 40; 41; 42; 45; 47; 59; 92; 96]%N.

(** The number a float stands for: [m * 2 ^ e] with its sign for a finite
    float, none for an infinity or a NaN. *)
Definition float_value (x : float) : option Q :=
  match Prim2SF x with
  | S754_zero _ => Some 0%Q
  | S754_finite negative m e =>
      Some (inject_Z (if negative then Zneg m else Zpos m) * 2 ^ e)%Q
  | S754_infinity _ | S754_nan => None
  end.

(** The binary64 product [x * y] is exact: [x], [y] and the product are
    numbers, and the value of the product is the product of the values. *)
Definition exact_product (x y : float) : bool :=
  match float_value x, float_value y, float_value (x * y)%float with
  | Some a, Some b, Some c => Qeq_bool c (a * b)
  | _, _, _ => false
  end.

(** Total time slept, when every delay is a number. *)
Definition total_sleep (delays : list float) : option Q :=
  fold_right
    (fun delay total =>
       match float_value delay, total with
       | Some d, Some t => Some (d + t)%Q
       | _, _ => None
       end)
    (Some 0%Q) delays.

(** The row count the limiter keeps: [max_rows] at most when it is not
    negative; all but the last [- max_rows] rows when it is. *)
Definition kept_count (total max_rows' : Z) : Z :=
  if 0 <=? max_rows' then Z.min total max_rows'
  else Z.max 0 (total + max_rows').

(** An executor that allows no attempt. *)
Definition no_attempt_executor : SQLExecutor :=
  init example_security
    (Some {| ResilienceConfig.max_retries := -1;
             ResilienceConfig.retry_delay := 1;
             ResilienceConfig.backoff_factor := 2 |}).

(** A pool whose first two connections hit a deadlock and whose third
    serves the query. *)
Definition recovering_database : Database :=
  fun n => if (n <? 2)%nat then failing deadlock else serving three_records.

(** A connection that cannot be acquired. *)
Definition unreachable (e : exn) : Connection :=
  {| acquire_error := Some e;
     begin_error := None;
     execute_error := fun _ => None;
     fetch := fun _ _ => Fetched [] |}.

(** A connection lost right after it was handed out: every session command
    raises a connection failure. *)
Definition dropped : Connection :=
  {| acquire_error := None;
     begin_error := None;
     execute_error :=
       fun _ => Some (PostgresError (Some "08006") "connection failure");
     fetch := fun _ _ => Fetched [] |}.

(** An executor with a first delay of [0.1] (the binary64 value nearest to
    it) and a backoff factor of [3.0]. *)
Definition tenth_executor : SQLExecutor :=
  init example_security
    (Some {| ResilienceConfig.max_retries := 3;
             ResilienceConfig.retry_delay := 0x1.999999999999ap-4;
             ResilienceConfig.backoff_factor := 3 |}).

(** An executor with a first delay of [1e308] and a backoff factor of
    [10.0]. *)
Definition huge_delay_executor : SQLExecutor :=
  init example_security
    (Some {| ResilienceConfig.max_retries := 3;
             ResilienceConfig.retry_delay := 0x1.1ccf385ebc8ap+1023;
             ResilienceConfig.backoff_factor := 10 |}).

(** A connection on which the configured role does not exist: [SET ROLE]
    raises [undefined_object]. *)
Definition role_missing : Connection :=
  {| acquire_error := None;
     begin_error := None;
     execute_error :=
       fun statement =>
         if String.eqb statement "SET ROLE readonly_user"
         then Some (PostgresError (Some "42704")
                      "role readonly_user does not exist")
         else None;
     fetch := fun _ _ => Fetched [] |}.

(** A record with two columns of the same name. *)
Definition duplicate_columns : record :=
  [ ("a", VInt 1); ("b", VDecimal (DecFinite false 5 (-1))); ("a", VInt 3) ].

(** Unfolding of session hardening down to the oracle. *)
Ltac run_session :=
  unfold _set_session_params, int, try_catch, bind, conn_execute, emit,
    may_raise, when, raise, ret; simpl.

(** * Properties *)

(** ** The trace is only appended to *)

Lemma graft_rebase (w : World) : graft w (rebase w) = w.
Proof.
  destruct w as [n t]. unfold graft, rebase. simpl. now rewrite app_nil_r.
Qed.

Lemma rebase_graft (w w1 : World) : rebase (graft w w1) = rebase w1.
Proof. reflexivity. Qed.

Lemma graft_graft (w w1 w2 : World) :
  graft (graft w w1) w2 = graft w (graft w1 w2).
Proof. unfold graft. simpl. now rewrite app_assoc. Qed.

Lemma framed_ret {A : Type} (a : A) : framed (ret a).
Proof. intro w. unfold ret. simpl. now rewrite graft_rebase. Qed.

Lemma framed_raise {A : Type} (e : exn) : framed (@raise A e).
Proof. intro w. unfold raise. simpl. now rewrite graft_rebase. Qed.

Lemma framed_emit (ev : event) : framed (emit ev).
Proof. intro w. reflexivity. Qed.

Lemma framed_may_raise (o : option exn) : framed (may_raise o).
Proof. destruct o; [apply framed_raise | apply framed_ret]. Qed.

Lemma framed_bind {A B : Type} (m : M A) (k : A -> M B) :
  framed m -> (forall a, framed (k a)) -> framed (bind m k).
Proof.
  intros Hm Hk w. unfold bind. rewrite (Hm w).
  destruct (m (rebase w)) as [[a | e] w1]; simpl; [ | reflexivity ].
  rewrite (Hk a (graft w w1)), (Hk a w1), rebase_graft.
  simpl. now rewrite graft_graft.
Qed.

Lemma framed_try_catch {A : Type} (m : M A) (h : exn -> M A) :
  framed m -> (forall e, framed (h e)) -> framed (try_catch m h).
Proof.
  intros Hm Hh w. unfold try_catch. rewrite (Hm w).
  destruct (m (rebase w)) as [[a | e] w1]; simpl; [ reflexivity | ].
  rewrite (Hh e (graft w w1)), (Hh e w1), rebase_graft.
  simpl. now rewrite graft_graft.
Qed.

Lemma framed_when (b : bool) (m : M unit) : framed m -> framed (when b m).
Proof. destruct b; simpl; [ trivial | intros _; apply framed_ret ]. Qed.

Lemma framed_pool_acquire (db : Database) : framed (pool_acquire db).
Proof.
  intro w. unfold pool_acquire. simpl.
  destruct (acquire_error (db (acquired w))); reflexivity.
Qed.

Lemma framed_conn_execute (db : Database) (conn : nat) (s : string) :
  framed (conn_execute db conn s).
Proof.
  unfold conn_execute. apply framed_bind; [ apply framed_emit | ].
  intros _. apply framed_may_raise.
Qed.

Lemma framed_conn_fetch (db : Database) (conn : nat) (sql : string) (t : float) :
  framed (conn_fetch db conn sql t).
Proof.
  unfold conn_fetch. apply framed_bind; [ apply framed_emit | ].
  intros _. destruct (fetch (db conn) sql t); [apply framed_ret | apply framed_raise].
Qed.

Lemma framed_with_readonly_transaction {A : Type} (db : Database)
    (body : nat -> M A) :
  (forall conn, framed (body conn)) ->
  framed (with_readonly_transaction db body).
Proof.
  intros Hb. unfold with_readonly_transaction.
  apply framed_bind; [ apply framed_pool_acquire | ].
  intros conn w.
  assert (Hin : framed
    (bind (emit (EvBegin conn)) (fun _ =>
     bind (may_raise (begin_error (db conn))) (fun _ =>
       fun w0 =>
         match body conn w0 with
         | (Ok a, w') => (Ok a, snd (emit (EvCommit conn) w'))
         | (Raise e, w') => (Raise e, snd (emit (EvRollback conn) w'))
         end)))).
  { apply framed_bind; [ apply framed_emit | ]. intros _.
    apply framed_bind; [ apply framed_may_raise | ]. intros _ w0.
    rewrite (Hb conn w0).
    destruct (body conn (rebase w0)) as [[a | e] w1]; simpl;
      unfold graft; simpl; now rewrite app_assoc. }
  rewrite (Hin w).
  match goal with |- context [bind ?m ?k (rebase w)] =>
    destruct (bind m k (rebase w)) as [r w1] end.
  simpl. unfold graft. simpl. now rewrite app_assoc.
Qed.

Lemma framed_int (x : float) : framed (int x).
Proof.
  unfold int. destruct (Py.int_of_float x);
    [ apply framed_ret | apply framed_raise | apply framed_raise ].
Qed.

Lemma framed__set_session_params (self : SQLExecutor) (db : Database)
    (conn : nat) (timeout : float) :
  framed (_set_session_params self db conn timeout).
Proof.
  unfold _set_session_params.
  apply framed_bind; [ apply framed_int | ]. intros timeout_ms.
  apply framed_try_catch.
  - apply framed_bind; [ apply framed_conn_execute | ]. intros _.
    apply framed_bind; [ apply framed_when, framed_raise | ]. intros _.
    apply framed_bind; [ apply framed_conn_execute | ]. intros _.
    destruct (configured_role (security_config self)); [ | apply framed_ret ].
    apply framed_bind; [ apply framed_when, framed_raise | ]. intros _.
    apply framed_conn_execute.
  - intros e. destruct e; apply framed_raise.
Qed.

Lemma framed__execute_once (float_str : float -> string) (self : SQLExecutor)
    (db : Database) (sql : string) (timeout : float) (max_rows : Z) :
  framed (_execute_once float_str self db sql timeout max_rows).
Proof.
  unfold _execute_once. apply framed_with_readonly_transaction. intros conn.
  apply framed_bind; [ apply framed__set_session_params | ]. intros _.
  apply framed_bind.
  - apply framed_try_catch; [ apply framed_conn_fetch | ].
    intros e. destruct e; apply framed_raise.
  - intros records. destruct (limit_rows records max_rows). apply framed_ret.
Qed.

(** ** What one attempt adds to the trace *)

Lemma attempts_of_app (l1 l2 : list event) :
  attempts_of (l1 ++ l2) = (attempts_of l1 + attempts_of l2)%nat.
Proof.
  induction l1 as [ | ev l1 IH ]; simpl; [ reflexivity | ].
  destruct ev; simpl; now rewrite IH.
Qed.

Lemma sleeps_of_app (l1 l2 : list event) :
  sleeps_of (l1 ++ l2) = sleeps_of l1 ++ sleeps_of l2.
Proof.
  induction l1 as [ | ev l1 IH ]; simpl; [ reflexivity | ].
  destruct ev; simpl; now rewrite IH.
Qed.

Lemma statements_of_app (l1 l2 : list event) :
  statements_of (l1 ++ l2) = statements_of l1 ++ statements_of l2.
Proof.
  induction l1 as [ | ev l1 IH ]; simpl; [ reflexivity | ].
  destruct ev; simpl; now rewrite IH.
Qed.

Lemma quiet_ret {A : Type} (a : A) : quiet (ret a).
Proof. intro w. simpl. auto. Qed.

Lemma quiet_raise {A : Type} (e : exn) : quiet (@raise A e).
Proof. intro w. simpl. auto. Qed.

Lemma quiet_emit (ev : event) : quiet_event ev = true -> quiet (emit ev).
Proof.
  intros H w. simpl. rewrite attempts_of_app, sleeps_of_app.
  destruct ev; try discriminate H; simpl;
    rewrite ?Nat.add_0_r, ?app_nil_r; auto.
Qed.

Lemma quiet_may_raise (o : option exn) : quiet (may_raise o).
Proof. destruct o; [ apply quiet_raise | apply quiet_ret ]. Qed.

Lemma quiet_bind {A B : Type} (m : M A) (k : A -> M B) :
  quiet m -> (forall a, quiet (k a)) -> quiet (bind m k).
Proof.
  intros Hm Hk w. unfold bind. specialize (Hm w).
  destruct (m w) as [[a | e] w1]; simpl in *; [ | exact Hm ].
  destruct Hm as (H1 & H2 & H3). destruct (Hk a w1) as (K1 & K2 & K3).
  repeat split; congruence.
Qed.

Lemma quiet_try_catch {A : Type} (m : M A) (h : exn -> M A) :
  quiet m -> (forall e, quiet (h e)) -> quiet (try_catch m h).
Proof.
  intros Hm Hh w. unfold try_catch. specialize (Hm w).
  destruct (m w) as [[a | e] w1]; simpl in *; [ exact Hm | ].
  destruct Hm as (H1 & H2 & H3). destruct (Hh e w1) as (K1 & K2 & K3).
  repeat split; congruence.
Qed.

Lemma quiet_when (b : bool) (m : M unit) : quiet m -> quiet (when b m).
Proof. destruct b; simpl; [ trivial | intros _; apply quiet_ret ]. Qed.

Lemma quiet_conn_execute (db : Database) (conn : nat) (s : string) :
  quiet (conn_execute db conn s).
Proof.
  unfold conn_execute. apply quiet_bind; [ now apply quiet_emit | ].
  intros _. apply quiet_may_raise.
Qed.

Lemma quiet_conn_fetch (db : Database) (conn : nat) (sql : string) (t : float) :
  quiet (conn_fetch db conn sql t).
Proof.
  unfold conn_fetch. apply quiet_bind; [ now apply quiet_emit | ].
  intros _. destruct (fetch (db conn) sql t); [ apply quiet_ret | apply quiet_raise ].
Qed.

Lemma quiet_int (x : float) : quiet (int x).
Proof.
  unfold int. destruct (Py.int_of_float x);
    [ apply quiet_ret | apply quiet_raise | apply quiet_raise ].
Qed.

Lemma quiet__set_session_params (self : SQLExecutor) (db : Database)
    (conn : nat) (timeout : float) :
  quiet (_set_session_params self db conn timeout).
Proof.
  unfold _set_session_params.
  apply quiet_bind; [ apply quiet_int | ]. intros timeout_ms.
  apply quiet_try_catch.
  - apply quiet_bind; [ apply quiet_conn_execute | ]. intros _.
    apply quiet_bind; [ apply quiet_when, quiet_raise | ]. intros _.
    apply quiet_bind; [ apply quiet_conn_execute | ]. intros _.
    destruct (configured_role (security_config self)); [ | apply quiet_ret ].
    apply quiet_bind; [ apply quiet_when, quiet_raise | ]. intros _.
    apply quiet_conn_execute.
  - intros e. destruct e; apply quiet_raise.
Qed.

(** A transaction whose body is quiet asks the pool for exactly one
    connection and does not sleep. *)
Lemma with_readonly_transaction_effects {A : Type} (db : Database)
    (body : nat -> M A) (w : World) :
  (forall c, quiet (body c)) ->
  acquired (snd (with_readonly_transaction db body w)) = S (acquired w)
  /\ attempts_of (trace (snd (with_readonly_transaction db body w)))
     = S (attempts_of (trace w))
  /\ sleeps_of (trace (snd (with_readonly_transaction db body w)))
     = sleeps_of (trace w).
Proof.
  intros Hbody.
  unfold with_readonly_transaction, bind, pool_acquire, emit, may_raise,
    raise, ret.
  destruct (acquire_error (db (acquired w))) as [e | ]; simpl.
  - rewrite attempts_of_app, sleeps_of_app. simpl.
    rewrite Nat.add_1_r, app_nil_r. auto.
  - destruct (begin_error (db (acquired w))) as [e | ]; simpl.
    + rewrite !attempts_of_app, !sleeps_of_app. simpl.
      rewrite !Nat.add_0_r, Nat.add_1_r, !app_nil_r. auto.
    + match goal with |- context [body ?c ?w0] =>
        destruct (Hbody c w0) as (H1 & H2 & H3);
        destruct (body c w0) as [[a | e] w1] end; simpl in *;
      rewrite !attempts_of_app, !sleeps_of_app in *; simpl in *;
      rewrite ?Nat.add_0_r, ?app_nil_r in *;
      rewrite H1, H2, H3, Nat.add_1_r; auto.
Qed.

(** Every attempt asks the pool for exactly one connection and never
    sleeps. *)
Lemma _execute_once_effects (float_str : float -> string) (self : SQLExecutor)
    (db : Database) (sql : string) (timeout : float) (max_rows : Z) (w : World) :
  acquired (snd (_execute_once float_str self db sql timeout max_rows w))
  = S (acquired w)
  /\ attempts_of
       (trace (snd (_execute_once float_str self db sql timeout max_rows w)))
     = S (attempts_of (trace w))
  /\ sleeps_of
       (trace (snd (_execute_once float_str self db sql timeout max_rows w)))
     = sleeps_of (trace w).
Proof.
  unfold _execute_once. apply with_readonly_transaction_effects. intros c.
  apply quiet_bind; [ apply quiet__set_session_params | ]. intros _.
  apply quiet_bind.
  - apply quiet_try_catch; [ apply quiet_conn_fetch | ].
    intros e. destruct e; apply quiet_raise.
  - intros records. destruct (limit_rows records max_rows). apply quiet_ret.
Qed.

(** An attempt run in any world is the attempt on the next connection of
    the pool, with its effects appended. *)
Lemma _execute_once_attempt (float_str : float -> string) (self : SQLExecutor)
    (db : Database) (sql : string) (timeout : float) (max_rows : Z) (w : World) :
  _execute_once float_str self db sql timeout max_rows w
  = (fst (attempt float_str self db sql timeout max_rows (acquired w)),
     {| acquired := S (acquired w);
        trace := trace w
                 ++ trace (snd (attempt float_str self db sql timeout max_rows
                                  (acquired w))) |}).
Proof.
  rewrite (framed__execute_once float_str self db sql timeout max_rows w).
  unfold attempt, graft. f_equal. f_equal.
  now destruct (_execute_once_effects float_str self db sql timeout max_rows
                  (rebase w)) as (H & _).
Qed.

Lemma attempt_effects (float_str : float -> string) (self : SQLExecutor)
    (db : Database) (sql : string) (timeout : float) (max_rows : Z) (n : nat) :
  let evs := trace (snd (attempt float_str self db sql timeout max_rows n)) in
  attempts_of evs = 1%nat /\ sleeps_of evs = [].
Proof.
  destruct (_execute_once_effects float_str self db sql timeout max_rows
              {| acquired := n; trace := [] |}) as (_ & H2 & H3).
  split; assumption.
Qed.

(** ** The retry loop *)

Lemma is_retryable_In (code : string) :
  In code RETRYABLE_ERROR_CODES -> is_retryable (Some code) = true.
Proof.
  intros H. unfold is_retryable. apply existsb_exists.
  exists code. split; [ exact H | apply String.eqb_refl ].
Qed.

Section Loop.

Variable float_str : float -> string.
Variable self : SQLExecutor.
Variable db : Database.
Variable sql : string.
Variable timeout : float.
Variable max_rows : Z.

Let run := attempt float_str self db sql timeout max_rows.
Let loop := execute_attempts float_str self db sql timeout max_rows.

(** The world after an attempt made in [w]. *)
Let after (w : World) : World :=
  {| acquired := S (acquired w);
     trace := trace w ++ trace (snd (run (acquired w))) |}.

Lemma loop_step_ok (a : Z) (rest : list Z) (delay : float) (last : option exn)
    (w : World) (r : list row * Z) :
  fst (run (acquired w)) = Ok r ->
  loop (a :: rest) delay last w = (Ok r, after w).
Proof.
  intros H. unfold loop. simpl. unfold try_catch.
  rewrite _execute_once_attempt. fold run. now rewrite H.
Qed.

Lemma loop_step_timeout (a : Z) (rest : list Z) (delay : float)
    (last : option exn) (w : World) (message : string) (context : details) :
  fst (run (acquired w)) = Raise (ExecutionTimeoutError message context) ->
  loop (a :: rest) delay last w
  = (Raise (ExecutionTimeoutError message context), after w).
Proof.
  intros H. unfold loop. simpl. unfold try_catch.
  rewrite _execute_once_attempt. fold run. now rewrite H.
Qed.

Lemma loop_step_retry (a : Z) (rest : list Z) (delay : float)
    (last : option exn) (w : World) (code : option string) (text : string) :
  fst (run (acquired w)) = Raise (PostgresError code text) ->
  is_retryable code = true ->
  a < max_retries self ->
  loop (a :: rest) delay last w
  = loop rest (delay * backoff_factor self)%float (Some (PostgresError code text))
      {| acquired := S (acquired w);
         trace := trace (after w) ++ [EvSleep delay] |}.
Proof.
  intros H Hc Ha. unfold loop. simpl. unfold try_catch.
  rewrite _execute_once_attempt. fold run. rewrite H, Hc.
  apply Z.ltb_lt in Ha. rewrite Ha. reflexivity.
Qed.

Lemma loop_step_database_error (a : Z) (rest : list Z) (delay : float)
    (last : option exn) (w : World) (code : option string) (text : string) :
  fst (run (acquired w)) = Raise (PostgresError code text) ->
  is_retryable code = false \/ max_retries self <= a ->
  loop (a :: rest) delay last w
  = (Raise (DatabaseError ("Database query failed: " ++ text)%string
              [("error_code", detail_of_opt_str code);
               ("error_message", DStr text);
               ("sql", DStr (Py.str_slice_to sql 200));
               ("attempts", DInt (a + 1))]),
     after w).
Proof.
  intros H Hc. unfold loop. simpl. unfold try_catch.
  rewrite _execute_once_attempt. fold run. rewrite H.
  replace (is_retryable code && (a <? max_retries self)) with false;
    [ reflexivity | ].
  destruct Hc as [Hc | Hc]; [ now rewrite Hc | ].
  apply Z.ltb_ge in Hc. rewrite Hc. now rewrite andb_false_r.
Qed.

(** [k] transient failures in a row, each on an attempt that may still be
    retried, lead the loop through [k] attempts and [k] sleeps. *)
Lemma loop_retry_prefix (k : nat) :
  forall (a : nat) (rest : list Z) (delay : float) (last : option exn) (w : World),
    (forall i, (i < k)%nat ->
       transient_attempt float_str self db sql timeout max_rows (acquired w + i)) ->
    Z.of_nat (a + k) <= max_retries self ->
    exists delay' last' evs,
      loop (map Z.of_nat (seq a k) ++ rest) delay last w
      = loop rest delay' last'
          {| acquired := (acquired w + k)%nat; trace := trace w ++ evs |}
      /\ attempts_of evs = k
      /\ sleeps_of evs = backoff_delays delay (backoff_factor self) k.
Proof.
  induction k as [ | k IH ]; intros a rest delay last w Htr Hk.
  - exists delay, last, []. simpl. rewrite Nat.add_0_r, app_nil_r.
    destruct w; auto.
  - destruct (Htr O ltac:(lia)) as (code & text & Hrun & Hcode).
    rewrite Nat.add_0_r in Hrun.
    simpl seq. simpl map. simpl app.
    assert (Ha : Z.of_nat a < max_retries self) by lia.
    rewrite (loop_step_retry _ _ delay last _ (Some code) text Hrun
               (is_retryable_In _ Hcode) Ha).
    edestruct (IH (S a) rest (delay * backoff_factor self)%float
                 (Some (PostgresError (Some code) text))
                 {| acquired := S (acquired w);
                    trace := trace (after w) ++ [EvSleep delay] |})
      as (delay' & last' & evs & Hloop & Hatt & Hsl).
    + intros i Hi. simpl. replace (S (acquired w + i)) with (acquired w + S i)%nat by lia.
      apply Htr. lia.
    + lia.
    + exists delay', last',
        (trace (snd (run (acquired w))) ++ [EvSleep delay] ++ evs).
      rewrite Hloop. simpl. split; [ | split ].
      * f_equal. f_equal; [ lia | now rewrite <- !app_assoc ].
      * destruct (attempt_effects float_str self db sql timeout max_rows
                    (acquired w)) as (H1 & H2). fold run in H1, H2.
        rewrite attempts_of_app, H1. simpl. now rewrite Hatt.
      * destruct (attempt_effects float_str self db sql timeout max_rows
                    (acquired w)) as (H1 & H2). fold run in H1, H2.
        rewrite sleeps_of_app, H2. simpl. now rewrite Hsl.
Qed.

End Loop.

(** ** [execute]: bounded retries, timeouts, terminal database errors *)

Lemma backoff_delays_length (d b : float) (k : nat) :
  List.length (backoff_delays d b k) = k.
Proof.
  revert d. induction k as [ | k IH ]; intros d; simpl; [ reflexivity | ].
  now rewrite IH.
Qed.

Lemma range_split (m : Z) (k : nat) :
  Z.of_nat k <= m ->
  Py.range (m + 1)
  = map Z.of_nat (seq 0 k)
    ++ Z.of_nat k :: map Z.of_nat (seq (S k) (Z.to_nat m - k)).
Proof.
  intros H. unfold Py.range.
  replace (Z.to_nat (m + 1)) with (k + S (Z.to_nat m - k))%nat by lia.
  rewrite seq_app, map_app. reflexivity.
Qed.

(** After [k] transient failures, [k] not above [max_retries], [execute]
    is about to make attempt number [k] (counted from 0), having made [k]
    attempts and slept [k] times. *)
Lemma execute_retry_prefix (float_str : float -> string) (self : SQLExecutor)
    (db : Database) (sql : string) (timeout : option float) (max_rows' : option Z)
    (w : World) (k : nat) :
  let t := Py.or_float timeout (max_execution_time (security_config self)) in
  let mr := Py.or_int max_rows' (max_rows (security_config self)) in
  Z.of_nat k <= max_retries self ->
  (forall i, (i < k)%nat ->
     transient_attempt float_str self db sql t mr (acquired w + i)) ->
  exists rest delay' last' evs,
    execute float_str self db sql timeout max_rows' w
    = execute_attempts float_str self db sql t mr (Z.of_nat k :: rest)
        delay' last'
        {| acquired := (acquired w + k)%nat; trace := trace w ++ evs |}
    /\ attempts_of evs = k
    /\ sleeps_of evs
       = backoff_delays (retry_delay self) (backoff_factor self) k.
Proof.
  intros t mr Hk Htr. unfold execute. fold t mr.
  rewrite (range_split _ k Hk).
  destruct (loop_retry_prefix float_str self db sql t mr k O
              (Z.of_nat k :: map Z.of_nat (seq (S k) (Z.to_nat (max_retries self) - k)))
              (retry_delay self) None w Htr)
    as (delay' & last' & evs & Hloop & Hatt & Hsl); [ simpl; lia | ].
  exists (map Z.of_nat (seq (S k) (Z.to_nat (max_retries self) - k))),
    delay', last', evs.
  auto.
Qed.

(** [s[:n]] keeps the first [n] characters of [s], or all of [s]. *)
Lemma str_slice_to_prefix (s : string) (n : nat) :
  String.prefix (Py.str_slice_to s n) s = true.
Proof.
  unfold Py.str_slice_to. revert n.
  induction s as [ | c s IH ]; intros [ | n ]; simpl; try reflexivity.
  rewrite IH. destruct (ascii_dec c c); congruence.
Qed.

Lemma str_slice_to_length (s : string) (n : nat) :
  String.length (Py.str_slice_to s n) = Nat.min n (String.length s).
Proof.
  unfold Py.str_slice_to. revert n.
  induction s as [ | c s IH ]; intros [ | n ]; simpl; try reflexivity.
  now rewrite IH.
Qed.

(** When attempt number [k] ends the loop with result [r], after [k]
    transient failures, [execute] gives [r] after [k + 1] attempts and [k]
    sleeps, the last effects being those of the last attempt. *)
Lemma execute_terminal (float_str : float -> string) (self : SQLExecutor)
    (db : Database) (sql : string) (timeout : option float) (max_rows' : option Z)
    (w : World) (k : nat) (r : result (list row * Z)) :
  Z.of_nat k <= max_retries self ->
  (forall i, (i < k)%nat ->
     transient_attempt float_str self db sql
       (Py.or_float timeout (max_execution_time (security_config self)))
       (Py.or_int max_rows' (max_rows (security_config self)))
       (acquired w + i)) ->
  (forall rest delay last w0,
     acquired w0 = (acquired w + k)%nat ->
     execute_attempts float_str self db sql
       (Py.or_float timeout (max_execution_time (security_config self)))
       (Py.or_int max_rows' (max_rows (security_config self)))
       (Z.of_nat k :: rest) delay last w0
     = (r, {| acquired := S (acquired w0);
              trace := trace w0
                ++ trace (snd (attempt float_str self db sql
                     (Py.or_float timeout (max_execution_time (security_config self)))
                     (Py.or_int max_rows' (max_rows (security_config self)))
                     (acquired w0))) |})) ->
  exists evs,
    execute float_str self db sql timeout max_rows' w
    = (r, {| acquired := (acquired w + S k)%nat; trace := trace w ++ evs |})
    /\ attempts_of evs = S k
    /\ sleeps_of evs
       = backoff_delays (retry_delay self) (backoff_factor self) k.
Proof.
  intros Hk Htr Hstep.
  destruct (execute_retry_prefix float_str self db sql timeout max_rows' w k
              Hk Htr)
    as (rest & delay' & last' & evs & Hex & Hatt & Hsl).
  rewrite Hex, Hstep by reflexivity. simpl.
  match goal with |- context [attempt ?f ?s ?d ?q ?t ?m ?n] =>
    destruct (attempt_effects f s d q t m n) as (H1 & H2);
    exists (evs ++ trace (snd (attempt f s d q t m n))) end.
  split; [ | split ].
  - f_equal. f_equal; [ lia | now rewrite app_assoc ].
  - rewrite attempts_of_app, H1, Hatt. lia.
  - now rewrite sleeps_of_app, H2, Hsl, app_nil_r.
Qed.

(** C1, as the code has it.  When every attempt fails with a database
    error that reaches [execute] as a [PostgresError] (one raised while the
    connection is acquired, the transaction opened or the query run) and
    whose code is in the transient set, [execute] makes exactly
    [max_retries + 1] attempts (4 for [max_retries = 3]), sleeps
    [max_retries] times, and then raises a [DatabaseError] whose attempt
    count is [max_retries + 1]; no further attempt is made. *)
Theorem execute_retry_bound (float_str : float -> string) (self : SQLExecutor)
    (db : Database) (sql : string) (timeout : option float) (max_rows' : option Z)
    (w : World) :
  0 <= max_retries self ->
  (forall n,
     transient_attempt float_str self db sql
       (Py.or_float timeout (max_execution_time (security_config self)))
       (Py.or_int max_rows' (max_rows (security_config self))) n) ->
  exists message context evs,
    execute float_str self db sql timeout max_rows' w
    = (Raise (DatabaseError message context),
       {| acquired := (acquired w + Z.to_nat (max_retries self + 1))%nat;
          trace := trace w ++ evs |})
    /\ In ("attempts", DInt (max_retries self + 1)) context
    /\ attempts_of evs = Z.to_nat (max_retries self + 1)
    /\ List.length (sleeps_of evs) = Z.to_nat (max_retries self).
Proof.
  intros Hm Htr.
  destruct (Htr (acquired w + Z.to_nat (max_retries self))%nat)
    as (code & text & Hrun & Hcode).
  destruct (execute_terminal float_str self db sql timeout max_rows' w
              (Z.to_nat (max_retries self))
              (Raise (DatabaseError ("Database query failed: " ++ text)%string
                        [("error_code", detail_of_opt_str (Some code));
                         ("error_message", DStr text);
                         ("sql", DStr (Py.str_slice_to sql 200));
                         ("attempts",
                           DInt (Z.of_nat (Z.to_nat (max_retries self)) + 1))])))
    as (evs & Hex & Hatt & Hsl).
  - lia.
  - intros i _. apply Htr.
  - intros rest delay last w0 Hw0.
    apply loop_step_database_error; [ now rewrite Hw0 | right; lia ].
  - eexists _, _, evs. split; [ | split; [ | split ] ].
    + rewrite Hex. f_equal. f_equal. lia.
    + simpl. do 3 right. left. do 2 f_equal. lia.
    + rewrite Hatt. lia.
    + now rewrite Hsl, backoff_delays_length.
Qed.

(** C4. A timeout is never retried.  If attempt number [k + 1] of a call
    raises [ExecutionTimeoutError] (the [k] attempts before it having
    failed transiently), [execute] raises that same error at once: it has
    made [k + 1] attempts and slept only the [k] times before them.  For
    [k = 0], whatever [max_retries] is: one attempt and no sleep. *)
Theorem execute_timeout_not_retried (float_str : float -> string)
    (self : SQLExecutor) (db : Database) (sql : string) (timeout : option float)
    (max_rows' : option Z) (w : World) (k : nat)
    (message : string) (context : details) :
  Z.of_nat k <= max_retries self ->
  (forall i, (i < k)%nat ->
     transient_attempt float_str self db sql
       (Py.or_float timeout (max_execution_time (security_config self)))
       (Py.or_int max_rows' (max_rows (security_config self)))
       (acquired w + i)) ->
  fst (attempt float_str self db sql
         (Py.or_float timeout (max_execution_time (security_config self)))
         (Py.or_int max_rows' (max_rows (security_config self)))
         (acquired w + k))
  = Raise (ExecutionTimeoutError message context) ->
  exists evs,
    execute float_str self db sql timeout max_rows' w
    = (Raise (ExecutionTimeoutError message context),
       {| acquired := (acquired w + S k)%nat; trace := trace w ++ evs |})
    /\ attempts_of evs = S k
    /\ sleeps_of evs
       = backoff_delays (retry_delay self) (backoff_factor self) k.
Proof.
  intros Hk Htr Hrun.
  apply execute_terminal; [ exact Hk | exact Htr | ].
  intros rest delay last w0 Hw0.
  apply loop_step_timeout. now rewrite Hw0.
Qed.

(** C7, as the code has it.  A database error that reaches [execute] as a
    [PostgresError] (one raised while the connection is acquired, the
    transaction opened or the query run) and that is not transient, or that
    is transient but comes on the last allowed attempt, is not retried:
    [execute] raises a [DatabaseError] at once, whose details hold the error
    code, the first 200 characters of the query and the number of attempts
    made. *)
Theorem execute_database_error_terminal (float_str : float -> string)
    (self : SQLExecutor) (db : Database) (sql : string) (timeout : option float)
    (max_rows' : option Z) (w : World) (k : nat)
    (code : option string) (text : string) :
  Z.of_nat k <= max_retries self ->
  (forall i, (i < k)%nat ->
     transient_attempt float_str self db sql
       (Py.or_float timeout (max_execution_time (security_config self)))
       (Py.or_int max_rows' (max_rows (security_config self)))
       (acquired w + i)) ->
  fst (attempt float_str self db sql
         (Py.or_float timeout (max_execution_time (security_config self)))
         (Py.or_int max_rows' (max_rows (security_config self)))
         (acquired w + k))
  = Raise (PostgresError code text) ->
  is_retryable code = false \/ Z.of_nat k = max_retries self ->
  exists evs,
    execute float_str self db sql timeout max_rows' w
    = (Raise (DatabaseError ("Database query failed: " ++ text)%string
                [("error_code", detail_of_opt_str code);
                 ("error_message", DStr text);
                 ("sql", DStr (Py.str_slice_to sql 200));
                 ("attempts", DInt (Z.of_nat (attempts_of evs)))]),
       {| acquired := (acquired w + S k)%nat; trace := trace w ++ evs |})
    /\ attempts_of evs = S k
    /\ sleeps_of evs
       = backoff_delays (retry_delay self) (backoff_factor self) k
    /\ String.prefix (Py.str_slice_to sql 200) sql = true
    /\ String.length (Py.str_slice_to sql 200)
       = Nat.min 200 (String.length sql).
Proof.
  intros Hk Htr Hrun Hterm.
  destruct (execute_terminal float_str self db sql timeout max_rows' w k
              (Raise (DatabaseError ("Database query failed: " ++ text)%string
                        [("error_code", detail_of_opt_str code);
                         ("error_message", DStr text);
                         ("sql", DStr (Py.str_slice_to sql 200));
                         ("attempts", DInt (Z.of_nat k + 1))]))
              Hk Htr) as (evs & Hex & Hatt & Hsl).
  - intros rest delay last w0 Hw0.
    apply loop_step_database_error; [ now rewrite Hw0 | ].
    destruct Hterm as [H | H]; [ now left | right; lia ].
  - exists evs. rewrite Hex, Hatt.
    replace (Z.of_nat (S k)) with (Z.of_nat k + 1) by lia.
    repeat split; auto using str_slice_to_prefix, str_slice_to_length.
Qed.

Lemma execute_retry_bound_witness :
  exists message context evs,
    execute print_thirty example_executor (fun _ => failing deadlock)
      "SELECT 1" None None fresh
    = (Raise (DatabaseError message context),
       {| acquired := 4; trace := evs |})
    /\ In ("attempts", DInt 4) context
    /\ attempts_of evs = 4%nat
    /\ List.length (sleeps_of evs) = 3%nat.
Proof.
  apply (execute_retry_bound print_thirty example_executor
           (fun _ => failing deadlock) "SELECT 1" None None fresh).
  - simpl. lia.
  - intros n. exists "40P01", "deadlock detected".
    split; [ reflexivity | simpl; tauto ].
Defined.

Lemma execute_timeout_not_retried_witness :
  exists evs,
    execute print_thirty example_executor
      (fun _ => failing (TimeoutError "")) "SELECT 1" None None fresh
    = (Raise (ExecutionTimeoutError
                "Query execution exceeded timeout of 30.0 seconds"
                [("timeout_seconds", DFloat 30); ("sql", DStr "SELECT 1")]),
       {| acquired := 1; trace := evs |})
    /\ attempts_of evs = 1%nat
    /\ sleeps_of evs = [].
Proof.
  apply (execute_timeout_not_retried print_thirty example_executor
           (fun _ => failing (TimeoutError "")) "SELECT 1" None None fresh 0).
  - simpl. lia.
  - intros i Hi. lia.
  - reflexivity.
Defined.

Lemma execute_database_error_terminal_witness :
  exists evs,
    execute print_thirty example_executor
      (fun n => if (n <? 2)%nat then failing deadlock else failing syntax_error)
      "SELECT 1" None None fresh
    = (Raise (DatabaseError "Database query failed: syntax error at or near FROM"
                [("error_code", DStr "42601");
                 ("error_message", DStr "syntax error at or near FROM");
                 ("sql", DStr "SELECT 1");
                 ("attempts", DInt (Z.of_nat (attempts_of evs)))]),
       {| acquired := 3; trace := evs |})
    /\ attempts_of evs = 3%nat
    /\ sleeps_of evs = [1; 2]%float
    /\ String.prefix "SELECT 1" "SELECT 1" = true
    /\ String.length "SELECT 1" = 8%nat.
Proof.
  apply (execute_database_error_terminal print_thirty example_executor
           (fun n => if (n <? 2)%nat then failing deadlock else failing syntax_error)
           "SELECT 1" None None fresh 2 (Some "42601")
           "syntax error at or near FROM").
  - simpl. lia.
  - intros i Hi. exists "40P01", "deadlock detected".
    destruct i as [ | [ | i ] ]; [ | | lia ];
      (split; [ reflexivity | simpl; tauto ]).
  - reflexivity.
  - left. reflexivity.
Defined.

(** The claim of C1 for every database error fails on one raised by a
    session command.  On a pool whose connections are lost right after they
    are handed out, [SET statement_timeout] raises a connection failure
    (code 08006, of the transient set) on every attempt, and every attempt
    fails with the [DatabaseError] that wraps it, carrying that code; with
    [max_retries = 3], [execute] makes one attempt, not four, and does not
    sleep. *)
Lemma transient_session_failure_not_retried :
  max_retries example_executor = 3
  /\ is_retryable (Some "08006") = true
  /\ execute_error dropped "SET statement_timeout = 30000"
     = Some (PostgresError (Some "08006") "connection failure")
  /\ (forall n,
        fst (attempt print_thirty example_executor (fun _ => dropped)
               "SELECT 1" 30 2 n)
        = Raise (DatabaseError
                   "Failed to set session parameters: connection failure"
                   [("error_code", DStr "08006");
                    ("timeout_ms", DInt 30000);
                    ("search_path", DStr "public");
                    ("readonly_role", DStr "readonly_user")]))
  /\ execute print_thirty example_executor (fun _ => dropped) "SELECT 1"
       None None fresh
     = (Raise (DatabaseError
                 ("Unexpected error during query execution: "
                    ++ "Failed to set session parameters: connection failure")
                 [("error_type", DStr "DatabaseError");
                  ("error_message",
                    DStr "Failed to set session parameters: connection failure")]),
        {| acquired := 1;
           trace := [ EvAcquire 0; EvBegin 0;
                      EvExecute 0 "SET statement_timeout = 30000";
                      EvRollback 0; EvRelease 0 ] |})
  /\ attempts_of
       (trace (snd (execute print_thirty example_executor (fun _ => dropped)
                      "SELECT 1" None None fresh)))
     = 1%nat
  /\ sleeps_of
       (trace (snd (execute print_thirty example_executor (fun _ => dropped)
                      "SELECT 1" None None fresh)))
     = [].
Proof.
  split; [ reflexivity | ]. split; [ reflexivity | ].
  split; [ reflexivity | ]. split; [ intros n; reflexivity | ].
  split; [ reflexivity | ]. split; reflexivity.
Qed.

(** The claim of C7 for every database error fails on one raised by a
    session command.  When [SET ROLE] raises [undefined_object] (code
    42704, not of the transient set), [execute] raises a [DatabaseError] at
    once, but one whose details hold the type and the message of the
    wrapped error only: no error code, no query text and no attempt
    count. *)
Lemma session_error_details_without_context :
  is_retryable (Some "42704") = false
  /\ fst (attempt print_thirty example_executor (fun _ => role_missing)
            "SELECT 1" 30 2 0)
     = Raise (DatabaseError
                ("Failed to set session parameters: "
                   ++ "role readonly_user does not exist")
                [("error_code", DStr "42704");
                 ("timeout_ms", DInt 30000);
                 ("search_path", DStr "public");
                 ("readonly_role", DStr "readonly_user")])
  /\ execute print_thirty example_executor (fun _ => role_missing) "SELECT 1"
       None None fresh
     = (Raise (DatabaseError
                 ("Unexpected error during query execution: "
                    ++ "Failed to set session parameters: "
                    ++ "role readonly_user does not exist")
                 [("error_type", DStr "DatabaseError");
                  ("error_message",
                    DStr ("Failed to set session parameters: "
                            ++ "role readonly_user does not exist"))]),
        {| acquired := 1;
           trace := [ EvAcquire 0; EvBegin 0;
                      EvExecute 0 "SET statement_timeout = 30000";
                      EvExecute 0 "SET search_path = 'public'";
                      EvExecute 0 "SET ROLE readonly_user";
                      EvRollback 0; EvRelease 0 ] |}).
Proof.
  split; [ reflexivity | ]. split; reflexivity.
Qed.

(** ** Backoff delays *)

(** The first delay is the one the loop starts with. *)
Lemma backoff_delays_first (d b : float) (k : nat) :
  (1 <= k)%nat -> nth 0 (backoff_delays d b k) 0%float = d.
Proof. destruct k as [ | k ]; [ lia | reflexivity ]. Qed.

(** Each later delay is the binary64 product of the one before and the
    factor. *)
Lemma backoff_delays_step (b : float) (k : nat) :
  forall (d : float) (i : nat),
    (S i < k)%nat ->
    nth (S i) (backoff_delays d b k) 0%float
    = (nth i (backoff_delays d b k) 0 * b)%float.
Proof.
  induction k as [ | k IH ]; intros d i Hi; [ lia | ].
  destruct i as [ | i ].
  - destruct k as [ | k ]; [ lia | reflexivity ].
  - change (nth (S i) (backoff_delays (d * b)%float b k) 0%float
            = (nth i (backoff_delays (d * b)%float b k) 0 * b)%float).
    apply IH. lia.
Qed.

Lemma exact_product_value (x y : float) :
  exact_product x y = true ->
  exists a b c,
    float_value x = Some a /\ float_value y = Some b
    /\ float_value (x * y)%float = Some c /\ (c == a * b)%Q.
Proof.
  unfold exact_product.
  destruct (float_value x) as [ a | ]; [ | discriminate ].
  destruct (float_value y) as [ b | ]; [ | discriminate ].
  destruct (float_value (x * y)%float) as [ c | ]; [ | discriminate ].
  intros H. exists a, b, c. repeat split. now apply Qeq_bool_iff.
Qed.

(** As long as the products are exact, the delay of retry number [i + 1]
    has the value [d * b ^ i]. *)
Lemma backoff_delays_exact (b : float) (bq : Q) (k : nat) :
  float_value b = Some bq ->
  forall (d : float) (dq : Q) (i : nat),
    float_value d = Some dq ->
    (i < k)%nat ->
    (forall j, (j < i)%nat ->
       exact_product (nth j (backoff_delays d b k) 0%float) b = true) ->
    exists x,
      float_value (nth i (backoff_delays d b k) 0%float) = Some x
      /\ (x == dq * bq ^ Z.of_nat i)%Q.
Proof.
  intros Hb. induction k as [ | k IH ]; intros d dq i Hd Hi Hex; [ lia | ].
  destruct i as [ | i ].
  - exists dq. split; [ exact Hd | ]. simpl. ring.
  - destruct (exact_product_value _ _ (Hex O ltac:(lia)))
      as (a & b' & c & Ha & Hb' & Hc & Heq).
    simpl in Ha. rewrite Hd in Ha. rewrite Hb in Hb'.
    injection Ha as <-. injection Hb' as <-.
    destruct (IH (d * b)%float c i Hc ltac:(lia)) as (x & Hx & Hxeq).
    { intros j Hj. apply (Hex (S j)). lia. }
    exists x. split; [ exact Hx | ].
    rewrite Hxeq, Heq.
    replace (Z.of_nat (S i)) with (1 + Z.of_nat i) by lia.
    rewrite Qpower_plus' by lia. rewrite Qpower_1_r. ring.
Qed.

(** With a positive first delay and a factor above 1, and as long as the
    products are exact, each delay is strictly larger than the one
    before. *)
Lemma backoff_delays_exact_increasing (b : float) (bq : Q) (k : nat)
    (d : float) (dq : Q) (i : nat) :
  float_value b = Some bq ->
  float_value d = Some dq ->
  (0 < dq)%Q -> (1 < bq)%Q ->
  (S i < k)%nat ->
  (forall j, (j <= i)%nat ->
     exact_product (nth j (backoff_delays d b k) 0%float) b = true) ->
  exists x y,
    float_value (nth i (backoff_delays d b k) 0%float) = Some x
    /\ float_value (nth (S i) (backoff_delays d b k) 0%float) = Some y
    /\ (x < y)%Q.
Proof.
  intros Hb Hd Hdpos Hbgt Hi Hex.
  destruct (backoff_delays_exact b bq k Hb d dq i Hd ltac:(lia))
    as (x & Hx & Hxeq).
  { intros j Hj. apply Hex. lia. }
  destruct (backoff_delays_exact b bq k Hb d dq (S i) Hd Hi)
    as (y & Hy & Hyeq).
  { intros j Hj. apply Hex. lia. }
  exists x, y. split; [ exact Hx | ]. split; [ exact Hy | ].
  assert (Hxpos : (0 < x)%Q).
  { rewrite Hxeq. apply Qmult_lt_0_compat; [ exact Hdpos | ].
    apply Qpower_0_lt. apply Qlt_trans with 1%Q; [ reflexivity | exact Hbgt ]. }
  assert (Hyx : (y == x * bq)%Q).
  { rewrite Hyeq, Hxeq.
    replace (Z.of_nat (S i)) with (1 + Z.of_nat i) by lia.
    rewrite Qpower_plus' by lia. rewrite Qpower_1_r. ring. }
  rewrite Hyx. rewrite <- (Qmult_1_r x) at 1.
  now apply Qmult_lt_l.
Qed.

Lemma retriable_attempts_seq (self : SQLExecutor) (n : nat) :
  forall s : nat,
    (retriable_attempts self (map Z.of_nat (seq s n))
     <= Z.to_nat (max_retries self - Z.of_nat s))%nat.
Proof.
  unfold retriable_attempts.
  induction n as [ | n IH ]; intros s; simpl; [ lia | ].
  specialize (IH (S s)).
  destruct (Z.of_nat s <? max_retries self) eqn:E; simpl.
  - apply Z.ltb_lt in E. lia.
  - lia.
Qed.

(** Whatever the database does, the sleeps of the loop are the first [k]
    backoff delays, for some [k] bounded by the attempts that may be
    retried. *)
Lemma loop_sleeps (float_str : float -> string) (self : SQLExecutor)
    (db : Database) (sql : string) (timeout : float) (max_rows' : Z)
    (attempts : list Z) :
  forall (delay : float) (last : option exn) (w : World),
  exists k evs,
    trace (snd (execute_attempts float_str self db sql timeout max_rows'
                  attempts delay last w))
    = trace w ++ evs
    /\ sleeps_of evs = backoff_delays delay (backoff_factor self) k
    /\ (k <= retriable_attempts self attempts)%nat.
Proof.
  induction attempts as [ | a rest IH ]; intros delay last w.
  - exists O, []. simpl. destruct last; simpl; rewrite app_nil_r; auto.
  - destruct (attempt_effects float_str self db sql timeout max_rows'
                (acquired w)) as (_ & Hquiet).
    destruct (fst (attempt float_str self db sql timeout max_rows' (acquired w)))
      as [ r | e ] eqn:Hrun.
    { rewrite (loop_step_ok _ _ _ _ _ _ _ _ _ _ _ r Hrun).
      exists O. eexists. simpl. split; [ reflexivity | ]. split; [ exact Hquiet | lia ]. }
    destruct e as [ m c | m c | code text | text | name text ].
    3: destruct (is_retryable code && (a <? max_retries self)) eqn:Hretry.
    3: {
      apply andb_prop in Hretry. destruct Hretry as (Hc & Ha).
      rewrite (loop_step_retry _ _ _ _ _ _ _ _ _ _ _ code text Hrun Hc
                 (proj1 (Z.ltb_lt _ _) Ha)).
      destruct (IH (delay * backoff_factor self)%float
                  (Some (PostgresError code text))
                  {| acquired := S (acquired w);
                     trace := (trace w
                        ++ trace (snd (attempt float_str self db sql timeout
                                         max_rows' (acquired w))))
                        ++ [EvSleep delay] |})
        as (k & evs & Htr & Hsl & Hk).
      exists (S k).
      exists (trace (snd (attempt float_str self db sql timeout max_rows'
                            (acquired w))) ++ [EvSleep delay] ++ evs).
      simpl in Htr |- *. rewrite Htr.
      split; [ now rewrite <- !app_assoc | ].
      split.
      - rewrite sleeps_of_app, Hquiet. simpl. now rewrite Hsl.
      - unfold retriable_attempts in *. simpl. rewrite Ha. simpl. lia. }
    3: {
      rewrite (loop_step_database_error _ _ _ _ _ _ _ _ _ _ _ code text Hrun).
      - exists O. eexists. simpl. split; [ reflexivity | ].
        split; [ exact Hquiet | lia ].
      - apply andb_false_iff in Hretry. destruct Hretry as [H | H];
          [ now left | right; now apply Z.ltb_ge ]. }
    2: {
      rewrite (loop_step_timeout _ _ _ _ _ _ _ _ _ _ _ m c Hrun).
      exists O. eexists. simpl. split; [ reflexivity | ].
      split; [ exact Hquiet | lia ]. }
    all: simpl; unfold try_catch; rewrite _execute_once_attempt, Hrun; simpl;
      exists O; eexists; (split; [ reflexivity | ]);
      (split; [ exact Hquiet | lia ]).
Qed.

(** C6, as the code has it.  In one call of [execute] the backoff sleeps
    are the delays the loop computes: the first lasts [retry_delay] and each
    later one the delay before it times [backoff_factor], a binary64
    product; no cap is applied.  There are at most [max_retries] sleeps, and
    at least [k] when the first [k] attempts fail transiently.  As long as
    the products are exact the n-th sleep has the value
    [retry_delay * backoff_factor ^ (n - 1)], and with a positive first
    delay and a factor above 1 each sleep is then strictly longer than the
    one before. *)
Theorem execute_backoff_geometric (float_str : float -> string)
    (self : SQLExecutor) (db : Database) (sql : string)
    (timeout : option float) (max_rows' : option Z) (w : World) (k : nat) :
  (k <= Z.to_nat (max_retries self))%nat ->
  (forall i, (i < k)%nat ->
     transient_attempt float_str self db sql
       (Py.or_float timeout (max_execution_time (security_config self)))
       (Py.or_int max_rows' (max_rows (security_config self)))
       (acquired w + i)) ->
  exists evs,
    let sleeps := sleeps_of evs in
    let exact_up_to (n : nat) : Prop :=
      forall j, (j < n)%nat ->
        exact_product (nth j sleeps 0%float) (backoff_factor self) = true in
    trace (snd (execute float_str self db sql timeout max_rows' w))
    = trace w ++ evs
    /\ (k <= List.length sleeps <= Z.to_nat (max_retries self))%nat
    /\ ((1 <= List.length sleeps)%nat ->
        nth 0 sleeps 0%float = retry_delay self)
    /\ (forall n, (1 <= n < List.length sleeps)%nat ->
          nth n sleeps 0%float
          = (nth (n - 1) sleeps 0 * backoff_factor self)%float)
    /\ (forall (d b : Q) (n : nat),
          float_value (retry_delay self) = Some d ->
          float_value (backoff_factor self) = Some b ->
          (1 <= n <= List.length sleeps)%nat ->
          exact_up_to (n - 1)%nat ->
          exists x,
            float_value (nth (n - 1) sleeps 0%float) = Some x
            /\ (x == d * b ^ (Z.of_nat n - 1))%Q)
    /\ (forall (d b : Q) (n : nat),
          float_value (retry_delay self) = Some d ->
          float_value (backoff_factor self) = Some b ->
          (0 < d)%Q -> (1 < b)%Q ->
          (1 <= n < List.length sleeps)%nat ->
          exact_up_to n ->
          exists x y,
            float_value (nth (n - 1) sleeps 0%float) = Some x
            /\ float_value (nth n sleeps 0%float) = Some y
            /\ (x < y)%Q).
Proof.
  intros Hk Htr.
  set (t := Py.or_float timeout (max_execution_time (security_config self)))
    in *.
  set (mr := Py.or_int max_rows' (max_rows (security_config self))) in *.
  destruct (loop_sleeps float_str self db sql t mr
              (Py.range (max_retries self + 1)) (retry_delay self) None w)
    as (r & evs & Hev & Hsl & Hr).
  assert (Hupper : (r <= Z.to_nat (max_retries self))%nat).
  { unfold Py.range in Hr.
    pose proof (retriable_attempts_seq self (Z.to_nat (max_retries self + 1)) O).
    simpl in *. rewrite Z.sub_0_r in *. lia. }
  assert (Hlower : (k <= r)%nat).
  { destruct k as [ | k' ]; [ lia | ].
    destruct (execute_retry_prefix float_str self db sql timeout max_rows' w
                (S k') ltac:(lia) Htr)
      as (rest & delay' & last' & evs1 & Hex & _ & Hsl1).
    fold t mr in Hex.
    destruct (loop_sleeps float_str self db sql t mr
                (Z.of_nat (S k') :: rest) delay' last'
                {| acquired := (acquired w + S k')%nat;
                   trace := trace w ++ evs1 |})
      as (r2 & evs2 & Hev2 & _).
    unfold execute in Hex. fold t mr in Hex. rewrite Hex in Hev.
    rewrite Hev2 in Hev. cbn [trace] in Hev.
    rewrite <- app_assoc in Hev. apply app_inv_head in Hev. subst evs.
    rewrite sleeps_of_app, Hsl1 in Hsl.
    apply (f_equal (@List.length float)) in Hsl.
    rewrite length_app, !backoff_delays_length in Hsl. lia. }
  exists evs. cbv zeta. rewrite Hsl, backoff_delays_length.
  split; [ exact Hev | ]. split; [ lia | ]. split; [ | split; [ | split ] ].
  - apply backoff_delays_first.
  - intros n Hn. destruct n as [ | n ]; [ lia | ].
    replace (S n - 1)%nat with n by lia.
    apply backoff_delays_step. lia.
  - intros d b n Hd Hb Hn Hex.
    replace (Z.of_nat n - 1) with (Z.of_nat (n - 1)) by lia.
    apply backoff_delays_exact; [ exact Hb | exact Hd | lia | exact Hex ].
  - intros d b n Hd Hb Hdpos Hbgt Hn Hex.
    destruct n as [ | n ]; [ lia | ].
    replace (S n - 1)%nat with n by lia.
    apply (backoff_delays_exact_increasing _ b _ _ d);
      [ exact Hb | exact Hd | exact Hdpos | exact Hbgt | lia | ].
    intros j Hj. apply Hex. lia.
Qed.

(** With the default settings ([retry_delay = 1.0], [backoff_factor = 2.0],
    three retries) and a database that keeps failing transiently, the sleeps
    are 1, 2 and 4 seconds. *)
Example default_backoff_delays :
  sleeps_of (trace (snd (execute print_thirty example_executor
                           (fun _ => failing deadlock) "SELECT 1" None None
                           fresh)))
  = [1; 2; 4]%float.
Proof. reflexivity. Qed.

(** The products of the default settings are exact up to the largest power
    of two a float holds: the delays are [2 ^ i] for every [i] up to 1023. *)
Example default_backoff_exact :
  forallb (fun delay => exact_product delay 2) (backoff_delays 1 2 1023)
  = true.
Proof. vm_compute. reflexivity. Qed.

Lemma execute_backoff_geometric_witness :
  exists evs,
    trace (snd (execute print_thirty example_executor
                  (fun _ => failing deadlock) "SELECT 1" None None fresh))
    = evs
    /\ sleeps_of evs = [1; 2; 4]%float
    /\ nth 1 (sleeps_of evs) 0%float = (nth 0 (sleeps_of evs) 0 * 2)%float
    /\ nth 2 (sleeps_of evs) 0%float = (nth 1 (sleeps_of evs) 0 * 2)%float
    /\ (exists x,
          float_value (nth 2 (sleeps_of evs) 0%float) = Some x
          /\ (x == 1 * 2 ^ 2)%Q)
    /\ (exists x y,
          float_value (nth 1 (sleeps_of evs) 0%float) = Some x
          /\ float_value (nth 2 (sleeps_of evs) 0%float) = Some y
          /\ (x < y)%Q).
Proof.
  destruct (execute_backoff_geometric print_thirty example_executor
              (fun _ => failing deadlock) "SELECT 1" None None fresh 3)
    as (evs & Htr & Hlen & Hfirst & Hstep & Hval & Hinc).
  - simpl. lia.
  - intros i Hi. exists "40P01", "deadlock detected".
    split; [ reflexivity | simpl; tauto ].
  - exists evs. cbv zeta in *.
    change (trace fresh ++ evs) with evs in Htr.
    assert (Hs : sleeps_of evs = [1; 2; 4]%float)
      by (rewrite <- Htr; vm_compute; reflexivity).
    split; [ exact Htr | ]. split; [ exact Hs | ].
    revert Hlen Hfirst Hstep Hval Hinc. rewrite Hs.
    intros Hlen Hfirst Hstep Hval Hinc.
    split; [ | split; [ | split ] ].
    + apply (Hstep 1%nat). simpl. lia.
    + apply (Hstep 2%nat). simpl. lia.
    + edestruct (Hval _ _ 3%nat eq_refl eq_refl) as (x & Hx & Hxeq).
      * simpl. lia.
      * intros j Hj.
        destruct j as [ | [ | j ] ];
          [ reflexivity | reflexivity | simpl in Hj; lia ].
      * exists x. split; [ exact Hx | ]. rewrite Hxeq. reflexivity.
    + eapply (Hinc _ _ 2%nat eq_refl eq_refl);
        [ reflexivity | reflexivity | simpl; lia | ].
      intros j Hj.
      destruct j as [ | [ | j ] ]; [ reflexivity | reflexivity | lia ].
Defined.

(** The claim of C6 as the spec words it fails on binary64 delays.  With a
    first delay of [0.1] and a factor of [3.0], the third sleep lasts
    [0.9000000000000001]: it is not the float [0.1 * 3.0 ** 2], and its
    value is not the value of [0.1] times [3 ^ 2].  With a first delay of
    [1e308] and a factor of [10.0], the second and the third sleep are both
    infinite: the third is not longer than the second. *)
Lemma backoff_products_are_rounded :
  sleeps_of (trace (snd (execute print_thirty tenth_executor
                           (fun _ => failing deadlock) "SELECT 1" None None
                           fresh)))
  = [0x1.999999999999ap-4; 0x1.3333333333334p-2; 0x1.ccccccccccccep-1]%float
  /\ nth 2 (sleeps_of (trace (snd (execute print_thirty tenth_executor
                                     (fun _ => failing deadlock) "SELECT 1"
                                     None None fresh)))) 0%float
     <> (retry_delay tenth_executor
         * (backoff_factor tenth_executor * backoff_factor tenth_executor))%float
  /\ (exists d b x,
        float_value (retry_delay tenth_executor) = Some d
        /\ float_value (backoff_factor tenth_executor) = Some b
        /\ float_value
             (nth 2 (sleeps_of (trace (snd (execute print_thirty tenth_executor
                                              (fun _ => failing deadlock)
                                              "SELECT 1" None None fresh))))
                0%float)
           = Some x
        /\ ~ (x == d * b ^ 2)%Q)
  /\ sleeps_of (trace (snd (execute print_thirty huge_delay_executor
                              (fun _ => failing deadlock) "SELECT 1" None None
                              fresh)))
     = [0x1.1ccf385ebc8ap+1023; infinity; infinity]%float
  /\ (0 <? retry_delay huge_delay_executor)%float = true
  /\ (1 <? backoff_factor huge_delay_executor)%float = true
  /\ (nth 1 (sleeps_of (trace (snd (execute print_thirty huge_delay_executor
                                      (fun _ => failing deadlock) "SELECT 1"
                                      None None fresh)))) 0
      <? nth 2 (sleeps_of (trace (snd (execute print_thirty huge_delay_executor
                                         (fun _ => failing deadlock) "SELECT 1"
                                         None None fresh)))) 0)%float
     = false.
Proof.
  split; [ vm_compute; reflexivity | ].
  split.
  { intros H. apply (f_equal Prim2SF) in H. vm_compute in H. discriminate H. }
  split.
  { do 3 eexists.
    split; [ reflexivity | ]. split; [ reflexivity | ].
    split; [ vm_compute; reflexivity | ].
    intros H. vm_compute in H. discriminate H. }
  split; [ vm_compute; reflexivity | ].
  split; [ reflexivity | ]. split; reflexivity.
Qed.

(** ** Session hardening *)

Lemma all_false_iff (p : ascii -> bool) (s : string) :
  Py.all p s = false <-> exists c, In c (chars s) /\ p c = false.
Proof.
  unfold chars. induction s as [ | a s IH ]; simpl.
  - split; [ discriminate | intros (c & [] & _) ].
  - rewrite andb_false_iff, IH. split.
    + intros [H | (c & Hin & Hc)]; [ exists a; auto | exists c; auto ].
    + intros (c & [Heq | Hin] & Hc); [ left; congruence | right; exists c; auto ].
Qed.

(** Whatever fails, the statements issued are the first ones of
    [session_commands], in that order, all on the connection given. *)
Lemma _set_session_params_prefix (self : SQLExecutor) (db : Database)
    (conn : nat) (timeout : float) (w : World) :
  exists issued rest,
    snd (_set_session_params self db conn timeout w)
    = {| acquired := acquired w;
         trace := trace w ++ map (EvExecute conn) issued |}
    /\ session_commands (security_config self) timeout = issued ++ rest.
Proof.
  unfold session_commands. run_session.
  destruct (Py.int_of_float (timeout * 1000)) as [ ms | | ]; simpl.
  2, 3: exists [], []; split;
    [ destruct w; simpl; now rewrite app_nil_r | reflexivity ].
  destruct (execute_error (db conn) (set_statement_timeout ms)) as [ e1 | ].
  { eexists [_], _. split; [ destruct e1; reflexivity | reflexivity ]. }
  destruct (Py.all search_path_char (safe_search_path (security_config self)));
    simpl.
  2: { eexists [_], _. split; reflexivity. }
  destruct (execute_error (db conn)
              (set_search_path (safe_search_path (security_config self))))
    as [ e2 | ].
  { eexists [_; _], _. split; [ | reflexivity ].
    destruct e2; simpl; now rewrite <- app_assoc. }
  destruct (configured_role (security_config self)) as [ r | ]; simpl.
  2: { eexists [_; _], []. split; [ | reflexivity ]. now rewrite <- app_assoc. }
  destruct (Py.all role_char r); simpl.
  2: { eexists [_; _], [_]. split; [ | reflexivity ]. now rewrite <- app_assoc. }
  eexists [_; _; _], []. split; [ | reflexivity ].
  destruct (execute_error (db conn) (set_role r)) as [ e3 | ];
    [ destruct e3 | ]; simpl; now rewrite <- !app_assoc.
Qed.

(** When the connection accepts every command and the search path passes
    its check, all the commands are issued, except [SET ROLE] when no role
    is configured or when the role fails its check. *)
Lemma _set_session_params_accepted (self : SQLExecutor) (db : Database)
    (conn : nat) (timeout : float) (ms : Z) (w : World) :
  Py.int_of_float (timeout * 1000) = Py.Int ms ->
  (forall statement, execute_error (db conn) statement = None) ->
  Py.all search_path_char (safe_search_path (security_config self)) = true ->
  match configured_role (security_config self) with
  | None =>
      _set_session_params self db conn timeout w
      = (Ok tt,
         {| acquired := acquired w;
            trace := trace w
              ++ [EvExecute conn (set_statement_timeout ms);
                  EvExecute conn
                    (set_search_path (safe_search_path (security_config self)))] |})
  | Some role =>
      if Py.all role_char role then
        _set_session_params self db conn timeout w
        = (Ok tt,
           {| acquired := acquired w;
              trace := trace w
                ++ [EvExecute conn (set_statement_timeout ms);
                    EvExecute conn
                      (set_search_path (safe_search_path (security_config self)));
                    EvExecute conn (set_role role)] |})
      else
        _set_session_params self db conn timeout w
        = (Raise (DatabaseError "Invalid readonly_role configuration"
                    [("readonly_role", DStr role)]),
           {| acquired := acquired w;
              trace := trace w
                ++ [EvExecute conn (set_statement_timeout ms);
                    EvExecute conn
                      (set_search_path (safe_search_path (security_config self)))] |})
  end.
Proof.
  intros Hms Hok Hpath. run_session. rewrite Hms. simpl.
  rewrite !Hok, Hpath. simpl. rewrite ?Hok.
  destruct (configured_role (security_config self)) as [ r | ]; simpl.
  - destruct (Py.all role_char r); simpl.
    + rewrite ?Hok. unfold bind. simpl. now rewrite <- !app_assoc.
    + now rewrite <- !app_assoc.
  - now rewrite <- !app_assoc.
Qed.

(** C8. Session hardening issues its commands in a fixed order on the one
    connection it is given: first [SET statement_timeout] with the timeout
    in milliseconds, then [SET search_path] with the configured path, then,
    only when a read-only role is configured and made of alphanumeric
    characters and underscores, [SET ROLE].  A role with another character
    is rejected with a [DatabaseError] and [SET ROLE] is not issued.
    Whatever fails, the commands issued are the first ones of that list.
    The milliseconds are [int(timeout * 1000)], for a timeout that [int]
    accepts. *)
Theorem session_hardening_order (self : SQLExecutor) (db : Database)
    (conn : nat) (timeout : float) (w : World) :
  let cfg := security_config self in
  let s2 := set_search_path (safe_search_path cfg) in
  (exists issued rest,
     snd (_set_session_params self db conn timeout w)
     = {| acquired := acquired w;
          trace := trace w ++ map (EvExecute conn) issued |}
     /\ session_commands cfg timeout = issued ++ rest)
  /\ (forall ms : Z,
        Py.int_of_float (timeout * 1000) = Py.Int ms ->
        let s1 := set_statement_timeout ms in
        (forall statement, execute_error (db conn) statement = None) ->
        Py.all search_path_char (safe_search_path cfg) = true ->
        match configured_role cfg with
        | None =>
            _set_session_params self db conn timeout w
            = (Ok tt,
               {| acquired := acquired w;
                  trace := trace w ++ [EvExecute conn s1; EvExecute conn s2] |})
        | Some role =>
            if Py.all role_char role then
              _set_session_params self db conn timeout w
              = (Ok tt,
                 {| acquired := acquired w;
                    trace := trace w
                      ++ [EvExecute conn s1; EvExecute conn s2;
                          EvExecute conn (set_role role)] |})
            else
              _set_session_params self db conn timeout w
              = (Raise (DatabaseError "Invalid readonly_role configuration"
                          [("readonly_role", DStr role)]),
                 {| acquired := acquired w;
                    trace := trace w
                      ++ [EvExecute conn s1; EvExecute conn s2] |})
        end).
Proof.
  intros cfg s2. split.
  - apply _set_session_params_prefix.
  - intros ms Hms s1. now apply _set_session_params_accepted.
Qed.

(** C2, as the code has it.  A [search_path] with a character that is
    neither alphanumeric nor an underscore, a comma or a space is rejected
    before [SET search_path] (and [SET ROLE]) can be issued; the one
    statement issued on the connection is the [SET statement_timeout] that
    precedes the check, with the milliseconds [int(timeout * 1000)] gives.
    When that statement succeeded the error is the [DatabaseError] of the
    invalid configuration. *)
Theorem search_path_rejected_before_use (self : SQLExecutor) (db : Database)
    (conn : nat) (timeout : float) (ms : Z) (w : World) (c : ascii) :
  Py.int_of_float (timeout * 1000) = Py.Int ms ->
  In c (chars (safe_search_path (security_config self))) ->
  search_path_char c = false ->
  exists e,
    _set_session_params self db conn timeout w
    = (Raise e,
       {| acquired := acquired w;
          trace := trace w ++ [EvExecute conn (set_statement_timeout ms)] |})
    /\ (execute_error (db conn) (set_statement_timeout ms) = None ->
        e = DatabaseError "Invalid search_path configuration"
              [("search_path", DStr (safe_search_path (security_config self)))]).
Proof.
  intros Hms Hin Hc.
  assert (Hall : Py.all search_path_char
                   (safe_search_path (security_config self)) = false)
    by (apply all_false_iff; eauto).
  run_session. rewrite Hms, Hall. simpl.
  destruct (execute_error (db conn) (set_statement_timeout ms)) as [ e1 | ].
  - destruct e1; eexists; (split; [ reflexivity | discriminate ]).
  - eexists. split; [ reflexivity | reflexivity ].
Qed.

Lemma session_hardening_order_witness :
  _set_session_params example_executor (fun _ => serving []) 0 30 fresh
  = (Ok tt,
     {| acquired := 0;
        trace := [ EvExecute 0 "SET statement_timeout = 30000";
                   EvExecute 0 "SET search_path = 'public'";
                   EvExecute 0 "SET ROLE readonly_user" ] |}).
Proof.
  exact (proj2 (session_hardening_order example_executor
                  (fun _ => serving []) 0%nat 30 fresh)
           30000 eq_refl (fun _ => eq_refl) eq_refl).
Defined.

Lemma search_path_rejected_before_use_witness :
  exists e,
    _set_session_params injected_executor (fun _ => serving []) 0 30 fresh
    = (Raise e,
       {| acquired := 0;
          trace := [ EvExecute 0 "SET statement_timeout = 30000" ] |})
    /\ (@None exn = None ->
        e = DatabaseError "Invalid search_path configuration"
              [("search_path", DStr "public; DROP TABLE users")]).
Proof.
  apply (search_path_rejected_before_use injected_executor
           (fun _ => serving []) 0%nat 30 30000 fresh ";"%char).
  - reflexivity.
  - simpl. tauto.
  - reflexivity.
Defined.

(** The claim of C2 as the spec words it (no statement at all is issued
    before the rejection) fails: with a semicolon in the search path, the
    rejection comes after [SET statement_timeout] was issued. *)
Lemma search_path_rejection_after_first_statement :
  In ";"%char (chars (safe_search_path (security_config injected_executor)))
  /\ search_path_char ";" = false
  /\ _set_session_params injected_executor (fun _ => serving []) 0 30 fresh
     = (Raise (DatabaseError "Invalid search_path configuration"
                 [("search_path", DStr "public; DROP TABLE users")]),
        {| acquired := 0;
           trace := [ EvExecute 0 "SET statement_timeout = 30000" ] |})
  /\ statements_of
       (trace (snd (_set_session_params injected_executor
                      (fun _ => serving []) 0 30 fresh)))
     <> [].
Proof.
  split; [ simpl; tauto | ].
  split; [ reflexivity | ].
  split; [ reflexivity | ].
  discriminate.
Qed.

(** ** One attempt on a healthy connection *)

Lemma _set_session_params_ok (self : SQLExecutor) (db : Database)
    (conn : nat) (timeout : float) (ms : Z) (w : World) :
  Py.int_of_float (timeout * 1000) = Py.Int ms ->
  (forall statement, execute_error (db conn) statement = None) ->
  well_configured (security_config self) ->
  _set_session_params self db conn timeout w
  = (Ok tt,
     {| acquired := acquired w;
        trace := trace w
          ++ map (EvExecute conn)
               (session_commands (security_config self) timeout) |}).
Proof.
  intros Hms Hok (Hpath & Hrole).
  pose proof (_set_session_params_accepted self db conn timeout ms w Hms Hok
                Hpath) as H.
  unfold session_commands. rewrite Hms.
  destruct (configured_role (security_config self)) as [ r | ].
  - rewrite Hrole in H. exact H.
  - exact H.
Qed.

Lemma _execute_once_serving (float_str : float -> string) (self : SQLExecutor)
    (db : Database) (sql : string) (timeout : float) (ms : Z) (max_rows' : Z)
    (w : World) (records : list record) :
  Py.int_of_float (timeout * 1000) = Py.Int ms ->
  accepts (db (acquired w)) ->
  well_configured (security_config self) ->
  fetch (db (acquired w)) sql timeout = Fetched records ->
  _execute_once float_str self db sql timeout max_rows' w
  = (Ok (_serialize_results
           (map PyLib.dict_of_record (fst (limit_rows records max_rows'))),
         Py.len records),
     {| acquired := S (acquired w);
        trace := trace w
          ++ [EvAcquire (acquired w); EvBegin (acquired w)]
          ++ map (EvExecute (acquired w))
               (session_commands (security_config self) timeout)
          ++ [EvFetch (acquired w) sql timeout; EvCommit (acquired w);
              EvRelease (acquired w)] |}).
Proof.
  intros Hms (Hacq & Hbeg & Hok) Hcfg Hfetch.
  unfold _execute_once, with_readonly_transaction, bind at 1, pool_acquire.
  rewrite Hacq. unfold bind at 1, emit at 1. unfold bind at 1, may_raise.
  simpl acquired. rewrite Hbeg. unfold ret at 1. unfold bind at 1.
  rewrite (_set_session_params_ok self db (acquired w) timeout ms _ Hms Hok
             Hcfg).
  unfold bind, try_catch, conn_fetch, bind, emit. simpl.
  rewrite Hfetch. unfold limit_rows. simpl.
  repeat rewrite <- app_assoc. reflexivity.
Qed.

(** ** Row limiting *)

Lemma len_firstn {A : Type} (l : list A) (n : Z) :
  0 <= n <= Py.len l -> Py.len (firstn (Z.to_nat n) l) = n.
Proof.
  unfold Py.len. intros H. rewrite length_firstn. lia.
Qed.

Lemma slice_to_prefix {A : Type} (l : list A) (stop : Z) :
  exists dropped, l = Py.slice_to l stop ++ dropped.
Proof.
  unfold Py.slice_to.
  destruct (stop <? 0);
    [ exists (skipn (Z.to_nat (Py.len l + stop)) l)
    | exists (skipn (Z.to_nat stop) l) ];
    now rewrite firstn_skipn.
Qed.

(** C3, for limits that are not negative.  The total is the number of
    records fetched, and the records kept are the first ones fetched, in
    their order, whatever the limit.  When the limit is not negative: with
    at most [max_rows] records all are kept, unchanged; with more, exactly
    the first [max_rows] are kept.  The rows returned by the attempt are
    the records kept, each turned into a dict and serialized, in the same
    order. *)
Theorem limit_rows_prefix (records : list record) (max_rows' : Z) :
  snd (limit_rows records max_rows') = Py.len records
  /\ (exists dropped, records = fst (limit_rows records max_rows') ++ dropped)
  /\ (0 <= max_rows' ->
      (Py.len records <= max_rows' ->
       fst (limit_rows records max_rows') = records)
      /\ (Py.len records > max_rows' ->
          fst (limit_rows records max_rows')
          = firstn (Z.to_nat max_rows') records
          /\ Py.len (fst (limit_rows records max_rows')) = max_rows'))
  /\ (forall float_str self db sql timeout ms w,
        Py.int_of_float (timeout * 1000) = Py.Int ms ->
        accepts (db (acquired w)) ->
        well_configured (security_config self) ->
        fetch (db (acquired w)) sql timeout = Fetched records ->
        fst (_execute_once float_str self db sql timeout max_rows' w)
        = Ok (_serialize_results
                (map PyLib.dict_of_record (fst (limit_rows records max_rows'))),
              Py.len records)).
Proof.
  split; [ reflexivity | ]. split; [ | split ].
  - unfold limit_rows. simpl.
    destruct (Py.len records >? max_rows').
    + apply slice_to_prefix.
    + exists []. now rewrite app_nil_r.
  - intros Hmax. unfold limit_rows. simpl.
    destruct (Py.len records >? max_rows') eqn:E.
    + apply Z.gtb_lt in E. split; [ lia | ]. intros _.
      unfold Py.slice_to.
      destruct (max_rows' <? 0) eqn:En; [ apply Z.ltb_lt in En; lia | ].
      split; [ reflexivity | apply len_firstn; lia ].
    + rewrite Z.gtb_ltb in E. apply Z.ltb_ge in E.
      split; [ reflexivity | lia ].
  - intros float_str self db sql timeout ms w Hms Hacc Hcfg Hfetch.
    now rewrite (_execute_once_serving float_str self db sql timeout ms
                   max_rows' w records Hms Hacc Hcfg Hfetch).
Qed.

Lemma limit_rows_prefix_witness :
  (3 > 2 ->
   fst (limit_rows three_records 2) = [ [("id", VInt 1)]; [("id", VInt 2)] ]
   /\ Py.len (fst (limit_rows three_records 2)) = 2)
  /\ (3 <= 3 -> fst (limit_rows three_records 3) = three_records)
  /\ fst (_execute_once print_thirty example_executor
            (fun _ => serving three_records) "SELECT id FROM t" 30 2 fresh)
     = Ok ([ [("id", VInt 1)]; [("id", VInt 2)] ], 3).
Proof.
  split; [ | split ].
  - apply (proj2 (proj1 (proj2 (proj2 (limit_rows_prefix three_records 2)))
                    ltac:(lia))).
  - apply (proj1 (proj1 (proj2 (proj2 (limit_rows_prefix three_records 3)))
                    ltac:(lia))).
  - apply (proj2 (proj2 (proj2 (limit_rows_prefix three_records 2)))
             print_thirty example_executor (fun _ => serving three_records)
             "SELECT id FROM t" 30%float 30000 fresh).
    + reflexivity.
    + repeat split.
    + repeat split.
    + reflexivity.
Defined.

(** The claim of C3 for every [max_rows] fails on a negative one:
    [records[:-1]] drops the last record, so two of the three records are
    returned where the claim has the first [-1]. *)
Lemma limit_rows_negative_max_rows :
  Py.len three_records > -1
  /\ limit_rows three_records (-1)
     = ([ [("id", VInt 1)]; [("id", VInt 2)] ], 3)
  /\ Py.len (fst (limit_rows three_records (-1))) <> -1
  /\ fst (execute print_thirty example_executor (fun _ => serving three_records)
            "SELECT id FROM t" None (Some (-1)) fresh)
     = Ok ([ [("id", VInt 1)]; [("id", VInt 2)] ], 3).
Proof.
  split; [ reflexivity | ].
  split; [ reflexivity | ].
  split; [ discriminate | reflexivity ].
Qed.

(** ** Falsy arguments *)

(** C10. [execute] replaces a falsy argument by the configured default,
    not only [None]: a [timeout] of zero ([0.0] or [-0.0]) gives the same
    call as no [timeout], a [max_rows] of zero the same call as no
    [max_rows].  So, with both zero on a healthy connection, the session
    timeout and the fetch run under [max_execution_time], and the rows are
    limited to the configured [max_rows], not to none. *)
Theorem execute_falsy_arguments (float_str : float -> string)
    (self : SQLExecutor) (db : Database) (sql : string) :
  (forall (zero : float) (max_rows' : option Z),
     (zero =? 0)%float = true ->
     execute float_str self db sql (Some zero) max_rows'
     = execute float_str self db sql None max_rows')
  /\ (forall timeout : option float,
        execute float_str self db sql timeout (Some 0)
        = execute float_str self db sql timeout None)
  /\ (forall (zero : float) (ms : Z) (w : World) (records : list record),
        (zero =? 0)%float = true ->
        0 <= max_retries self ->
        Py.int_of_float (max_execution_time (security_config self) * 1000)
        = Py.Int ms ->
        accepts (db (acquired w)) ->
        well_configured (security_config self) ->
        fetch (db (acquired w)) sql (max_execution_time (security_config self))
        = Fetched records ->
        execute float_str self db sql (Some zero) (Some 0) w
        = (Ok (_serialize_results
                 (map PyLib.dict_of_record
                    (fst (limit_rows records (max_rows (security_config self))))),
               Py.len records),
           {| acquired := S (acquired w);
              trace := trace w
                ++ [EvAcquire (acquired w); EvBegin (acquired w)]
                ++ map (EvExecute (acquired w))
                     (session_commands (security_config self)
                        (max_execution_time (security_config self)))
                ++ [EvFetch (acquired w) sql
                      (max_execution_time (security_config self));
                    EvCommit (acquired w); EvRelease (acquired w)] |})).
Proof.
  split; [ | split; [ reflexivity | ] ].
  - intros zero max_rows' Hz.
    unfold execute, Py.or_float, Py.truthy_float. now rewrite Hz.
  - intros zero ms w records Hz Hm Hms Hacc Hcfg Hfetch.
    unfold execute, Py.or_float, Py.truthy_float. rewrite Hz.
    simpl negb. cbv iota. simpl Py.or_int.
    rewrite (range_split (max_retries self) 0 Hm). simpl app.
    unfold execute_attempts, try_catch.
    now rewrite (_execute_once_serving float_str self db sql _ ms _ w records
                   Hms Hacc Hcfg Hfetch).
Qed.

(** The zeros of binary64 are falsy, a NaN is not. *)
Example or_float_zeros :
  Py.or_float (Some 0%float) 30 = 30%float
  /\ Py.or_float (Some (-0)%float) 30 = 30%float
  /\ Py.or_float (Some nan) 30 = nan
  /\ Py.or_float None 30 = 30%float.
Proof. repeat split. Qed.

Lemma execute_falsy_arguments_witness :
  execute print_thirty example_executor (fun _ => serving three_records)
    "SELECT id FROM t" (Some 0%float) (Some 0) fresh
  = (Ok ([ [("id", VInt 1)]; [("id", VInt 2)] ], 3),
     {| acquired := 1;
        trace := [ EvAcquire 0; EvBegin 0;
                   EvExecute 0 "SET statement_timeout = 30000";
                   EvExecute 0 "SET search_path = 'public'";
                   EvExecute 0 "SET ROLE readonly_user";
                   EvFetch 0 "SELECT id FROM t" 30;
                   EvCommit 0; EvRelease 0 ] |}).
Proof.
  apply (proj2 (proj2 (execute_falsy_arguments print_thirty example_executor
                         (fun _ => serving three_records) "SELECT id FROM t"))
           0%float 30000 fresh three_records).
  - reflexivity.
  - simpl. lia.
  - reflexivity.
  - repeat split.
  - repeat split.
  - reflexivity.
Defined.

(** ** The serializer *)

(** C9. Serializing a JSON-compatible value gives the value back. *)
Theorem serialize_value_json_fixpoint :
  forall v : pyvalue, is_json v = true -> serialize_value v = v.
Proof.
  fix IH 1. intros v H.
  destruct v; simpl in H; try discriminate H; try reflexivity.
  - simpl. f_equal.
    induction items as [ | x xs IHxs ]; simpl in *; [ reflexivity | ].
    apply andb_prop in H. destruct H as (Hx & Hxs).
    now rewrite (IH x Hx), (IHxs Hxs).
  - simpl. f_equal.
    induction items as [ | [k x] xs IHxs ]; simpl in *; [ reflexivity | ].
    apply andb_prop in H. destruct H as (Hx & Hxs).
    destruct k; try discriminate Hx.
    now rewrite (IH x Hx), (IHxs Hxs).
Qed.

Lemma serialize_value_json_fixpoint_witness :
  serialize_value
    (VDict [ (VStr "tags", VList [VStr "a"; VNone]);
             (VStr "n", VInt 7); (VStr "ok", VBool true);
             (VStr "ratio", VFloat 0.5) ])
  = VDict [ (VStr "tags", VList [VStr "a"; VNone]);
            (VStr "n", VInt 7); (VStr "ok", VBool true);
            (VStr "ratio", VFloat 0.5) ].
Proof.
  apply serialize_value_json_fixpoint. reflexivity.
Defined.

(** The output of the serializer on listed shapes is JSON-compatible. *)
Lemma serialize_value_is_json :
  forall v : pyvalue, is_listed v = true -> is_json (serialize_value v) = true.
Proof.
  fix IH 1. intros v H.
  destruct v; simpl in H; try discriminate H; try reflexivity.
  - simpl.
    induction items as [ | x xs IHxs ]; simpl in *; [ reflexivity | ].
    apply andb_prop in H. destruct H as (Hx & Hxs).
    now rewrite (IH x Hx), (IHxs Hxs).
  - simpl.
    induction items as [ | x xs IHxs ]; simpl in *; [ reflexivity | ].
    apply andb_prop in H. destruct H as (Hx & Hxs).
    now rewrite (IH x Hx), (IHxs Hxs).
  - simpl.
    induction items as [ | [k x] xs IHxs ]; simpl in *; [ reflexivity | ].
    apply andb_prop in H. destruct H as (Hx & Hxs).
    destruct k; try discriminate Hx.
    now rewrite (IH x Hx), (IHxs Hxs).
Qed.

Lemma all_append (p : ascii -> bool) (s1 s2 : string) :
  Py.all p (s1 ++ s2)%string = Py.all p s1 && Py.all p s2.
Proof.
  induction s1 as [ | c s1 IH ]; simpl; [ reflexivity | ].
  now rewrite IH, andb_assoc.
Qed.

Lemma all_substring (p : ascii -> bool) (s : string) :
  forall n m, Py.all p s = true -> Py.all p (substring n m s) = true.
Proof.
  induction s as [ | c s IH ]; intros n m H; simpl in *.
  - destruct n, m; reflexivity.
  - apply andb_prop in H. destruct H as (Hc & Hs).
    destruct n as [ | n ]; [ destruct m as [ | m ] | ]; simpl; auto.
    now rewrite Hc, IH.
Qed.

Lemma length_substring (s : string) :
  forall n m,
    (n + m <= String.length s)%nat -> String.length (substring n m s) = m.
Proof.
  induction s as [ | c s IH ]; intros n m H; simpl in *.
  - destruct n, m; simpl in *; lia.
  - destruct n as [ | n ]; [ destruct m as [ | m ] | ]; simpl; auto.
    + rewrite IH; [ reflexivity | simpl; lia ].
    + apply IH. lia.
Qed.

Lemma length_append (s1 s2 : string) :
  String.length (s1 ++ s2)%string = (String.length s1 + String.length s2)%nat.
Proof. induction s1 as [ | c s1 IH ]; simpl; [ reflexivity | now rewrite IH ]. Qed.

Lemma hex_digit_lower (n : N) :
  (n < 16)%N -> is_lower_hex (Py.hex_digit n) = true.
Proof.
  intros H.
  assert (Hn : In n (map N.of_nat (seq 0 16))).
  { replace n with (N.of_nat (N.to_nat n)) by lia.
    apply in_map, in_seq. lia. }
  simpl in Hn.
  repeat (destruct Hn as [ <- | Hn ]; [ reflexivity | ]). destruct Hn.
Qed.

(** [bytes.hex()] gives two lowercase hexadecimal digits per byte. *)
Lemma bytes_hex_lower (b : list byte) :
  Py.all is_lower_hex (Py.bytes_hex b) = true
  /\ String.length (Py.bytes_hex b) = (2 * List.length b)%nat.
Proof.
  induction b as [ | x b (IH1 & IH2) ]; [ split; reflexivity | ].
  split.
  - change (is_lower_hex (Py.hex_digit (Byte.to_N x / 16))
            && (is_lower_hex (Py.hex_digit (Byte.to_N x mod 16))
                && Py.all is_lower_hex (Py.bytes_hex b)) = true).
    pose proof (Byte.to_N_bounded x) as Hx.
    rewrite !hex_digit_lower, IH1; [ reflexivity | | ].
    + apply N.mod_lt. discriminate.
    + apply N.Div0.div_lt_upper_bound. lia.
  - simpl. rewrite IH2. lia.
Qed.

Lemma hex_fixed_lower (digits : nat) :
  forall n,
    Py.all is_lower_hex (Py.hex_fixed digits n) = true
    /\ String.length (Py.hex_fixed digits n) = digits.
Proof.
  induction digits as [ | d IH ]; intros n; [ split; reflexivity | ].
  destruct (IH (n / 16)%N) as (H1 & H2). simpl. split.
  - rewrite all_append, H1. simpl.
    rewrite hex_digit_lower; [ reflexivity | ].
    apply N.mod_lt. discriminate.
  - rewrite length_append, H2. simpl. lia.
Qed.

(** [str(u)] for a UUID: five groups of 8, 4, 4, 4 and 12 lowercase
    hexadecimal digits, separated by hyphens. *)
Lemma uuid_str_canonical (u : pyuuid) :
  exists a b c d e : string,
    PyLib.uuid_str u = (a ++ "-" ++ b ++ "-" ++ c ++ "-" ++ d ++ "-" ++ e)%string
    /\ map String.length [a; b; c; d; e] = [8; 4; 4; 4; 12]%nat
    /\ forallb (Py.all is_lower_hex) [a; b; c; d; e] = true.
Proof.
  destruct (hex_fixed_lower 32 (uuid_int u)) as (Hall & Hlen).
  unfold PyLib.uuid_str.
  generalize dependent (Py.hex_fixed 32 (uuid_int u)). intros h Hall Hlen.
  do 5 eexists. split; [ reflexivity | ]. split.
  - cbn [map]. rewrite !length_substring by (rewrite Hlen; lia). reflexivity.
  - cbn [forallb]. rewrite !all_substring by exact Hall. reflexivity.
Qed.

(** C5. [serialize_value] is defined on every shape and follows the table:
    [None] stays [None]; dates, times and date-times become their ISO-8601
    string; a duration its [str]; a decimal the nearest binary64 float
    ([Decimal("99.99")] gives [99.99]); a UUID its lowercase hyphenated
    string; bytes their lowercase hexadecimal string ([0xDE 0xAD] gives
    ["dead"]); lists and tuples a list of the serialized elements; a dict
    the dict of the same keys with the serialized values; any other value
    is returned unchanged.  On the listed shapes the result is
    JSON-compatible. *)
Theorem serialize_value_table :
  serialize_value VNone = VNone
  /\ (forall d t,
        serialize_value (VDatetime d t) = VStr (PyLib.datetime_isoformat d t))
  /\ (forall d, serialize_value (VDate d) = VStr (PyLib.date_isoformat d))
  /\ (forall t, serialize_value (VTime t) = VStr (PyLib.time_isoformat t))
  /\ serialize_value
       (VDatetime {| year := 2024; month := 1; day := 1 |}
          {| hour := 12; minute := 0; second := 0; microsecond := 0;
             utcoffset := None |})
     = VStr "2024-01-01T12:00:00"
  /\ (forall td,
        serialize_value (VTimedelta td) = VStr (PyLib.timedelta_str td))
  /\ (forall d,
        serialize_value (VDecimal d) = VFloat (PyLib.float_of_decimal d))
  /\ serialize_value (VDecimal (DecFinite false 9999 (-2)))
     = VFloat 0x1.8ff5c28f5c28fp+6%float
  /\ (forall u,
        serialize_value (VUUID u) = VStr (PyLib.uuid_str u)
        /\ exists a b c d e : string,
             PyLib.uuid_str u
             = (a ++ "-" ++ b ++ "-" ++ c ++ "-" ++ d ++ "-" ++ e)%string
             /\ map String.length [a; b; c; d; e] = [8; 4; 4; 4; 12]%nat
             /\ forallb (Py.all is_lower_hex) [a; b; c; d; e] = true)
  /\ (forall b,
        serialize_value (VBytes b) = VStr (Py.bytes_hex b)
        /\ Py.all is_lower_hex (Py.bytes_hex b) = true
        /\ String.length (Py.bytes_hex b) = (2 * List.length b)%nat)
  /\ serialize_value (VBytes [xde; xad]) = VStr "dead"
  /\ (forall items,
        serialize_value (VList items) = VList (map serialize_value items))
  /\ (forall items,
        serialize_value (VTuple items) = VList (map serialize_value items))
  /\ (forall items,
        serialize_value (VDict items)
        = VDict (map (fun kv => (fst kv, serialize_value (snd kv))) items))
  /\ (forall v,
        match v with
        | VBool _ | VInt _ | VFloat _ | VStr _ | VOther _ _ =>
            serialize_value v = v
        | _ => True
        end)
  /\ (forall v, is_listed v = true -> is_json (serialize_value v) = true).
Proof.
  repeat match goal with |- _ /\ _ => split end;
    try reflexivity; intros.
  - split; [ reflexivity | apply uuid_str_canonical ].
  - split; [ reflexivity | apply bytes_hex_lower ].
  - simpl. f_equal. apply map_ext. intros [k x]. reflexivity.
  - destruct v; exact I || reflexivity.
  - now apply serialize_value_is_json.
Qed.

(** Serialization goes through nested containers. *)
Example serialize_value_nested :
  serialize_value
    (VDict [ (VStr "price", VDecimal (DecFinite false 9999 (-2)));
             (VStr "ids",
               VTuple [ VUUID {| uuid_int := 0x12345678123456781234567812345678 |};
                        VBytes [xde; xad] ]);
             (VStr "age",
               VTimedelta {| days := 1; seconds := 3661; microseconds := 0 |}) ])
  = VDict [ (VStr "price", VFloat 0x1.8ff5c28f5c28fp+6%float);
            (VStr "ids",
              VList [ VStr "12345678-1234-5678-1234-567812345678";
                      VStr "dead" ]);
            (VStr "age", VStr "1 day, 1:01:01") ].
Proof. reflexivity. Qed.

(** ** A database error raised by a session command *)

(** X18. A database error raised by [SET statement_timeout] leaves
    [_set_session_params] as a [DatabaseError], which [execute] takes for
    an unexpected error: whatever its code, retryable or not, there is one
    attempt and no sleep. *)
Lemma execute_session_failure_not_retried (float_str : float -> string)
    (self : SQLExecutor) (db : Database) (sql : string) (timeout : option float)
    (max_rows' : option Z) (w : World) (ms : Z) (code : option string)
    (text : string) :
  0 <= max_retries self ->
  Py.int_of_float
    (Py.or_float timeout (max_execution_time (security_config self)) * 1000)
  = Py.Int ms ->
  acquire_error (db (acquired w)) = None ->
  begin_error (db (acquired w)) = None ->
  execute_error (db (acquired w)) (set_statement_timeout ms)
  = Some (PostgresError code text) ->
  exists evs,
    execute float_str self db sql timeout max_rows' w
    = (Raise (DatabaseError
                ("Unexpected error during query execution: "
                   ++ "Failed to set session parameters: " ++ text)%string
                [("error_type", DStr "DatabaseError");
                 ("error_message",
                   DStr ("Failed to set session parameters: " ++ text)%string)]),
       {| acquired := S (acquired w); trace := trace w ++ evs |})
    /\ attempts_of evs = 1%nat
    /\ sleeps_of evs = [].
Proof.
  intros Hm Hms Hacq Hbeg Hexec.
  unfold execute. rewrite (range_split (max_retries self) 0 Hm). simpl app.
  set (t := Py.or_float timeout (max_execution_time (security_config self)))
    in *.
  set (mr := Py.or_int max_rows' (max_rows (security_config self))).
  assert (Hrun : fst (attempt float_str self db sql t mr (acquired w))
                 = Raise (DatabaseError
                            ("Failed to set session parameters: " ++ text)%string
                            [("error_code", detail_of_opt_str code);
                             ("timeout_ms", DInt ms);
                             ("search_path",
                               DStr (safe_search_path (security_config self)));
                             ("readonly_role",
                               detail_of_opt_str
                                 (readonly_role (security_config self)))])).
  { unfold attempt, _execute_once, with_readonly_transaction, bind at 1,
      pool_acquire. simpl acquired. rewrite Hacq.
    unfold bind at 1, emit at 1. unfold bind at 1, may_raise at 1.
    rewrite Hbeg. unfold ret at 1. unfold bind at 1.
    unfold _set_session_params, int. rewrite Hms.
    unfold bind at 1, ret at 1, try_catch at 1, bind at 1, conn_execute,
      bind at 1, emit at 1, may_raise at 1.
    rewrite Hexec. reflexivity. }
  destruct (attempt_effects float_str self db sql t mr (acquired w))
    as (H1 & H2).
  simpl execute_attempts. unfold try_catch.
  rewrite _execute_once_attempt, Hrun. simpl.
  eexists. split; [ reflexivity | ]. split; assumption.
Qed.

(** * Further properties *)

(** ** The shape of a call *)

Lemma is_retryable_inv (code : option string) :
  is_retryable code = true ->
  exists c, code = Some c /\ In c RETRYABLE_ERROR_CODES.
Proof.
  destruct code as [ c | ]; [ | discriminate ].
  unfold is_retryable. intros H. apply existsb_exists in H.
  destruct H as (x & Hin & Heq). apply String.eqb_eq in Heq. subst x.
  exists c. auto.
Qed.

Section Shape.

Variable float_str : float -> string.
Variable self : SQLExecutor.
Variable db : Database.
Variable sql : string.
Variable timeout : float.
Variable max_rows : Z.

Let run := attempt float_str self db sql timeout max_rows.
Let loop := execute_attempts float_str self db sql timeout max_rows.
Let effects (n : nat) : list event := trace (snd (run n)).

(** An attempt that ends the loop: it returned, or raised something that
    is not a database error to retry. *)
Let ends_loop (a : Z) (r : result (list row * Z)) : Prop :=
  match r with
  | Raise (PostgresError code _) =>
      is_retryable code = false \/ max_retries self <= a
  | _ => True
  end.

Lemma loop_step_terminal (a : Z) (rest : list Z) (delay : float)
    (last : option exn) (w : World) :
  ends_loop a (fst (run (acquired w))) ->
  loop (a :: rest) delay last w
  = (terminal_result sql (a + 1) (fst (run (acquired w))),
     {| acquired := S (acquired w);
        trace := trace w ++ effects (acquired w) |}).
Proof.
  intros Hend. unfold loop. simpl. unfold try_catch.
  rewrite _execute_once_attempt. fold run. fold (effects (acquired w)).
  destruct (fst (run (acquired w))) as [ x | e ]; [ reflexivity | ].
  destruct e as [ m c | m c | code text | text | name text ];
    try reflexivity.
  simpl in Hend. simpl.
  replace (is_retryable code && (a <? max_retries self)) with false;
    [ reflexivity | ].
  destruct Hend as [H | H]; [ now rewrite H | ].
  apply Z.ltb_ge in H. rewrite H. now rewrite andb_false_r.
Qed.

(** The loop over the attempts [a, a + 1, ..., max_retries]: some number
    [r] of transient failures, each followed by a sleep, then one attempt
    that ends the loop and decides the outcome. *)
Lemma loop_shape (n : nat) :
  forall (a : nat) (delay : float) (last : option exn) (w : World),
    (1 <= n)%nat ->
    Z.of_nat (a + n) = max_retries self + 1 ->
    exists r,
      (r < n)%nat
      /\ loop (map Z.of_nat (seq a n)) delay last w
         = (terminal_result sql (Z.of_nat (a + r) + 1)
              (fst (run (acquired w + r))),
            {| acquired := (acquired w + S r)%nat;
               trace := trace w
                 ++ call_trace effects (backoff_factor self) (acquired w)
                      delay r |})
      /\ (forall i, (i < r)%nat ->
            transient_attempt float_str self db sql timeout max_rows
              (acquired w + i))
      /\ ends_loop (Z.of_nat (a + r)) (fst (run (acquired w + r))).
Proof.
  induction n as [ | n IH ]; intros a delay last w Hn Ha; [ lia | ].
  simpl seq. simpl map.
  assert (Hcases :
    ends_loop (Z.of_nat a) (fst (run (acquired w)))
    \/ exists code text,
         fst (run (acquired w)) = Raise (PostgresError code text)
         /\ is_retryable code = true /\ Z.of_nat a < max_retries self).
  { destruct (fst (run (acquired w))) as [ x | e ]; [ left; exact I | ].
    destruct e as [ m c | m c | code text | text | name text ];
      try (left; exact I).
    destruct (is_retryable code) eqn:Hc; [ | left; now left ].
    destruct (Z.of_nat a <? max_retries self) eqn:Hlt.
    - right. exists code, text. apply Z.ltb_lt in Hlt. auto.
    - left. right. now apply Z.ltb_ge. }
  destruct Hcases as [Hend | (code & text & Hrun & Hc & Hlt)].
  - exists O. rewrite !Nat.add_0_r. split; [ lia | ].
    split; [ | split; [ intros i Hi; lia | exact Hend ] ].
    rewrite (loop_step_terminal _ _ _ _ _ Hend).
    f_equal. f_equal. lia.
  - unfold loop.
    rewrite (loop_step_retry float_str self db sql timeout max_rows
               (Z.of_nat a) _ delay last w code text Hrun Hc Hlt).
    fold loop. fold run. fold (effects (acquired w)).
    destruct (IH (S a) (delay * backoff_factor self)%float
                (Some (PostgresError code text))
                {| acquired := S (acquired w);
                   trace := (trace w ++ effects (acquired w))
                            ++ [EvSleep delay] |})
      as (r & Hr & Hloop & Htr & Hend); [ lia | lia | ].
    exists (S r). simpl acquired in *. simpl trace in *.
    split; [ lia | ]. split; [ | split ].
    + rewrite Hloop. f_equal.
      * do 3 f_equal; lia.
      * f_equal; [ lia | ]. simpl. rewrite <- !app_assoc. reflexivity.
    + intros i Hi. destruct i as [ | i ].
      * rewrite Nat.add_0_r.
        destruct (is_retryable_inv code Hc) as (c & -> & Hin).
        exists c, text. auto.
      * replace (acquired w + S i)%nat with (S (acquired w) + i)%nat by lia.
        apply Htr. lia.
    + replace (a + S r)%nat with (S a + r)%nat by lia.
      replace (acquired w + S r)%nat with (S (acquired w) + r)%nat by lia.
      exact Hend.
Qed.

End Shape.

(** A call with [max_retries >= 0]: [r <= max_retries] transient failures,
    then the attempt that decides the outcome. *)
Lemma execute_shape (float_str : float -> string) (self : SQLExecutor)
    (db : Database) (sql : string) (timeout : option float) (max_rows' : option Z)
    (w : World) :
  0 <= max_retries self ->
  exists r,
    Z.of_nat r <= max_retries self
    /\ execute float_str self db sql timeout max_rows' w
       = (terminal_result sql (Z.of_nat r + 1)
            (fst (attempt float_str self db sql
                    (Py.or_float timeout (max_execution_time (security_config self)))
                    (Py.or_int max_rows' (max_rows (security_config self)))
                    (acquired w + r))),
          {| acquired := (acquired w + S r)%nat;
             trace := trace w
               ++ call_trace
                    (fun n =>
                       trace (snd (attempt float_str self db sql
                         (Py.or_float timeout (max_execution_time (security_config self)))
                         (Py.or_int max_rows' (max_rows (security_config self)))
                         n)))
                    (backoff_factor self) (acquired w) (retry_delay self) r |})
    /\ (forall i, (i < r)%nat ->
          transient_attempt float_str self db sql
            (Py.or_float timeout (max_execution_time (security_config self)))
            (Py.or_int max_rows' (max_rows (security_config self)))
            (acquired w + i)).
Proof.
  intros Hm. unfold execute, Py.range.
  destruct (loop_shape float_str self db sql
              (Py.or_float timeout (max_execution_time (security_config self)))
              (Py.or_int max_rows' (max_rows (security_config self)))
              (Z.to_nat (max_retries self + 1)) O (retry_delay self) None w)
    as (r & Hr & Hloop & Htr & _); [ lia | lia | ].
  exists r. split; [ lia | ]. split; [ exact Hloop | exact Htr ].
Qed.

(** ** The paths of one attempt *)

(** Session hardening either succeeds, having issued all its commands
    under a configuration that passes both checks, or raises something
    that is not a [PostgresError], having issued some first commands: at
    least one when [int] accepted the timeout. *)
Lemma _set_session_params_cases (self : SQLExecutor) (db : Database)
    (conn : nat) (timeout : float) (w : World) :
  (_set_session_params self db conn timeout w
   = (Ok tt,
      {| acquired := acquired w;
         trace := trace w
           ++ map (EvExecute conn)
                (session_commands (security_config self) timeout) |})
   /\ well_configured (security_config self)
   /\ forall s, In s (session_commands (security_config self) timeout) ->
                execute_error (db conn) s = None)
  \/ exists e issued rest,
       _set_session_params self db conn timeout w
       = (Raise e,
          {| acquired := acquired w;
             trace := trace w ++ map (EvExecute conn) issued |})
       /\ is_postgres_error e = false
       /\ (forall ms, Py.int_of_float (timeout * 1000) = Py.Int ms ->
                      issued <> [])
       /\ session_commands (security_config self) timeout = issued ++ rest.
Proof.
  unfold session_commands, well_configured. run_session.
  destruct (Py.int_of_float (timeout * 1000)) as [ ms | | ]; simpl.
  2, 3: right; eexists _, [], []; simpl; rewrite app_nil_r;
    (split; [ destruct w; reflexivity | ]); (split; [ reflexivity | ]);
    (split; [ discriminate | reflexivity ]).
  destruct (execute_error (db conn) (set_statement_timeout ms))
    as [ e1 | ] eqn:H1.
  { right. destruct e1; simpl; eexists _, [_], _;
      (split; [ reflexivity | ]); (split; [ reflexivity | ]);
      (split; [ discriminate | reflexivity ]). }
  destruct (Py.all search_path_char (safe_search_path (security_config self)))
    eqn:Hpath; simpl.
  2: { right. eexists _, [_], _. split; [ reflexivity | ].
       split; [ reflexivity | ]. split; [ discriminate | reflexivity ]. }
  destruct (execute_error (db conn)
              (set_search_path (safe_search_path (security_config self))))
    as [ e2 | ] eqn:H2.
  { right. destruct e2; simpl; eexists _, [_; _], _;
      (split; [ now rewrite <- app_assoc | ]); (split; [ reflexivity | ]);
      (split; [ discriminate | reflexivity ]). }
  destruct (configured_role (security_config self)) as [ r | ]; simpl.
  2: { left. split; [ now rewrite <- app_assoc | ]. split; [ auto | ].
       intros s [ <- | [ <- | [] ] ]; assumption. }
  destruct (Py.all role_char r) eqn:Hrole; simpl.
  2: { right. eexists _, [_; _], [_]. split; [ now rewrite <- app_assoc | ].
       split; [ reflexivity | ]. split; [ discriminate | reflexivity ]. }
  unfold bind. simpl.
  destruct (execute_error (db conn) (set_role r)) as [ e3 | ] eqn:H3.
  { right. destruct e3; simpl; eexists _, [_; _; _], [];
      (split; [ now rewrite <- !app_assoc | ]); (split; [ reflexivity | ]);
      (split; [ discriminate | reflexivity ]). }
  left. split; [ now rewrite <- !app_assoc | ]. split; [ auto | ].
  intros s [ <- | [ <- | [ <- | [] ] ] ]; assumption.
Qed.

(** One attempt, unfolded down to session hardening and the query. *)
Lemma attempt_unfold (float_str : float -> string) (self : SQLExecutor)
    (db : Database) (sql : string) (timeout : float) (max_rows' : Z) (n : nat) :
  attempt float_str self db sql timeout max_rows' n
  = match acquire_error (db n) with
    | Some e => (Raise e, {| acquired := S n; trace := [EvAcquire n] |})
    | None =>
        match begin_error (db n) with
        | Some e =>
            (Raise e,
             {| acquired := S n;
                trace := [EvAcquire n; EvBegin n; EvRelease n] |})
        | None =>
            let '(r, w1) :=
              _set_session_params self db n timeout
                {| acquired := S n; trace := [EvAcquire n; EvBegin n] |} in
            match r with
            | Raise e =>
                (Raise e,
                 {| acquired := S n;
                    trace := trace w1 ++ [EvRollback n; EvRelease n] |})
            | Ok _ =>
                (fetch_result float_str sql timeout max_rows'
                   (fetch (db n) sql timeout),
                 {| acquired := S n;
                    trace := trace w1
                      ++ [EvFetch n sql timeout;
                          transaction_end n
                            (fetch_result float_str sql timeout max_rows'
                               (fetch (db n) sql timeout));
                          EvRelease n] |})
            end
        end
    end.
Proof.
  unfold attempt, _execute_once, with_readonly_transaction, bind at 1,
    pool_acquire. simpl acquired. simpl trace.
  destruct (acquire_error (db n)) as [ e | ]; [ reflexivity | ].
  unfold bind at 1, emit at 1. unfold bind at 1, may_raise at 1.
  simpl acquired. simpl trace.
  destruct (begin_error (db n)) as [ e | ]; [ reflexivity | ].
  unfold ret at 1. unfold bind at 1. cbn [app trace acquired].
  pose proof (quiet__set_session_params self db n timeout
                {| acquired := S n; trace := [EvAcquire n; EvBegin n] |})
    as (Hacq & _).
  destruct (_set_session_params self db n timeout
              {| acquired := S n; trace := [EvAcquire n; EvBegin n] |})
    as [ [ [] | e ] w1 ]; simpl in Hacq |- *.
  - unfold bind, try_catch, conn_fetch, bind, emit. simpl.
    destruct (fetch (db n) sql timeout) as [ records | e ]; simpl.
    + unfold limit_rows. simpl. rewrite Hacq. now rewrite <- !app_assoc.
    + destruct e; simpl; rewrite Hacq; now rewrite <- !app_assoc.
  - rewrite Hacq. now rewrite <- !app_assoc.
Qed.

(** One attempt, path by path. *)
Lemma attempt_paths (float_str : float -> string) (self : SQLExecutor)
    (db : Database) (sql : string) (timeout : float) (max_rows' : Z) (n : nat) :
  (exists e,
     acquire_error (db n) = Some e
     /\ attempt float_str self db sql timeout max_rows' n
        = (Raise e, {| acquired := S n; trace := [EvAcquire n] |}))
  \/ (exists e,
        acquire_error (db n) = None /\ begin_error (db n) = Some e
        /\ attempt float_str self db sql timeout max_rows' n
           = (Raise e,
              {| acquired := S n;
                 trace := [EvAcquire n; EvBegin n; EvRelease n] |}))
  \/ (exists e issued rest,
        acquire_error (db n) = None /\ begin_error (db n) = None
        /\ is_postgres_error e = false
        /\ (forall ms, Py.int_of_float (timeout * 1000) = Py.Int ms ->
                       issued <> [])
        /\ session_commands (security_config self) timeout = issued ++ rest
        /\ attempt float_str self db sql timeout max_rows' n
           = (Raise e,
              {| acquired := S n;
                 trace := [EvAcquire n; EvBegin n]
                   ++ map (EvExecute n) issued
                   ++ [EvRollback n; EvRelease n] |}))
  \/ (acquire_error (db n) = None /\ begin_error (db n) = None
      /\ well_configured (security_config self)
      /\ (forall s, In s (session_commands (security_config self) timeout) ->
                    execute_error (db n) s = None)
      /\ attempt float_str self db sql timeout max_rows' n
         = (fetch_result float_str sql timeout max_rows'
              (fetch (db n) sql timeout),
            {| acquired := S n;
               trace := [EvAcquire n; EvBegin n]
                 ++ map (EvExecute n)
                      (session_commands (security_config self) timeout)
                 ++ [EvFetch n sql timeout;
                     transaction_end n
                       (fetch_result float_str sql timeout max_rows'
                          (fetch (db n) sql timeout));
                     EvRelease n] |})).
Proof.
  rewrite attempt_unfold.
  destruct (acquire_error (db n)) as [ e | ] eqn:Hacq.
  { left. exists e. split; reflexivity. }
  right.
  destruct (begin_error (db n)) as [ e | ] eqn:Hbeg.
  { left. exists e. split; [ reflexivity | ]. split; reflexivity. }
  right.
  destruct (_set_session_params_cases self db n timeout
              {| acquired := S n; trace := [EvAcquire n; EvBegin n] |})
    as [ (Hrun & Hcfg & Hok) | (e & issued & rest & Hrun & He & Hne & Hcmds) ];
    rewrite Hrun.
  - right. split; [ reflexivity | ]. split; [ reflexivity | ].
    split; [ exact Hcfg | ]. split; [ exact Hok | ].
    simpl. rewrite <- ?app_assoc. reflexivity.
  - left. exists e, issued, rest. simpl.
    repeat (split; [ assumption || reflexivity | ]).
    rewrite <- ?app_assoc. reflexivity.
Qed.

(** A [PostgresError] that leaves an attempt was raised by [pool.acquire],
    by the opening of the transaction or by the query: session hardening
    lets none out. *)
Lemma attempt_postgres_error_origin (float_str : float -> string)
    (self : SQLExecutor) (db : Database) (sql : string) (timeout : float)
    (max_rows' : Z) (n : nat) (code : option string) (text : string) :
  fst (attempt float_str self db sql timeout max_rows' n)
  = Raise (PostgresError code text) ->
  acquire_error (db n) = Some (PostgresError code text)
  \/ (acquire_error (db n) = None
      /\ begin_error (db n) = Some (PostgresError code text))
  \/ (acquire_error (db n) = None /\ begin_error (db n) = None
      /\ fetch (db n) sql timeout = FetchRaises (PostgresError code text)).
Proof.
  destruct (attempt_paths float_str self db sql timeout max_rows' n)
    as [ (e & Hacq & Hrun)
       | [ (e & Hacq & Hbeg & Hrun)
         | [ (e & issued & rest & _ & _ & He & _ & _ & Hrun)
           | (Hacq & Hbeg & _ & _ & Hrun) ] ] ];
    rewrite Hrun; cbn [fst]; intros H.
  - left. congruence.
  - right. left. split; [ exact Hacq | congruence ].
  - injection H as ->. discriminate He.
  - right. right. split; [ exact Hacq | ]. split; [ exact Hbeg | ].
    destruct (fetch (db n) sql timeout) as [ records | e ];
      [ discriminate H | ].
    destruct e; simpl in H; congruence.
Qed.

(** ** What a call does, whatever the database does *)

Lemma call_trace_attempts (effects : nat -> list event) (factor : float)
    (r : nat) :
  (forall n, attempts_of (effects n) = 1%nat) ->
  forall n delay, attempts_of (call_trace effects factor n delay r) = S r.
Proof.
  intros H. induction r as [ | r IH ]; intros n delay; simpl.
  - apply H.
  - rewrite attempts_of_app, H. simpl. now rewrite IH.
Qed.

Lemma call_trace_sleeps (effects : nat -> list event) (factor : float)
    (r : nat) :
  (forall n, sleeps_of (effects n) = []) ->
  forall n delay,
    sleeps_of (call_trace effects factor n delay r)
    = backoff_delays delay factor r.
Proof.
  intros H. induction r as [ | r IH ]; intros n delay; simpl.
  - apply H.
  - rewrite sleeps_of_app, H. simpl. now rewrite IH.
Qed.

Lemma call_trace_events (effects : nat -> list event) (factor : float)
    (P : nat -> event -> Prop) (r : nat) :
  (forall n, Forall (P n) (effects n)) ->
  forall n delay,
    Forall (fun ev =>
              (exists d, ev = EvSleep d)
              \/ exists i, (i <= r)%nat /\ P (n + i)%nat ev)
      (call_trace effects factor n delay r).
Proof.
  intros H. induction r as [ | r IH ]; intros n delay; simpl.
  - eapply Forall_impl; [ | apply H ].
    intros ev Hev. right. exists O. rewrite Nat.add_0_r. auto.
  - apply Forall_app. split.
    + eapply Forall_impl; [ | apply H ].
      intros ev Hev. right. exists O. rewrite Nat.add_0_r. split; [ lia | auto ].
    + constructor; [ left; eauto | ].
      eapply Forall_impl; [ | apply IH ].
      intros ev [ Hs | (i & Hi & Hev) ]; [ now left | right ].
      exists (S i). split; [ lia | ].
      now replace (n + S i)%nat with (S n + i)%nat by lia.
Qed.

Lemma execute_no_attempt (float_str : float -> string) (self : SQLExecutor)
    (db : Database) (sql : string) (timeout : option float) (max_rows' : option Z)
    (w : World) :
  max_retries self < 0 ->
  execute float_str self db sql timeout max_rows' w
  = (Raise (DatabaseError "Query execution failed unexpectedly" []), w).
Proof.
  intros Hm. unfold execute, Py.range.
  replace (Z.to_nat (max_retries self + 1)) with O by lia. reflexivity.
Qed.

(** X1. For [max_retries >= 0] a call is a run of attempts on consecutive
    connections of the pool, each but the last a transient database error
    followed by one backoff sleep; there are at most [max_retries] such
    retries, and the last attempt alone decides the outcome of the call,
    through the handlers of [execute]. *)
Theorem execute_attempts_then_outcome (float_str : float -> string)
    (self : SQLExecutor) (db : Database) (sql : string) (timeout : option float)
    (max_rows' : option Z) (w : World) :
  0 <= max_retries self ->
  exists r,
    Z.of_nat r <= max_retries self
    /\ execute float_str self db sql timeout max_rows' w
       = (terminal_result sql (Z.of_nat r + 1)
            (fst (attempt float_str self db sql
                    (Py.or_float timeout (max_execution_time (security_config self)))
                    (Py.or_int max_rows' (max_rows (security_config self)))
                    (acquired w + r))),
          {| acquired := (acquired w + S r)%nat;
             trace := trace w
               ++ call_trace
                    (fun n =>
                       trace (snd (attempt float_str self db sql
                         (Py.or_float timeout (max_execution_time (security_config self)))
                         (Py.or_int max_rows' (max_rows (security_config self)))
                         n)))
                    (backoff_factor self) (acquired w) (retry_delay self) r |})
    /\ (forall i, (i < r)%nat ->
          transient_attempt float_str self db sql
            (Py.or_float timeout (max_execution_time (security_config self)))
            (Py.or_int max_rows' (max_rows (security_config self)))
            (acquired w + i)).
Proof. apply execute_shape. Qed.

Lemma execute_attempts_then_outcome_witness :
  exists r,
    Z.of_nat r <= 3
    /\ execute print_thirty example_executor recovering_database
         "SELECT id FROM t" None None fresh
       = (terminal_result "SELECT id FROM t" (Z.of_nat r + 1)
            (fst (attempt print_thirty example_executor recovering_database
                    "SELECT id FROM t" 30 2 r)),
          {| acquired := S r;
             trace := call_trace
                        (fun n =>
                           trace (snd (attempt print_thirty example_executor
                                         recovering_database
                                         "SELECT id FROM t" 30 2 n)))
                        2 0 1 r |})
    /\ (forall i, (i < r)%nat ->
          transient_attempt print_thirty example_executor recovering_database
            "SELECT id FROM t" 30 2 i).
Proof.
  apply (execute_attempts_then_outcome print_thirty example_executor
           recovering_database "SELECT id FROM t" None None fresh).
  simpl. lia.
Defined.

(** X2. Whatever the database does, a call with [max_retries >= 0] makes
    at least one attempt and at most [max_retries + 1], each on a
    connection of its own, and sleeps exactly once between two attempts:
    one sleep less than attempts. *)
Theorem execute_attempt_bounds (float_str : float -> string)
    (self : SQLExecutor) (db : Database) (sql : string) (timeout : option float)
    (max_rows' : option Z) (w : World) :
  0 <= max_retries self ->
  exists evs,
    snd (execute float_str self db sql timeout max_rows' w)
    = {| acquired := (acquired w + attempts_of evs)%nat;
         trace := trace w ++ evs |}
    /\ (1 <= attempts_of evs)%nat
    /\ Z.of_nat (attempts_of evs) <= max_retries self + 1
    /\ S (List.length (sleeps_of evs)) = attempts_of evs.
Proof.
  intros Hm.
  destruct (execute_shape float_str self db sql timeout max_rows' w Hm)
    as (r & Hr & Hex & _).
  rewrite Hex. simpl snd. eexists. split; [ | split; [ | split ] ].
  - rewrite call_trace_attempts; [ reflexivity | ].
    intros n. apply attempt_effects.
  - rewrite call_trace_attempts; [ lia | intros n; apply attempt_effects ].
  - rewrite call_trace_attempts; [ lia | intros n; apply attempt_effects ].
  - rewrite call_trace_attempts, call_trace_sleeps, backoff_delays_length;
      [ reflexivity | | ]; intros n; apply attempt_effects.
Qed.

Lemma execute_attempt_bounds_witness :
  exists evs,
    snd (execute print_thirty example_executor recovering_database
           "SELECT id FROM t" None None fresh)
    = {| acquired := attempts_of evs; trace := evs |}
    /\ (1 <= attempts_of evs)%nat
    /\ Z.of_nat (attempts_of evs) <= 4
    /\ S (List.length (sleeps_of evs)) = attempts_of evs.
Proof.
  apply (execute_attempt_bounds print_thirty example_executor
           recovering_database "SELECT id FROM t" None None fresh).
  simpl. lia.
Defined.

(** X3. [execute] raises only the two errors its docstring lists: whatever
    the pool, the connection or the query raise, the call returns rows or
    raises [ExecutionTimeoutError] or [DatabaseError]. *)
Theorem execute_raises_documented_errors (float_str : float -> string)
    (self : SQLExecutor) (db : Database) (sql : string) (timeout : option float)
    (max_rows' : option Z) (w : World) :
  match fst (execute float_str self db sql timeout max_rows' w) with
  | Ok _ => True
  | Raise e => documented_error e = true
  end.
Proof.
  destruct (Z_lt_le_dec (max_retries self) 0) as [ Hm | Hm ].
  - now rewrite execute_no_attempt.
  - destruct (execute_shape float_str self db sql timeout max_rows' w Hm)
      as (r & _ & Hex & _).
    rewrite Hex. simpl fst.
    match goal with |- context [terminal_result _ _ ?x] => destruct x as [ v | e ] end;
      [ exact I | ].
    destruct e; reflexivity.
Qed.

(** X4. With a negative [max_retries] the loop of [execute] has no
    iteration: the call asks no connection of the pool, runs nothing and
    raises [DatabaseError("Query execution failed unexpectedly")]. *)
Theorem execute_without_attempts (float_str : float -> string)
    (self : SQLExecutor) (db : Database) (sql : string) (timeout : option float)
    (max_rows' : option Z) (w : World) :
  max_retries self < 0 ->
  execute float_str self db sql timeout max_rows' w
  = (Raise (DatabaseError "Query execution failed unexpectedly" []), w).
Proof. apply execute_no_attempt. Qed.

Lemma execute_without_attempts_witness :
  execute print_thirty no_attempt_executor (fun _ => serving three_records)
    "SELECT id FROM t" None None fresh
  = (Raise (DatabaseError "Query execution failed unexpectedly" []), fresh).
Proof.
  apply (execute_without_attempts print_thirty no_attempt_executor
           (fun _ => serving three_records) "SELECT id FROM t" None None fresh).
  simpl. lia.
Defined.

(** X5. A call recovers from transient failures: when [k <= max_retries]
    attempts fail with a retryable database error and the next one
    returns, [execute] returns that result, after [k + 1] attempts and the
    [k] backoff sleeps between them. *)
Theorem execute_recovers_after_transient_failures (float_str : float -> string)
    (self : SQLExecutor) (db : Database) (sql : string) (timeout : option float)
    (max_rows' : option Z) (w : World) (k : nat) (x : list row * Z) :
  Z.of_nat k <= max_retries self ->
  (forall i, (i < k)%nat ->
     transient_attempt float_str self db sql
       (Py.or_float timeout (max_execution_time (security_config self)))
       (Py.or_int max_rows' (max_rows (security_config self)))
       (acquired w + i)) ->
  fst (attempt float_str self db sql
         (Py.or_float timeout (max_execution_time (security_config self)))
         (Py.or_int max_rows' (max_rows (security_config self)))
         (acquired w + k))
  = Ok x ->
  exists evs,
    execute float_str self db sql timeout max_rows' w
    = (Ok x, {| acquired := (acquired w + S k)%nat; trace := trace w ++ evs |})
    /\ attempts_of evs = S k
    /\ sleeps_of evs
       = backoff_delays (retry_delay self) (backoff_factor self) k.
Proof.
  intros Hk Htr Hrun.
  apply execute_terminal; [ exact Hk | exact Htr | ].
  intros rest delay last w0 Hw0.
  apply loop_step_ok. now rewrite Hw0.
Qed.

Lemma execute_recovers_after_transient_failures_witness :
  exists evs,
    execute print_thirty example_executor recovering_database
      "SELECT id FROM t" None None fresh
    = (Ok ([ [("id", VInt 1)]; [("id", VInt 2)] ], 3),
       {| acquired := 3; trace := evs |})
    /\ attempts_of evs = 3%nat
    /\ sleeps_of evs = [1; 2]%float.
Proof.
  apply (execute_recovers_after_transient_failures print_thirty
           example_executor recovering_database "SELECT id FROM t" None None
           fresh 2).
  - simpl. lia.
  - intros i Hi. exists "40P01", "deadlock detected".
    destruct i as [ | [ | i ] ]; [ | | lia ];
      (split; [ reflexivity | simpl; tauto ]).
  - reflexivity.
Defined.

(** X6. An error that is neither a timeout of the query nor a database
    error (a failure to reach the pool, an error of session hardening, any
    other exception) is never retried: [execute] wraps it at once in a
    [DatabaseError] that names its type and its message. *)
Theorem execute_unexpected_error_not_retried (float_str : float -> string)
    (self : SQLExecutor) (db : Database) (sql : string) (timeout : option float)
    (max_rows' : option Z) (w : World) (k : nat) (e : exn) :
  Z.of_nat k <= max_retries self ->
  (forall i, (i < k)%nat ->
     transient_attempt float_str self db sql
       (Py.or_float timeout (max_execution_time (security_config self)))
       (Py.or_int max_rows' (max_rows (security_config self)))
       (acquired w + i)) ->
  fst (attempt float_str self db sql
         (Py.or_float timeout (max_execution_time (security_config self)))
         (Py.or_int max_rows' (max_rows (security_config self)))
         (acquired w + k))
  = Raise e ->
  is_postgres_error e = false ->
  (forall m c, e <> ExecutionTimeoutError m c) ->
  exists evs,
    execute float_str self db sql timeout max_rows' w
    = (Raise (DatabaseError
                ("Unexpected error during query execution: " ++ exn_str e)%string
                [("error_type", DStr (exn_type_name e));
                 ("error_message", DStr (exn_str e))]),
       {| acquired := (acquired w + S k)%nat; trace := trace w ++ evs |})
    /\ attempts_of evs = S k
    /\ sleeps_of evs
       = backoff_delays (retry_delay self) (backoff_factor self) k.
Proof.
  intros Hk Htr Hrun Hpg Hto.
  apply execute_terminal; [ exact Hk | exact Htr | ].
  intros rest delay last w0 Hw0.
  rewrite loop_step_terminal; rewrite Hw0, Hrun.
  - destruct e; try reflexivity; [ now elim (Hto message context) | discriminate Hpg ].
  - destruct e; try exact I. discriminate Hpg.
Qed.

Lemma execute_unexpected_error_not_retried_witness :
  exists evs,
    execute print_thirty example_executor
      (fun _ => unreachable (PyException "OSError" "connection refused"))
      "SELECT 1" None None fresh
    = (Raise (DatabaseError
                "Unexpected error during query execution: connection refused"
                [("error_type", DStr "OSError");
                 ("error_message", DStr "connection refused")]),
       {| acquired := 1; trace := evs |})
    /\ attempts_of evs = 1%nat
    /\ sleeps_of evs = [].
Proof.
  apply (execute_unexpected_error_not_retried print_thirty example_executor
           (fun _ => unreachable (PyException "OSError" "connection refused"))
           "SELECT 1" None None fresh 0
           (PyException "OSError" "connection refused")).
  - simpl. lia.
  - intros i Hi. lia.
  - reflexivity.
  - reflexivity.
  - intros m c. discriminate.
Defined.

(** ** Session hardening and the query *)

Lemma statements_of_executes (conn : nat) (l : list string) :
  statements_of (map (EvExecute conn) l) = map (pair conn) l.
Proof. induction l as [ | s l IH ]; simpl; [ reflexivity | now rewrite IH ]. Qed.

(** X7. Session hardening returns only when the configuration passed both
    character checks and every session command was accepted; when it
    raises, what it raises is never a [PostgresError]: database errors of
    the session commands leave it wrapped, so [execute] does not see them
    as database errors. *)
Theorem _set_session_params_outcome (self : SQLExecutor) (db : Database)
    (conn : nat) (timeout : float) (w : World) :
  match fst (_set_session_params self db conn timeout w) with
  | Ok _ =>
      well_configured (security_config self)
      /\ (forall s, In s (session_commands (security_config self) timeout) ->
                    execute_error (db conn) s = None)
      /\ statements_of (trace (snd (_set_session_params self db conn timeout w)))
         = statements_of (trace w)
           ++ map (pair conn) (session_commands (security_config self) timeout)
  | Raise e => is_postgres_error e = false
  end.
Proof.
  destruct (_set_session_params_cases self db conn timeout w)
    as [ (Hrun & Hcfg & Hok) | (e & issued & rest & Hrun & He & _) ];
    rewrite Hrun; cbn [fst snd trace]; [ | exact He ].
  split; [ exact Hcfg | ]. split; [ exact Hok | ].
  now rewrite statements_of_app, statements_of_executes.
Qed.

(** X8. On a connection that is handed out and accepts the session
    commands, under a configuration that passes the checks and with a
    timeout that [int(timeout * 1000)] accepts, an attempt
    gives what the query gives: its rows, limited and serialized; an
    [ExecutionTimeoutError] with the timeout and the first 200 characters
    of the query when [wait_for] times out; any other exception of the
    query unchanged.  The transaction is committed in the first case and
    rolled back in the others, and the connection is released last. *)
Theorem _execute_once_fetch_outcome (float_str : float -> string)
    (self : SQLExecutor) (db : Database) (sql : string) (timeout : float)
    (ms : Z) (max_rows' : Z) (w : World) :
  Py.int_of_float (timeout * 1000) = Py.Int ms ->
  accepts (db (acquired w)) ->
  well_configured (security_config self) ->
  _execute_once float_str self db sql timeout max_rows' w
  = (fetch_result float_str sql timeout max_rows'
       (fetch (db (acquired w)) sql timeout),
     {| acquired := S (acquired w);
        trace := trace w
          ++ [EvAcquire (acquired w); EvBegin (acquired w)]
          ++ map (EvExecute (acquired w))
               (session_commands (security_config self) timeout)
          ++ [EvFetch (acquired w) sql timeout;
              transaction_end (acquired w)
                (fetch_result float_str sql timeout max_rows'
                   (fetch (db (acquired w)) sql timeout));
              EvRelease (acquired w)] |}).
Proof.
  intros Hms (Hacq & Hbeg & Hok) Hcfg.
  rewrite _execute_once_attempt, attempt_unfold, Hacq, Hbeg.
  rewrite (_set_session_params_ok self db (acquired w) timeout ms _ Hms Hok
             Hcfg).
  simpl. rewrite <- ?app_assoc. reflexivity.
Qed.

Lemma _execute_once_fetch_outcome_witness :
  _execute_once print_thirty example_executor
    (fun _ => failing (TimeoutError "")) "SELECT pg_sleep(60)" 30 2 fresh
  = (Raise (ExecutionTimeoutError
              "Query execution exceeded timeout of 30.0 seconds"
              [("timeout_seconds", DFloat 30);
               ("sql", DStr "SELECT pg_sleep(60)")]),
     {| acquired := 1;
        trace := [ EvAcquire 0; EvBegin 0;
                   EvExecute 0 "SET statement_timeout = 30000";
                   EvExecute 0 "SET search_path = 'public'";
                   EvExecute 0 "SET ROLE readonly_user";
                   EvFetch 0 "SELECT pg_sleep(60)" 30;
                   EvRollback 0; EvRelease 0 ] |}).
Proof.
  apply (_execute_once_fetch_outcome print_thirty example_executor
           (fun _ => failing (TimeoutError "")) "SELECT pg_sleep(60)" 30%float
           30000 2 fresh).
  - reflexivity.
  - repeat split.
  - repeat split.
Defined.

Lemma no_fetch_among_statements (conn : nat) (l : list string) :
  existsb is_fetch (map (EvExecute conn) l) = false.
Proof. induction l as [ | s l IH ]; simpl; [ reflexivity | exact IH ]. Qed.

(** X9. The query never runs on a session that is not hardened: if an
    attempt reaches [conn.fetch], the configuration passed both checks and
    all the session commands were issued and accepted before it, on the
    same connection, inside the transaction. *)
Theorem query_runs_only_after_hardening (float_str : float -> string)
    (self : SQLExecutor) (db : Database) (sql : string) (timeout : float)
    (max_rows' : Z) (n : nat) :
  existsb is_fetch
    (trace (snd (attempt float_str self db sql timeout max_rows' n))) = true ->
  well_configured (security_config self)
  /\ (forall s, In s (session_commands (security_config self) timeout) ->
                execute_error (db n) s = None)
  /\ exists ending,
       trace (snd (attempt float_str self db sql timeout max_rows' n))
       = [EvAcquire n; EvBegin n]
         ++ map (EvExecute n) (session_commands (security_config self) timeout)
         ++ [EvFetch n sql timeout; ending; EvRelease n].
Proof.
  intros Hfetch.
  destruct (attempt_paths float_str self db sql timeout max_rows' n)
    as [ (e & _ & Hrun)
       | [ (e & _ & _ & Hrun)
         | [ (e & issued & rest & _ & _ & _ & _ & _ & Hrun)
           | (_ & _ & Hcfg & Hok & Hrun) ] ] ];
    rewrite Hrun in Hfetch |- *; simpl in Hfetch.
  - discriminate Hfetch.
  - discriminate Hfetch.
  - rewrite existsb_app, no_fetch_among_statements in Hfetch.
    discriminate Hfetch.
  - split; [ exact Hcfg | ]. split; [ exact Hok | ]. eexists. reflexivity.
Qed.

Lemma query_runs_only_after_hardening_witness :
  well_configured (security_config example_executor)
  /\ (forall s, In s (session_commands (security_config example_executor) 30) ->
                execute_error (serving three_records) s = None)
  /\ exists ending,
       trace (snd (attempt print_thirty example_executor
                     (fun _ => serving three_records) "SELECT id FROM t" 30 2 0))
       = [EvAcquire 0; EvBegin 0]
         ++ map (EvExecute 0)
              (session_commands (security_config example_executor) 30)
         ++ [EvFetch 0 "SELECT id FROM t" 30; ending; EvRelease 0].
Proof.
  apply (query_runs_only_after_hardening print_thirty example_executor
           (fun _ => serving three_records) "SELECT id FROM t" 30%float 2
           0%nat).
  reflexivity.
Defined.

Lemma call_trace_no_fetch (effects : nat -> list event) (factor : float)
    (r : nat) :
  (forall n, existsb is_fetch (effects n) = false) ->
  forall n delay, existsb is_fetch (call_trace effects factor n delay r) = false.
Proof.
  intros H. induction r as [ | r IH ]; intros n delay; simpl.
  - apply H.
  - rewrite existsb_app, H. simpl. apply IH.
Qed.

(** An attempt under a configuration that fails a check raises, without
    reaching the query. *)
Lemma attempt_ill_configured (float_str : float -> string) (self : SQLExecutor)
    (db : Database) (sql : string) (timeout : float) (max_rows' : Z) (n : nat) :
  ~ well_configured (security_config self) ->
  existsb is_fetch
    (trace (snd (attempt float_str self db sql timeout max_rows' n))) = false
  /\ exists e,
       fst (attempt float_str self db sql timeout max_rows' n) = Raise e.
Proof.
  intros Hbad.
  destruct (attempt_paths float_str self db sql timeout max_rows' n)
    as [ (e & _ & Hrun)
       | [ (e & _ & _ & Hrun)
         | [ (e & issued & rest & _ & _ & _ & _ & _ & Hrun)
           | (_ & _ & Hcfg & _) ] ] ];
    [ | | | contradiction ]; rewrite Hrun; simpl;
    (split; [ | eauto ]); try reflexivity.
  now rewrite existsb_app, no_fetch_among_statements.
Qed.

(** X10. With a search path or a role that fails its character check,
    [execute] never runs the query and never returns rows, whatever the
    database does and however often it retries. *)
Theorem execute_ill_configured_never_queries (float_str : float -> string)
    (self : SQLExecutor) (db : Database) (sql : string) (timeout : option float)
    (max_rows' : option Z) (w : World) :
  ~ well_configured (security_config self) ->
  exists e evs,
    execute float_str self db sql timeout max_rows' w
    = (Raise e,
       {| acquired := (acquired w + attempts_of evs)%nat;
          trace := trace w ++ evs |})
    /\ existsb is_fetch evs = false.
Proof.
  intros Hbad.
  destruct (Z_lt_le_dec (max_retries self) 0) as [ Hm | Hm ].
  - rewrite execute_no_attempt by exact Hm.
    eexists _, []. simpl. rewrite Nat.add_0_r, app_nil_r.
    destruct w; split; reflexivity.
  - destruct (execute_shape float_str self db sql timeout max_rows' w Hm)
      as (r & _ & Hex & _).
    rewrite Hex.
    match goal with |- context [terminal_result _ _ (fst (attempt ?f ?s ?d ?q ?t ?m ?n))] =>
      destruct (attempt_ill_configured f s d q t m n Hbad) as (_ & e & He);
      rewrite He end.
    assert (Hraise : forall a x, exists e',
              terminal_result sql a (Raise x) = Raise e').
    { intros a x. destruct x; simpl; eauto. }
    destruct (Hraise (Z.of_nat r + 1) e) as (e' & ->).
    exists e'. eexists. split.
    + rewrite call_trace_attempts; [ reflexivity | ].
      intros n. apply attempt_effects.
    + apply call_trace_no_fetch. intros n.
      now apply attempt_ill_configured.
Qed.

Lemma execute_ill_configured_never_queries_witness :
  exists e evs,
    execute print_thirty injected_executor (fun _ => serving three_records)
      "SELECT id FROM t" None None fresh
    = (Raise e, {| acquired := attempts_of evs; trace := evs |})
    /\ existsb is_fetch evs = false.
Proof.
  apply (execute_ill_configured_never_queries print_thirty injected_executor
           (fun _ => serving three_records) "SELECT id FROM t" None None fresh).
  intros (H & _). discriminate H.
Defined.

Lemma attempt_own_events (float_str : float -> string) (self : SQLExecutor)
    (db : Database) (sql : string) (timeout : float) (max_rows' : Z) (n : nat) :
  Forall (own_event (session_commands (security_config self) timeout)
            sql timeout n)
    (trace (snd (attempt float_str self db sql timeout max_rows' n))).
Proof.
  assert (Hexec : forall issued rest,
            session_commands (security_config self) timeout = issued ++ rest ->
            Forall (own_event (session_commands (security_config self) timeout)
                      sql timeout n)
              (map (EvExecute n) issued)).
  { intros issued rest Hcmds. apply Forall_forall. intros ev Hev.
    apply in_map_iff in Hev. destruct Hev as (s & <- & Hs). cbn [own_event].
    split; [ reflexivity | ]. rewrite Hcmds. apply in_or_app. now left. }
  destruct (attempt_paths float_str self db sql timeout max_rows' n)
    as [ (e & _ & Hrun)
       | [ (e & _ & _ & Hrun)
         | [ (e & issued & rest & _ & _ & _ & _ & Hcmds & Hrun)
           | (_ & _ & _ & _ & Hrun) ] ] ];
    rewrite Hrun; cbn [snd trace].
  - repeat constructor.
  - repeat constructor.
  - apply Forall_app. split; [ repeat constructor | ].
    apply Forall_app. split; [ now apply (Hexec issued rest) | ].
    repeat constructor.
  - apply Forall_app. split; [ repeat constructor | ].
    apply Forall_app. split.
    + apply (Hexec _ []). now rewrite app_nil_r.
    + constructor; [ simpl; auto | ].
      constructor; [ | repeat constructor ].
      destruct (fetch_result float_str sql timeout max_rows'
                  (fetch (db n) sql timeout)); reflexivity.
Qed.

(** X11. A call runs nothing but what it was given.  Every effect of
    [execute] is a backoff sleep or belongs to one of its attempts, on the
    connection acquired for that attempt; the only statements executed are
    the session commands of the configuration, and the only query fetched
    is the query of the call, under the timeout of the call. *)
Theorem execute_runs_only_the_given_query (float_str : float -> string)
    (self : SQLExecutor) (db : Database) (sql : string) (timeout : option float)
    (max_rows' : option Z) (w : World) :
  exists evs,
    trace (snd (execute float_str self db sql timeout max_rows' w))
    = trace w ++ evs
    /\ Forall
         (fun ev =>
            (exists d, ev = EvSleep d)
            \/ exists i,
                 (i < attempts_of evs)%nat
                 /\ own_event
                      (session_commands (security_config self)
                         (Py.or_float timeout
                            (max_execution_time (security_config self))))
                      sql
                      (Py.or_float timeout
                         (max_execution_time (security_config self)))
                      (acquired w + i) ev)
         evs.
Proof.
  destruct (Z_lt_le_dec (max_retries self) 0) as [ Hm | Hm ].
  - rewrite execute_no_attempt by exact Hm. exists []. simpl.
    now rewrite app_nil_r.
  - destruct (execute_shape float_str self db sql timeout max_rows' w Hm)
      as (r & _ & Hex & _).
    rewrite Hex. cbn [snd trace]. eexists. split; [ reflexivity | ].
    rewrite call_trace_attempts by (intros n; apply attempt_effects).
    eapply Forall_impl;
      [ | apply (call_trace_events _ _
                   (own_event
                      (session_commands (security_config self)
                         (Py.or_float timeout
                            (max_execution_time (security_config self))))
                      sql
                      (Py.or_float timeout
                         (max_execution_time (security_config self)))));
          intros n; apply attempt_own_events ].
    intros ev [ Hs | (i & Hi & Hev) ]; [ now left | right ].
    exists i. split; [ lia | exact Hev ].
Qed.



(** ** Rows and cells *)

(** X13. Serializing twice changes nothing more: for every value,
    [serialize_value (serialize_value v) = serialize_value v]. *)
Theorem serialize_value_idempotent :
  forall v : pyvalue,
    serialize_value (serialize_value v) = serialize_value v.
Proof.
  fix IH 1. intros v.
  destruct v; try reflexivity.
  - simpl. f_equal. rewrite map_map.
    induction items as [ | x xs IHxs ]; simpl; [ reflexivity | ].
    now rewrite IH, IHxs.
  - simpl. f_equal. rewrite map_map.
    induction items as [ | x xs IHxs ]; simpl; [ reflexivity | ].
    now rewrite IH, IHxs.
  - simpl. f_equal. rewrite map_map.
    induction items as [ | [k x] xs IHxs ]; simpl; [ reflexivity | ].
    now rewrite IH, IHxs.
Qed.

(** X14. The limiter keeps a prefix of the records whose length is given
    by [max_rows]: [min(total, max_rows)] when [max_rows] is not negative;
    all but the last [- max_rows] records (none when there are fewer) when
    it is negative.  The total always counts every record fetched. *)
Theorem limit_rows_count (records : list record) (max_rows' : Z) :
  snd (limit_rows records max_rows') = Py.len records
  /\ Py.len (fst (limit_rows records max_rows'))
     = kept_count (Py.len records) max_rows'
  /\ fst (limit_rows records max_rows')
     = firstn (Z.to_nat (kept_count (Py.len records) max_rows')) records.
Proof.
  split; [ reflexivity | ].
  unfold limit_rows, kept_count, Py.slice_to, Py.len. cbn [fst].
  destruct (Z.of_nat (List.length records) >? max_rows') eqn:Hgt.
  - apply Z.gtb_lt in Hgt.
    destruct (max_rows' <? 0) eqn:Hneg.
    + apply Z.ltb_lt in Hneg.
      replace (0 <=? max_rows') with false by (symmetry; apply Z.leb_gt; lia).
      rewrite length_firstn. split; [ lia | ].
      f_equal. lia.
    + apply Z.ltb_ge in Hneg.
      replace (0 <=? max_rows') with true by (symmetry; apply Z.leb_le; lia).
      rewrite length_firstn. split; [ lia | ].
      f_equal. lia.
  - rewrite Z.gtb_ltb in Hgt. apply Z.ltb_ge in Hgt.
    replace (0 <=? max_rows') with true by (symmetry; apply Z.leb_le; lia).
    split; [ lia | ].
    rewrite Z.min_l by lia. rewrite Nat2Z.id. now rewrite firstn_all.
Qed.

Lemma dict_get_set (d : row) (k k' : string) (v : pyvalue) :
  dict_get (PyLib.dict_set d k v) k'
  = if String.eqb k k' then Some v else dict_get d k'.
Proof.
  induction d as [ | [k0 v0] d IH ]; simpl.
  - reflexivity.
  - destruct (String.eqb k0 k) eqn:E0; simpl.
    + apply String.eqb_eq in E0. subst k0.
      destruct (String.eqb k k'); reflexivity.
    + destruct (String.eqb k0 k') eqn:E1; [ | exact IH ].
      apply String.eqb_eq in E1. subst k'. now rewrite String.eqb_sym, E0.
Qed.

Lemma dict_set_keys (d : row) (k : string) (v : pyvalue) :
  map fst (PyLib.dict_set d k v)
  = if existsb (String.eqb k) (map fst d) then map fst d
    else map fst d ++ [k].
Proof.
  induction d as [ | [k0 v0] d IH ]; simpl; [ reflexivity | ].
  rewrite (String.eqb_sym k k0).
  destruct (String.eqb k0 k); simpl; [ reflexivity | ].
  rewrite IH. destruct (existsb (String.eqb k) (map fst d)); reflexivity.
Qed.

Lemma dict_set_NoDup (d : row) (k : string) (v : pyvalue) :
  NoDup (map fst d) -> NoDup (map fst (PyLib.dict_set d k v)).
Proof.
  intros H. rewrite dict_set_keys.
  destruct (existsb (String.eqb k) (map fst d)) eqn:E; [ exact H | ].
  apply NoDup_app; [ exact H | repeat constructor; intros [] | ].
  intros x Hx [ <- | [] ].
  assert (existsb (String.eqb k) (map fst d) = true); [ | congruence ].
  apply existsb_exists. exists k. split; [ exact Hx | apply String.eqb_refl ].
Qed.

Lemma dict_of_items (r : record) :
  forall d : row,
    NoDup (map fst d) ->
    NoDup (map fst (fold_left (fun d kv => PyLib.dict_set d (fst kv) (snd kv)) r d))
    /\ forall k,
         dict_get (fold_left (fun d kv => PyLib.dict_set d (fst kv) (snd kv)) r d) k
         = match last_value r k with
           | Some v => Some v
           | None => dict_get d k
           end.
Proof.
  induction r as [ | [k0 v0] r IH ]; intros d Hd; simpl.
  - auto.
  - destruct (IH (PyLib.dict_set d k0 v0) (dict_set_NoDup d k0 v0 Hd))
      as (H1 & H2).
    split; [ exact H1 | ].
    intros k. rewrite H2, dict_get_set.
    destruct (last_value r k); [ reflexivity | ].
    destruct (String.eqb k0 k); reflexivity.
Qed.

Lemma dict_get_map (f : pyvalue -> pyvalue) (d : row) (k : string) :
  dict_get (map (fun kv => (fst kv, f (snd kv))) d) k
  = option_map f (dict_get d k).
Proof.
  induction d as [ | [k0 v0] d IH ]; simpl; [ reflexivity | ].
  destruct (String.eqb k0 k); [ reflexivity | exact IH ].
Qed.

(** X15. Each returned row is a dict whose keys are the distinct column
    names of its record: under a name, it holds the serialized value of the
    last column of that name, so a column that shares its name with a
    later one is not returned.  Rows come one per record, in the order of
    the records. *)
Theorem rows_hold_last_column_of_each_name (records : list record) :
  Forall2
    (fun (r : record) (result_row : row) =>
       NoDup (map fst result_row)
       /\ forall k,
            dict_get result_row k
            = option_map serialize_value (last_value r k))
    records
    (_serialize_results (map PyLib.dict_of_record records)).
Proof.
  induction records as [ | r records IH ]; simpl; constructor; [ | exact IH ].
  destruct (dict_of_items r [] (NoDup_nil _)) as (H1 & H2).
  fold (PyLib.dict_of_record r) in H1, H2. split.
  - rewrite map_map. simpl. exact H1.
  - intros k. rewrite dict_get_map, H2.
    destruct (last_value r k); reflexivity.
Qed.

(** A record with two columns named [a]: the row has one. *)
Example duplicate_columns_collapse :
  _serialize_results (map PyLib.dict_of_record [duplicate_columns])
  = [ [ ("a", VInt 3); ("b", VFloat 0.5) ] ].
Proof. reflexivity. Qed.

(** ** What the session commands hold *)

(** The shift that [int] makes of the digits of a float cuts the value
    [m * 2 ^ e] down to a whole number. *)
Lemma shiftl_whole_part (m : positive) (e : Z) :
  let v := (inject_Z (Zpos m) * 2 ^ e)%Q in
  0 <= Z.shiftl (Zpos m) e
  /\ (0 < v)%Q
  /\ (inject_Z (Z.shiftl (Zpos m) e) <= v)%Q
  /\ (v < inject_Z (Z.shiftl (Zpos m) e) + 1)%Q.
Proof.
  intros v.
  assert (Hv : (0 < v)%Q).
  { unfold v. apply Qmult_lt_0_compat; [ reflexivity | ].
    apply Qpower_0_lt. reflexivity. }
  split; [ apply Z.shiftl_nonneg; lia | ]. split; [ exact Hv | ].
  destruct (Z.le_gt_cases 0 e) as [ He | He ].
  - rewrite Z.shiftl_mul_pow2 by exact He.
    assert (Heq : (v == inject_Z (Zpos m * 2 ^ e))%Q).
    { unfold v. rewrite inject_Z_mult, Zpower_Qpower by exact He. reflexivity. }
    rewrite Heq. split; [ apply Qle_refl | ].
    change 1%Q with (inject_Z 1).
    rewrite <- inject_Z_plus, <- Zlt_Qlt. lia.
  - rewrite Z.shiftl_div_pow2 by lia.
    assert (Hd : 0 < 2 ^ (- e)) by (apply Z.pow_pos_nonneg; lia).
    assert (Heq : (v == inject_Z (Zpos m) / inject_Z (2 ^ (- e)))%Q).
    { unfold v. rewrite Zpower_Qpower by lia.
      replace e with (- - e) at 1 by lia. now rewrite Qpower_opp. }
    assert (Hdq : (0 < inject_Z (2 ^ (- e)))%Q).
    { change 0%Q with (inject_Z 0). now rewrite <- Zlt_Qlt. }
    rewrite Heq. split.
    + apply Qle_shift_div_l; [ exact Hdq | ].
      rewrite <- inject_Z_mult, <- Zle_Qle.
      rewrite Z.mul_comm. apply Z.mul_div_le. exact Hd.
    + apply Qlt_shift_div_r; [ exact Hdq | ].
      change 1%Q with (inject_Z 1).
      rewrite <- inject_Z_plus, <- inject_Z_mult, <- Zlt_Qlt.
      rewrite Z.mul_comm. apply Z.mul_succ_div_gt. exact Hd.
Qed.

(** [int(x)] is the value of [x] cut to a whole number towards zero. *)
Lemma int_of_float_whole_part (x : float) (n : Z) :
  Py.int_of_float x = Py.Int n ->
  exists p,
    float_value x = Some p
    /\ ((0 <= p)%Q ->
        0 <= n /\ (inject_Z n <= p)%Q /\ (p < inject_Z n + 1)%Q)
    /\ ((p <= 0)%Q ->
        n <= 0 /\ (inject_Z n - 1 < p)%Q /\ (p <= inject_Z n)%Q).
Proof.
  unfold Py.int_of_float, float_value.
  destruct (Prim2SF x) as [ s | s | | s m e ]; try discriminate.
  - intros H. injection H as <-. exists 0%Q. split; [ reflexivity | ].
    split; intros _; (split; [ lia | split; vm_compute; congruence ]).
  - cbv zeta. intros H. injection H as <-.
    destruct (shiftl_whole_part m e) as (H0 & Hv & Hle & Hlt).
    cbv zeta in Hv, Hle, Hlt.
    eexists. split; [ reflexivity | ].
    destruct s.
    + assert (Hneg : (inject_Z (Z.neg m) * 2 ^ e
                      == - (inject_Z (Z.pos m) * 2 ^ e))%Q).
      { change (Z.neg m) with (- Z.pos m). rewrite inject_Z_opp. ring. }
      rewrite Hneg. split.
      * intros Hp. exfalso.
        apply (Qlt_irrefl 0%Q).
        apply Qlt_le_trans with (inject_Z (Z.pos m) * 2 ^ e)%Q; [ exact Hv | ].
        apply Qopp_le_compat in Hp. rewrite Qopp_involutive in Hp. exact Hp.
      * intros _. split; [ lia | ]. rewrite inject_Z_opp. split.
        -- apply Qopp_lt_compat in Hlt.
           eapply Qle_lt_trans; [ | exact Hlt ].
           apply Qle_lteq. right. ring.
        -- now apply Qopp_le_compat.
    + split.
      * intros _. auto.
      * intros Hp. exfalso. apply (Qlt_irrefl 0%Q).
        now apply Qlt_le_trans with (inject_Z (Z.pos m) * 2 ^ e)%Q.
Qed.

(** When [int] accepts the timeout, the first statement of session
    hardening is issued, whatever follows. *)
Lemma _set_session_params_first (self : SQLExecutor) (db : Database)
    (conn : nat) (timeout : float) (ms : Z) (w : World) :
  Py.int_of_float (timeout * 1000) = Py.Int ms ->
  exists more,
    trace (snd (_set_session_params self db conn timeout w))
    = trace w ++ EvExecute conn (set_statement_timeout ms) :: more.
Proof.
  intros Hms.
  destruct (_set_session_params_cases self db conn timeout w)
    as [ (Hrun & _) | (e & issued & rest & Hrun & _ & Hne & Hcmds) ];
    rewrite Hrun; cbn [snd trace].
  - unfold session_commands. rewrite Hms. simpl. eexists. reflexivity.
  - destruct issued as [ | s issued ]; [ now elim (Hne ms Hms) | ].
    unfold session_commands in Hcmds. rewrite Hms in Hcmds. simpl in Hcmds.
    injection Hcmds as <- _. simpl. eexists. reflexivity.
Qed.

(** When [int] rejects the timeout, session hardening raises what [int]
    raises and issues no statement. *)
Lemma _set_session_params_rejected (self : SQLExecutor) (db : Database)
    (conn : nat) (timeout : float) (w : World) :
  match Py.int_of_float (timeout * 1000) with
  | Py.Int _ => True
  | Py.OverflowError =>
      _set_session_params self db conn timeout w
      = (Raise (PyException "OverflowError"
                  "cannot convert float infinity to integer"), w)
  | Py.ValueError =>
      _set_session_params self db conn timeout w
      = (Raise (PyException "ValueError"
                  "cannot convert float NaN to integer"), w)
  end.
Proof.
  unfold _set_session_params, int, bind.
  destruct (Py.int_of_float (timeout * 1000)); [ exact I | | ]; reflexivity.
Qed.

(** X16. The first statement of session hardening sets [statement_timeout]
    to [int(timeout * 1000)]: the binary64 product of the timeout and 1000,
    cut to a whole number towards zero.  When the product is a number, the
    statement is issued whatever follows it, and its milliseconds [ms] are
    the whole part of the product: never further from zero than the
    product, and less than one away from it.  When the product is an
    infinity or a NaN, [int] raises [OverflowError] or [ValueError] and
    session hardening raises it without issuing a statement. *)
Theorem statement_timeout_in_milliseconds (self : SQLExecutor)
    (db : Database) (conn : nat) (timeout : float) (w : World) :
  match Py.int_of_float (timeout * 1000) with
  | Py.Int ms =>
      (exists more,
         trace (snd (_set_session_params self db conn timeout w))
         = trace w
           ++ EvExecute conn
                ("SET statement_timeout = " ++ Py.str_of_int ms)%string
              :: more)
      /\ exists product,
           float_value (timeout * 1000) = Some product
           /\ ((0 <= product)%Q ->
               0 <= ms
               /\ (inject_Z ms <= product)%Q
               /\ (product < inject_Z ms + 1)%Q)
           /\ ((product <= 0)%Q ->
               ms <= 0
               /\ (inject_Z ms - 1 < product)%Q
               /\ (product <= inject_Z ms)%Q)
  | Py.OverflowError =>
      (exists negative, Prim2SF (timeout * 1000) = S754_infinity negative)
      /\ _set_session_params self db conn timeout w
         = (Raise (PyException "OverflowError"
                     "cannot convert float infinity to integer"), w)
  | Py.ValueError =>
      Prim2SF (timeout * 1000) = S754_nan
      /\ _set_session_params self db conn timeout w
         = (Raise (PyException "ValueError"
                     "cannot convert float NaN to integer"), w)
  end.
Proof.
  pose proof (_set_session_params_rejected self db conn timeout w) as Hrej.
  destruct (Py.int_of_float (timeout * 1000)) as [ ms | | ] eqn:Hms.
  - split.
    + apply _set_session_params_first. exact Hms.
    + apply int_of_float_whole_part. exact Hms.
  - split; [ | exact Hrej ].
    unfold Py.int_of_float in Hms.
    destruct (Prim2SF (timeout * 1000)) as [ s | s | | s m e ];
      try discriminate Hms.
    exists s. reflexivity.
  - split; [ | exact Hrej ].
    unfold Py.int_of_float in Hms.
    destruct (Prim2SF (timeout * 1000)) as [ s | s | | s m e ];
      try discriminate Hms.
    reflexivity.
Qed.

(** A timeout of [0.29] (the binary64 value nearest to it, which is below
    it) gives 290 milliseconds: the product is rounded to [290.0] before
    [int] cuts it. *)
Example statement_timeout_of_rounded_product :
  Py.int_of_float (0x1.28f5c28f5c28fp-2 * 1000) = Py.Int 290
  /\ trace (snd (_set_session_params example_executor (fun _ => serving [])
                   0 0x1.28f5c28f5c28fp-2 fresh))
     = [ EvExecute 0 "SET statement_timeout = 290";
         EvExecute 0 "SET search_path = 'public'";
         EvExecute 0 "SET ROLE readonly_user" ].
Proof. split; reflexivity. Qed.

(** A timeout of [1e308]: the product with 1000 is infinite, [int] raises
    [OverflowError] inside the first attempt, and [execute] wraps it as an
    unexpected error without a statement, a query or a retry. *)
Example statement_timeout_overflow :
  execute print_thirty example_executor (fun _ => serving three_records)
    "SELECT id FROM t" (Some 0x1.1ccf385ebc8ap+1023%float) None fresh
  = (Raise (DatabaseError
              ("Unexpected error during query execution: "
                 ++ "cannot convert float infinity to integer")%string
              [("error_type", DStr "OverflowError");
               ("error_message",
                 DStr "cannot convert float infinity to integer")]),
     {| acquired := 1;
        trace := [ EvAcquire 0; EvBegin 0; EvRollback 0; EvRelease 0 ] |}).
Proof. reflexivity. Qed.

Lemma search_path_char_no_metachar (c : ascii) :
  search_path_char c = true -> sql_metachar c = false.
Proof.
  destruct c as [ [] [] [] [] [] [] [] [] ]; vm_compute;
    intros H; reflexivity || discriminate H.
Qed.

Lemma role_char_no_metachar (c : ascii) :
  role_char c = true ->
  sql_metachar c = false /\ c <> " "%char /\ c <> ","%char.
Proof.
  destruct c as [ [] [] [] [] [] [] [] [] ]; vm_compute;
    intros H; (discriminate H || (repeat split; discriminate)).
Qed.

Lemma all_chars (p : ascii -> bool) (s : string) :
  Py.all p s = true -> Forall (fun c => p c = true) (chars s).
Proof.
  unfold chars. induction s as [ | c s IH ]; simpl; intros H;
    [ constructor | ].
  apply andb_prop in H. destruct H as (Hc & Hs). constructor; auto.
Qed.

(** X17. Every statement session hardening issues is the timeout command
    with the milliseconds of the timeout, or [SET search_path] with a path that passed its check, or [SET ROLE]
    with a configured role that passed its check.  A path that passed
    holds no quote, semicolon, backslash, dash, slash, star, bracket, line
    break or NUL; a role that passed holds none of these and no space or
    comma either. *)
Theorem session_commands_hold_checked_identifiers (self : SQLExecutor)
    (db : Database) (conn : nat) (timeout : float) (w : World) :
  exists issued,
    snd (_set_session_params self db conn timeout w)
    = {| acquired := acquired w;
         trace := trace w ++ map (EvExecute conn) issued |}
    /\ Forall
         (fun statement =>
            (exists ms,
               Py.int_of_float (timeout * 1000) = Py.Int ms
               /\ statement = set_statement_timeout ms)
            \/ (statement
                = set_search_path (safe_search_path (security_config self))
                /\ Forall (fun c => sql_metachar c = false)
                     (chars (safe_search_path (security_config self))))
            \/ exists role,
                 readonly_role (security_config self) = Some role
                 /\ statement = set_role role
                 /\ Forall (fun c => sql_metachar c = false
                                     /\ c <> " "%char /\ c <> ","%char)
                      (chars role))
         issued.
Proof.
  assert (Hpath :
    Py.all search_path_char (safe_search_path (security_config self)) = true ->
    Forall (fun c => sql_metachar c = false)
      (chars (safe_search_path (security_config self)))).
  { intros H. eapply Forall_impl; [ | apply all_chars; exact H ].
    intros c. apply search_path_char_no_metachar. }
  assert (Hrole : forall r,
    configured_role (security_config self) = Some r ->
    Py.all role_char r = true ->
    readonly_role (security_config self) = Some r
    /\ Forall (fun c => sql_metachar c = false
                        /\ c <> " "%char /\ c <> ","%char) (chars r)).
  { intros r Hr H. split.
    - unfold configured_role in Hr.
      destruct (readonly_role (security_config self)) as [ r' | ];
        [ | discriminate Hr ].
      destruct (Py.truthy_str r'); congruence.
    - eapply Forall_impl; [ | apply all_chars; exact H ].
      intros c. apply role_char_no_metachar. }
  run_session.
  destruct (Py.int_of_float (timeout * 1000)) as [ ms | | ]; simpl.
  2, 3: exists []; split;
    [ destruct w; simpl; now rewrite app_nil_r | constructor ].
  destruct (execute_error (db conn) (set_statement_timeout ms)) as [ e1 | ].
  { exists [set_statement_timeout ms].
    split; [ destruct e1; reflexivity | ].
    constructor; [ left; eauto | constructor ]. }
  destruct (Py.all search_path_char (safe_search_path (security_config self)))
    eqn:Hp; simpl.
  2: { exists [set_statement_timeout ms].
       split; [ reflexivity | ].
       constructor; [ left; eauto | constructor ]. }
  specialize (Hpath eq_refl).
  assert (Htwo : Forall
    (fun statement =>
       (exists ms',
          Py.Int ms = Py.Int ms' /\ statement = set_statement_timeout ms')
       \/ (statement = set_search_path (safe_search_path (security_config self))
           /\ Forall (fun c => sql_metachar c = false)
                (chars (safe_search_path (security_config self))))
       \/ exists role,
            readonly_role (security_config self) = Some role
            /\ statement = set_role role
            /\ Forall (fun c => sql_metachar c = false
                                /\ c <> " "%char /\ c <> ","%char)
                 (chars role))
    [set_statement_timeout ms;
     set_search_path (safe_search_path (security_config self))]).
  { constructor; [ left; eauto | ].
    constructor; [ right; left; auto | constructor ]. }
  destruct (execute_error (db conn)
              (set_search_path (safe_search_path (security_config self))))
    as [ e2 | ].
  { eexists [_; _]. split; [ | exact Htwo ].
    destruct e2; simpl; now rewrite <- app_assoc. }
  destruct (configured_role (security_config self)) as [ r | ] eqn:Hr; simpl.
  2: { eexists [_; _]. split; [ | exact Htwo ]. now rewrite <- app_assoc. }
  destruct (Py.all role_char r) eqn:Hrc; simpl.
  2: { eexists [_; _]. split; [ | exact Htwo ]. now rewrite <- app_assoc. }
  destruct (Hrole r eq_refl Hrc) as (Hconf & Hclean).
  exists [set_statement_timeout ms;
          set_search_path (safe_search_path (security_config self));
          set_role r].
  split.
  - unfold bind. simpl.
    destruct (execute_error (db conn) (set_role r)) as [ e3 | ];
      [ destruct e3 | ]; simpl; now rewrite <- !app_assoc.
  - apply Forall_app with (l1 := [_; _]) (l2 := [_]). split; [ exact Htwo | ].
    constructor; [ | constructor ]. right. right. exists r. auto.
Qed.

(** ** Failures of session commands, and the default retry settings *)

Lemma execute_session_failure_not_retried_witness :
  exists evs,
    execute print_thirty example_executor (fun _ => dropped) "SELECT 1"
      None None fresh
    = (Raise (DatabaseError
                ("Unexpected error during query execution: "
                   ++ "Failed to set session parameters: "
                   ++ "connection failure")%string
                [("error_type", DStr "DatabaseError");
                 ("error_message",
                   DStr ("Failed to set session parameters: "
                           ++ "connection failure")%string)]),
       {| acquired := 1; trace := evs |})
    /\ attempts_of evs = 1%nat
    /\ sleeps_of evs = [].
Proof.
  apply (execute_session_failure_not_retried print_thirty example_executor
           (fun _ => dropped) "SELECT 1" None None fresh 30000 (Some "08006")
           "connection failure").
  - simpl. lia.
  - reflexivity.
  - reflexivity.
  - reflexivity.
  - reflexivity.
Defined.

Lemma backoff_delays_default_total (r : nat) :
  (r <= 3)%nat ->
  backoff_delays 1 2 r = firstn r [1; 2; 4]%float
  /\ exists total,
       total_sleep (backoff_delays 1 2 r) = Some total /\ (total <= 7)%Q.
Proof.
  intros Hr.
  destruct r as [ | [ | [ | [ | r ] ] ] ]; [ | | | | lia ];
    (split; [ reflexivity | ]); eexists;
    (split; [ vm_compute; reflexivity | vm_compute; discriminate ]).
Qed.

(** X19. An executor built without a resilience configuration retries at
    most 3 times with delays of 1, 2 and 4 seconds: whatever the database
    does, a call makes at most 4 attempts, its sleeps are the first of 1,
    2 and 4 seconds, and it sleeps at most 7 seconds in all. *)
Theorem default_executor_bounds (float_str : float -> string)
    (security : SecurityConfig) (db : Database) (sql : string)
    (timeout : option float) (max_rows' : option Z) (w : World) :
  exists evs,
    trace (snd (execute float_str (init security None) db sql timeout
                  max_rows' w))
    = trace w ++ evs
    /\ (1 <= attempts_of evs <= 4)%nat
    /\ sleeps_of evs
       = firstn (attempts_of evs - 1) [1; 2; 4]%float
    /\ exists total,
         total_sleep (sleeps_of evs) = Some total /\ (total <= 7)%Q.
Proof.
  destruct (execute_shape float_str (init security None) db sql timeout
              max_rows' w) as (r & Hr & Hex & _); [ simpl; lia | ].
  rewrite Hex. cbn [snd trace]. eexists. split; [ reflexivity | ].
  rewrite call_trace_attempts by (intros n; apply attempt_effects).
  rewrite call_trace_sleeps by (intros n; apply attempt_effects).
  simpl in Hr. split; [ lia | ].
  replace (S r - 1)%nat with r by lia.
  apply backoff_delays_default_total. lia.
Qed.
